(** * Cloud control plane: provisioning, dispatch and reconciliation

    A shallow embedding of the Go control plane (package [cloud], its AWS
    and Kubernetes provisioners, the storage layer and the instance
    monitor), together with the properties of its specification.

    Conventions of the embedding:
    - Go [int] and [time.Duration] are 64-bit integers, carried in [Z];
      additions that the code performs on stored counters are wrapped
      explicitly ([wrap64]).
    - [time.Time] is a count of nanoseconds since Go's zero time, so that
      [IsZero] is a comparison with [0]; [*time.Time] is [option Time].
    - Go string-typed enumerations ([Platform], [InstanceState], EC2 state
      names, pod phases) stay strings, because the code has [default:]
      branches for values outside the named constants.
    - Calls that leave the process under study (store, billing service, EC2,
      Kubernetes, clock, UUID source, a registered provisioner, the event
      bus) are nodes of a program tree [Prog]; a handler gives them a
      meaning, and [Exec] relates a program to every run an environment can
      produce. *)

From Stdlib Require Import ZArith List String Bool Lia Arith ZifyBool.
From Stdlib Require Import Permutation Sorted.
From Stdlib Require Import Floats.SpecFloat.
Import ListNotations.
Local Open Scope string_scope.
Local Open Scope Z_scope.

Set Implicit Arguments.

(** ** Machine integers and time *)

Definition Time := Z.
Definition Duration := Z.

Definition Nanosecond : Duration := 1.
Definition Second : Duration := 1000000000.
Definition Minute : Duration := 60 * Second.
Definition Hour : Duration := 60 * Minute.

Definition min_int64 : Z := - 2 ^ 63.
Definition max_int64 : Z := 2 ^ 63 - 1.

(** Two's-complement wrap-around of a 64-bit signed integer. *)
Definition wrap64 (z : Z) : Z := (z + 2 ^ 63) mod 2 ^ 64 - 2 ^ 63.

(** [t.IsZero()] *)
Definition IsZero (t : Time) : bool := t =? 0.
(** [t.Before(u)] *)
Definition Before (t u : Time) : bool := t <? u.
(** [t.Add(d)] *)
Definition Add (t : Time) (d : Duration) : Time := t + d.
(** [time.Since(t)] evaluated when the clock reads [now]. *)
Definition Since (now t : Time) : Duration := now - t.

(** ** Domain types (package [types]) *)

Definition Platform := string.
Definition PlatformLinux : Platform := "linux".
Definition PlatformMacOS : Platform := "macos".
Definition PlatformWindows : Platform := "windows".

Definition InstanceState := string.
Definition InstanceStateRequested : InstanceState := "requested".
Definition InstanceStateProvisioning : InstanceState := "provisioning".
Definition InstanceStateRunning : InstanceState := "running".
Definition InstanceStateStopped : InstanceState := "stopped".
Definition InstanceStateTerminated : InstanceState := "terminated".
Definition InstanceStateFailed : InstanceState := "failed".

Definition ConnectionProtocol := string.
Definition ConnectionProtocolRDP : ConnectionProtocol := "rdp".
Definition ConnectionProtocolVNC : ConnectionProtocol := "vnc".
Definition ConnectionProtocolSSH : ConnectionProtocol := "ssh".
Definition ConnectionProtocolExec : ConnectionProtocol := "exec".
Definition ConnectionProtocolSSM : ConnectionProtocol := "ssm".

(** A Go [map[string]string]; iteration order is the order of the list. *)
Definition StrMap := list (string * string).

Fixpoint lookup (k : string) (m : StrMap) : option string :=
  match m with
  | [] => None
  | (k', v) :: m' => if String.eqb k k' then Some v else lookup k m'
  end.

(** [m[k]] on a string map: the zero value when the key is absent. *)
Definition index (m : StrMap) (k : string) : string :=
  match lookup k m with Some v => v | None => "" end.

Record ConnectionInfo := {
  ci_Protocol : ConnectionProtocol;
  ci_Host : string;
  ci_Port : Z;
  ci_Username : string;
  ci_Password : string;
  ci_KeyData : string;
  ci_Extra : StrMap
}.

Record CloudInstance := {
  ID : string;
  Platform_ : Platform;
  State : InstanceState;
  Provider : string;
  InstanceID : string;
  InstanceType : string;
  ImageID : string;
  Region : string;
  BotPackage : string;
  BotVersion : string;
  PublicIP : string;
  PrivateIP : string;
  AgentNodeID : string;
  TeamID : string;
  DedicatedHostID : string;
  HourlyRateCents : Z;
  AccruedCostCents : Z;
  BillingTier : string;
  ConnectionInfo_ : option ConnectionInfo;
  Metadata : string;
  Tags : StrMap;
  ErrorMessage : string;
  RequestedAt : Time;
  ProvisionedAt : option Time;
  TerminatedAt : option Time;
  CreatedAt : Time;
  UpdatedAt : Time
}.

(** The zero value of [CloudInstance]. *)
Definition zeroInstance : CloudInstance :=
  {| ID := ""; Platform_ := ""; State := ""; Provider := ""; InstanceID := "";
     InstanceType := ""; ImageID := ""; Region := ""; BotPackage := "";
     BotVersion := ""; PublicIP := ""; PrivateIP := ""; AgentNodeID := "";
     TeamID := ""; DedicatedHostID := ""; HourlyRateCents := 0;
     AccruedCostCents := 0; BillingTier := ""; ConnectionInfo_ := None;
     Metadata := ""; Tags := []; ErrorMessage := ""; RequestedAt := 0;
     ProvisionedAt := None; TerminatedAt := None; CreatedAt := 0;
     UpdatedAt := 0 |}.

(** Field assignments [inst.F = v] used by the manager and the monitor. *)
Definition set_State (v : InstanceState) (i : CloudInstance) : CloudInstance :=
  {| ID := ID i; Platform_ := Platform_ i; State := v; Provider := Provider i;
     InstanceID := InstanceID i; InstanceType := InstanceType i;
     ImageID := ImageID i; Region := Region i; BotPackage := BotPackage i;
     BotVersion := BotVersion i; PublicIP := PublicIP i;
     PrivateIP := PrivateIP i; AgentNodeID := AgentNodeID i;
     TeamID := TeamID i; DedicatedHostID := DedicatedHostID i;
     HourlyRateCents := HourlyRateCents i;
     AccruedCostCents := AccruedCostCents i; BillingTier := BillingTier i;
     ConnectionInfo_ := ConnectionInfo_ i; Metadata := Metadata i;
     Tags := Tags i; ErrorMessage := ErrorMessage i;
     RequestedAt := RequestedAt i; ProvisionedAt := ProvisionedAt i;
     TerminatedAt := TerminatedAt i; CreatedAt := CreatedAt i;
     UpdatedAt := UpdatedAt i |}.

Definition set_IPs (pub priv : string) (i : CloudInstance) : CloudInstance :=
  {| ID := ID i; Platform_ := Platform_ i; State := State i;
     Provider := Provider i;
     InstanceID := InstanceID i; InstanceType := InstanceType i;
     ImageID := ImageID i; Region := Region i; BotPackage := BotPackage i;
     BotVersion := BotVersion i; PublicIP := pub;
     PrivateIP := priv; AgentNodeID := AgentNodeID i;
     TeamID := TeamID i; DedicatedHostID := DedicatedHostID i;
     HourlyRateCents := HourlyRateCents i;
     AccruedCostCents := AccruedCostCents i; BillingTier := BillingTier i;
     ConnectionInfo_ := ConnectionInfo_ i; Metadata := Metadata i;
     Tags := Tags i; ErrorMessage := ErrorMessage i;
     RequestedAt := RequestedAt i; ProvisionedAt := ProvisionedAt i;
     TerminatedAt := TerminatedAt i; CreatedAt := CreatedAt i;
     UpdatedAt := UpdatedAt i |}.

Definition set_Billing (rate : Z) (tier : string) (i : CloudInstance)
  : CloudInstance :=
  {| ID := ID i; Platform_ := Platform_ i; State := State i;
     Provider := Provider i;
     InstanceID := InstanceID i; InstanceType := InstanceType i;
     ImageID := ImageID i; Region := Region i; BotPackage := BotPackage i;
     BotVersion := BotVersion i; PublicIP := PublicIP i;
     PrivateIP := PrivateIP i; AgentNodeID := AgentNodeID i;
     TeamID := TeamID i; DedicatedHostID := DedicatedHostID i;
     HourlyRateCents := rate;
     AccruedCostCents := AccruedCostCents i; BillingTier := tier;
     ConnectionInfo_ := ConnectionInfo_ i; Metadata := Metadata i;
     Tags := Tags i; ErrorMessage := ErrorMessage i;
     RequestedAt := RequestedAt i; ProvisionedAt := ProvisionedAt i;
     TerminatedAt := TerminatedAt i; CreatedAt := CreatedAt i;
     UpdatedAt := UpdatedAt i |}.

Definition set_AccruedCostCents (v : Z) (i : CloudInstance) : CloudInstance :=
  {| ID := ID i; Platform_ := Platform_ i; State := State i;
     Provider := Provider i;
     InstanceID := InstanceID i; InstanceType := InstanceType i;
     ImageID := ImageID i; Region := Region i; BotPackage := BotPackage i;
     BotVersion := BotVersion i; PublicIP := PublicIP i;
     PrivateIP := PrivateIP i; AgentNodeID := AgentNodeID i;
     TeamID := TeamID i; DedicatedHostID := DedicatedHostID i;
     HourlyRateCents := HourlyRateCents i;
     AccruedCostCents := v; BillingTier := BillingTier i;
     ConnectionInfo_ := ConnectionInfo_ i; Metadata := Metadata i;
     Tags := Tags i; ErrorMessage := ErrorMessage i;
     RequestedAt := RequestedAt i; ProvisionedAt := ProvisionedAt i;
     TerminatedAt := TerminatedAt i; CreatedAt := CreatedAt i;
     UpdatedAt := UpdatedAt i |}.

Definition set_ErrorMessage (v : string) (i : CloudInstance) : CloudInstance :=
  {| ID := ID i; Platform_ := Platform_ i; State := State i;
     Provider := Provider i;
     InstanceID := InstanceID i; InstanceType := InstanceType i;
     ImageID := ImageID i; Region := Region i; BotPackage := BotPackage i;
     BotVersion := BotVersion i; PublicIP := PublicIP i;
     PrivateIP := PrivateIP i; AgentNodeID := AgentNodeID i;
     TeamID := TeamID i; DedicatedHostID := DedicatedHostID i;
     HourlyRateCents := HourlyRateCents i;
     AccruedCostCents := AccruedCostCents i; BillingTier := BillingTier i;
     ConnectionInfo_ := ConnectionInfo_ i; Metadata := Metadata i;
     Tags := Tags i; ErrorMessage := v;
     RequestedAt := RequestedAt i; ProvisionedAt := ProvisionedAt i;
     TerminatedAt := TerminatedAt i; CreatedAt := CreatedAt i;
     UpdatedAt := UpdatedAt i |}.

Definition set_Stamps (prov term : option Time) (created updated : Time)
  (i : CloudInstance) : CloudInstance :=
  {| ID := ID i; Platform_ := Platform_ i; State := State i;
     Provider := Provider i;
     InstanceID := InstanceID i; InstanceType := InstanceType i;
     ImageID := ImageID i; Region := Region i; BotPackage := BotPackage i;
     BotVersion := BotVersion i; PublicIP := PublicIP i;
     PrivateIP := PrivateIP i; AgentNodeID := AgentNodeID i;
     TeamID := TeamID i; DedicatedHostID := DedicatedHostID i;
     HourlyRateCents := HourlyRateCents i;
     AccruedCostCents := AccruedCostCents i; BillingTier := BillingTier i;
     ConnectionInfo_ := ConnectionInfo_ i; Metadata := Metadata i;
     Tags := Tags i; ErrorMessage := ErrorMessage i;
     RequestedAt := RequestedAt i; ProvisionedAt := prov;
     TerminatedAt := term; CreatedAt := created;
     UpdatedAt := updated |}.

Definition set_UpdatedAt (t : Time) (i : CloudInstance) : CloudInstance :=
  set_Stamps (ProvisionedAt i) (TerminatedAt i) (CreatedAt i) t i.
Definition set_TerminatedAt (t : option Time) (i : CloudInstance) :=
  set_Stamps (ProvisionedAt i) t (CreatedAt i) (UpdatedAt i) i.
Definition set_ProvisionedAt (t : option Time) (i : CloudInstance) :=
  set_Stamps t (TerminatedAt i) (CreatedAt i) (UpdatedAt i) i.

Record ProvisionRequest := {
  req_Platform : Platform;
  req_BotPackage : string;
  req_BotVersion : string;
  req_InstanceType : string;
  req_TeamID : string;
  req_Tags : StrMap;
  req_Metadata : string
}.

Record CommandResult := {
  ExitCode : Z;
  Stdout : string;
  Stderr : string
}.

Record DedicatedHost := {
  dh_ID : string;
  dh_HostID : string;
  dh_InstanceType : string;
  dh_State : string;
  dh_CurrentInstanceID : string;
  dh_AllocatedAt : option Time;
  dh_ReleasedAt : option Time;
  dh_MinAllocation : Duration;
  dh_CreatedAt : Time;
  dh_UpdatedAt : Time
}.

(** [host.State = s; host.CurrentInstanceID = c; host.AllocatedAt = a;
    host.ReleasedAt = r] *)
Definition set_host (s c : string) (a r : option Time) (h : DedicatedHost)
  : DedicatedHost :=
  {| dh_ID := dh_ID h; dh_HostID := dh_HostID h;
     dh_InstanceType := dh_InstanceType h; dh_State := s;
     dh_CurrentInstanceID := c; dh_AllocatedAt := a; dh_ReleasedAt := r;
     dh_MinAllocation := dh_MinAllocation h; dh_CreatedAt := dh_CreatedAt h;
     dh_UpdatedAt := dh_UpdatedAt h |}.

Record InstanceFilters := {
  f_Platform : option Platform;
  f_State : option InstanceState;
  f_TeamID : option string;
  f_Provider : option string;
  f_Limit : Z;
  f_Offset : Z
}.

Definition noFilters : InstanceFilters :=
  {| f_Platform := None; f_State := None; f_TeamID := None;
     f_Provider := None; f_Limit := 0; f_Offset := 0 |}.

Definition stateFilter (s : InstanceState) : InstanceFilters :=
  {| f_Platform := None; f_State := Some s; f_TeamID := None;
     f_Provider := None; f_Limit := 0; f_Offset := 0 |}.

(** A [json.RawMessage]; [None] is the nil message. The payload is kept as
    the marshalled value's description. *)
Inductive Payload :=
| PayloadMap (m : StrMap)
| PayloadInstance (i : CloudInstance).

Record CloudEvent := {
  ev_ID : string;
  ev_Type : string;
  ev_InstanceID : string;
  ev_Timestamp : Time;
  ev_Data : option Payload
}.

(** ** Errors (errors.go) *)

Inductive error :=
| ErrCloudDisabled
| ErrProviderDisabled
| ErrInstanceNotFound
| ErrInstanceAlreadyExists
| ErrInvalidPlatform
| ErrNoAvailableHost
| ErrProvisioningTimeout
| ErrMaxInstancesReached
| ErrInvalidState
| ErrHostMinAllocation
| ErrBillingNotAuthorized
| ErrBillingQuotaExceeded
| ErrBillingServiceUnavailable
(** [&ProvisionError{InstanceID, Platform, Provider, Err}] *)
| ProvisionError (instanceID : string) (platform : Platform)
    (provider : string) (err : error)
(** [fmt.Errorf(msg)] without a wrapped error *)
| Errorf (msg : string)
(** [fmt.Errorf] with [%w]: the formatted message and the wrapped error *)
| Wrapf (msg : string) (wrapped : error)
(** an error raised outside this code base (network, database, SDK) *)
| External (msg : string).

(** [e.Unwrap()] *)
Definition Unwrap (e : error) : option error :=
  match e with
  | ProvisionError _ _ _ err => Some err
  | Wrapf _ w => Some w
  | _ => None
  end.

Inductive result (A : Type) :=
| Ok (a : A)
| Err (e : error).
Arguments Ok {A} a.
Arguments Err {A} e.

Definition is_ok {A} (r : result A) : bool :=
  match r with Ok _ => true | Err _ => false end.

(** ** Event bus (package [cloud], events) *)

Definition EventInstanceRequested := "instance.requested".
Definition EventInstanceProvisioning := "instance.provisioning".
Definition EventInstanceRunning := "instance.running".
Definition EventInstanceStopped := "instance.stopped".
Definition EventInstanceTerminated := "instance.terminated".
Definition EventInstanceFailed := "instance.failed".
Definition EventInstanceConnected := "instance.connected".
Definition EventHostAllocated := "host.allocated".
Definition EventHostReleased := "host.released".

Module EventBus.

(** A subscriber channel: its pending events, oldest first. Every channel
    is made with capacity 32. *)
Definition chanCap : nat := 32.

Record t := {
  subscribers : list (string * list CloudEvent);
  buffer : list CloudEvent;
  bufferSize : Z
}.

Definition NewEventBus (bufferSize : Z) : t :=
  let bufferSize := if bufferSize <=? 0 then 100 else bufferSize in
  {| subscribers := []; buffer := []; bufferSize := bufferSize |}.

Definition len {A} (l : list A) : Z := Z.of_nat (List.length l).

(** The two stamps of [Publish]: a fresh id when the event has none, the
    current time when its timestamp is zero. *)
Definition stamp (uuid : string) (now : Time) (event : CloudEvent)
  : CloudEvent :=
  {| ev_ID := if String.eqb (ev_ID event) "" then uuid else ev_ID event;
     ev_Type := ev_Type event;
     ev_InstanceID := ev_InstanceID event;
     ev_Timestamp :=
       if IsZero (ev_Timestamp event) then now else ev_Timestamp event;
     ev_Data := ev_Data event |}.

(** The non-blocking send [select { case ch <- event: default: }]. *)
Definition trySend (event : CloudEvent) (ch : list CloudEvent)
  : list CloudEvent :=
  if (List.length ch <? chanCap)%nat then ch ++ [event] else ch.

Definition Publish (uuid : string) (now : Time) (event : CloudEvent)
  (eb : t) : t :=
  let event := stamp uuid now event in
  let buf := if len (buffer eb) >=? bufferSize eb
             then tl (buffer eb) else buffer eb in
  {| subscribers :=
       map (fun s => (fst s, trySend event (snd s))) (subscribers eb);
     buffer := buf ++ [event];
     bufferSize := bufferSize eb |}.

Definition Subscribe (id : string) (eb : t) : t :=
  {| subscribers :=
       (id, []) :: filter (fun s => negb (String.eqb (fst s) id))
                     (subscribers eb);
     buffer := buffer eb;
     bufferSize := bufferSize eb |}.

Definition Unsubscribe (id : string) (eb : t) : t :=
  {| subscribers :=
       filter (fun s => negb (String.eqb (fst s) id)) (subscribers eb);
     buffer := buffer eb;
     bufferSize := bufferSize eb |}.

Definition Recent (limit : Z) (eb : t) : list CloudEvent :=
  let limit :=
    if (limit <=? 0) || (limit >? len (buffer eb))
    then len (buffer eb) else limit in
  let start := len (buffer eb) - limit in
  firstn (Z.to_nat limit) (skipn (Z.to_nat start) (buffer eb)).

(** The limit that [Recent] works with. *)
Definition effective (limit : Z) (eb : t) : Z :=
  if (limit <=? 0) || (limit >? len (buffer eb))
  then len (buffer eb) else limit.

(** A sequence of [Publish] calls, each with the id and the clock reading
    it would draw. *)
Fixpoint publishAll (evs : list (string * Time * CloudEvent)) (eb : t) : t :=
  match evs with
  | [] => eb
  | (uuid, now, e) :: rest => publishAll rest (Publish uuid now e eb)
  end.

Definition stamped (evs : list (string * Time * CloudEvent))
  : list CloudEvent :=
  map (fun x => stamp (fst (fst x)) (snd (fst x)) (snd x)) evs.

(** What a bus built by [NewEventBus] and driven by [Publish] always
    satisfies. *)
Definition wf (eb : t) : Prop :=
  0 < bufferSize eb /\ len (buffer eb) <= bufferSize eb.

(** The last [n] elements of a list. *)
Definition lastn {A} (n : nat) (l : list A) : list A :=
  skipn (List.length l - n) l.

(** The pending events of the channel registered under [id], when there
    is one. *)
Definition channel (id : string) (eb : t) : option (list CloudEvent) :=
  option_map snd
    (List.find (fun s => String.eqb (fst s) id) (subscribers eb)).

(** What the callers of a bus do to it, and a bus driven by a sequence of
    such calls. *)
Inductive op :=
| OpPublish (uuid : string) (now : Time) (event : CloudEvent)
| OpSubscribe (id : string)
| OpUnsubscribe (id : string).

Definition step (eb : t) (o : op) : t :=
  match o with
  | OpPublish uuid now event => Publish uuid now event eb
  | OpSubscribe id => Subscribe id eb
  | OpUnsubscribe id => Unsubscribe id eb
  end.

Definition drive (ops : list op) (eb : t) : t := fold_left step ops eb.

(** Distinct subscriber ids, and no channel over its capacity. *)
Definition channelsBounded (eb : t) : Prop :=
  NoDup (map fst (subscribers eb))
  /\ Forall (fun s => (List.length (snd s) <= chanCap)%nat) (subscribers eb).

End EventBus.

(** ** IEEE 754 binary64, as Go's [float64] *)

Module F64.

Definition prec : Z := 53.
Definition emax : Z := 1024.
Definition t := spec_float.

(** [float64(z)] for an integer [z]: rounded to nearest, ties to even. *)
Definition of_int (z : Z) : t := binary_normalize prec emax z 0 false.

Definition add (x y : t) : t := SFadd prec emax x y.
Definition mul (x y : t) : t := SFmul prec emax x y.
Definition div (x y : t) : t := SFdiv prec emax x y.

(** The integer part of a float, rounded toward zero; [None] for NaN and
    the infinities. *)
Definition trunc (x : t) : option Z :=
  match x with
  | S754_zero _ => Some 0
  | S754_finite s m e =>
      let a := if 0 <=? e then Z.pos m * 2 ^ e else Z.pos m / 2 ^ (- e) in
      Some (if s then - a else a)
  | _ => None
  end.

(** [int(x)]: truncation toward zero. Outside the range of [int] the Go
    language leaves the result to the implementation; amd64 yields the
    smallest integer, which is what is written here. *)
Definition to_int (x : t) : Z :=
  match trunc x with
  | Some z => if (min_int64 <=? z) && (z <=? max_int64) then z else min_int64
  | None => min_int64
  end.

End F64.

(** [d.Hours()] of package [time]. *)
Definition Hours (d : Duration) : F64.t :=
  let hour := Z.quot d Hour in
  let nsec := Z.rem d Hour in
  F64.add (F64.of_int hour) (F64.div (F64.of_int nsec) (F64.of_int Hour)).

(** ** Configuration (package [cloud], config) *)

Record AWSMacOSConfig := {
  DedicatedHostIDs : list string;
  mac_AMIID : string;
  mac_InstanceType : string;
  MinHostAllocation : Duration;
  IdleHostRelease : Duration
}.

Record AWSWindowsConfig := {
  win_AMIID : string;
  DefaultInstanceType : string
}.

Record AWSConfig := {
  aws_Enabled : bool;
  aws_Region : string;
  VPCID : string;
  SubnetIDs : list string;
  SecurityGroupID : string;
  IAMInstanceProfile : string;
  MacOS : AWSMacOSConfig;
  Windows : AWSWindowsConfig
}.

Record K8sConfig := {
  k8s_Enabled : bool;
  Namespace : string;
  DefaultImage : string;
  ServiceAccount : string
}.

Record BillingConfig := {
  billing_Enabled : bool;
  ServiceURL : string;
  APIKey : string
}.

Record CloudConfig := {
  Enabled : bool;
  AWS : AWSConfig;
  K8s : K8sConfig;
  Billing : BillingConfig;
  MaxInstancesPerTeam : Z;
  ProvisioningTimeout : Duration;
  MonitorInterval : Duration
}.

Definition orDefault (s d : string) : string :=
  if String.eqb s "" then d else s.
Definition orDefaultZ (z d : Z) : Z := if z =? 0 then d else z.

(** [c.Defaults()] *)
Definition Defaults (c : CloudConfig) : CloudConfig :=
  {| Enabled := Enabled c;
     AWS :=
       {| aws_Enabled := aws_Enabled (AWS c);
          aws_Region := orDefault (aws_Region (AWS c)) "us-east-1";
          VPCID := VPCID (AWS c);
          SubnetIDs := SubnetIDs (AWS c);
          SecurityGroupID := SecurityGroupID (AWS c);
          IAMInstanceProfile := IAMInstanceProfile (AWS c);
          MacOS :=
            {| DedicatedHostIDs := DedicatedHostIDs (MacOS (AWS c));
               mac_AMIID := mac_AMIID (MacOS (AWS c));
               mac_InstanceType :=
                 orDefault (mac_InstanceType (MacOS (AWS c))) "mac2.metal";
               MinHostAllocation :=
                 orDefaultZ (MinHostAllocation (MacOS (AWS c))) (24 * Hour);
               IdleHostRelease :=
                 orDefaultZ (IdleHostRelease (MacOS (AWS c))) (25 * Hour) |};
          Windows :=
            {| win_AMIID := win_AMIID (Windows (AWS c));
               DefaultInstanceType :=
                 orDefault (DefaultInstanceType (Windows (AWS c)))
                   "t3.large" |} |};
     K8s :=
       {| k8s_Enabled := k8s_Enabled (K8s c);
          Namespace := orDefault (Namespace (K8s c)) "hanzo";
          DefaultImage :=
            orDefault (DefaultImage (K8s c))
              "ghcr.io/hanzoai/agent:sdk-latest";
          ServiceAccount := orDefault (ServiceAccount (K8s c)) "default" |};
     Billing := Billing c;
     MaxInstancesPerTeam := orDefaultZ (MaxInstancesPerTeam c) 10;
     ProvisioningTimeout := orDefaultZ (ProvisioningTimeout c) (10 * Minute);
     MonitorInterval := orDefaultZ (MonitorInterval c) (30 * Second) |}.

(** ** Billing types *)

Record BillingAuth := {
  Authorized : bool;
  Tier : string;
  HourlyCents : Z;
  Reason : string;
  BillingAccount : string
}.

Record CloudQuota := {
  q_Tier : string;
  MaxLinuxInstances : Z;
  MaxWindowsInstances : Z;
  MaxMacOSInstances : Z;
  MaxComputeHours : Z
}.

(** What the billing service sends back to an HTTP request: the status code
    and the body, decoded when it is well-formed JSON of the expected
    shape. *)
Record HTTPResponse (A : Type) := {
  StatusCode : Z;
  Body : option A
}.

(** ** EC2 and Kubernetes API types *)

Record Ec2Instance := {
  ec2_InstanceId : string;
  ec2_StateName : string;
  ec2_InstanceType : string;
  ec2_PrivateIpAddress : string;
  ec2_PublicIpAddress : string;
  ec2_Tags : StrMap
}.

Record Ec2Filter := {
  Name : string;
  Values : list string
}.

Record RunInstancesInput := {
  in_ImageId : string;
  in_InstanceType : string;
  in_UserData : string;
  in_PlacementHostId : option string;
  in_Tags : StrMap;
  in_SubnetId : option string;
  in_SecurityGroupIds : list string;
  in_IamInstanceProfile : option string;
  in_KeyName : option string
}.

Record UserDataParams := {
  ud_ControlPlaneURL : string;
  ud_APIKey : string;
  ud_InstanceID : string;
  ud_BotPackage : string;
  ud_BotVersion : string
}.

Record Pod := {
  pod_Name : string;
  pod_Namespace : string;
  pod_Labels : StrMap;
  pod_Phase : string;
  pod_PodIP : string;
  pod_Image : string;
  pod_Env : StrMap;
  pod_ServiceAccountName : string;
  pod_RestartPolicy : string;
  pod_Requests : StrMap;
  pod_Limits : StrMap
}.

(** ** Programs over external calls *)

(** The receivers of interface calls. A [CloudProvisioner] is one of the two
    provisioners of this code base; a [BillingAuthorizer] is one of the two
    clients that [NewCloudManager] can install. *)
Record AWSProvisioner := {
  awsCfg : AWSConfig;
  aws_hasStore : bool;
  aws_serverURL : string;
  aws_apiKey : string
}.

Record K8sProvisioner := {
  k8sCfg : K8sConfig;
  k8s_serverURL : string;
  k8s_apiKey : string
}.

Inductive CloudProvisioner :=
| ProvAWS (p : AWSProvisioner)
| ProvK8s (p : K8sProvisioner).

Inductive BillingAuthorizer :=
| NoopBillingClient
| HTTPBillingClient (baseURL apiKey : string).

Inductive Call : Type -> Type :=
(* clock and identifiers *)
| TimeNow : Call Time
| NewUUID : Call string
(* storage.StorageProvider *)
| CreateCloudInstance (inst : CloudInstance) : Call (option error)
| GetCloudInstance (id : string) : Call (result CloudInstance)
| UpdateCloudInstance (inst : CloudInstance) : Call (option error)
| ListCloudInstances (filters : InstanceFilters)
    : Call (result (list CloudInstance))
| DeleteCloudInstance (id : string) : Call (option error)
| CountCloudInstancesByTeam (teamID : string) : Call (result Z)
| CreateDedicatedHost (host : DedicatedHost) : Call (option error)
| GetDedicatedHost (id : string) : Call (result DedicatedHost)
| UpdateDedicatedHost (host : DedicatedHost) : Call (option error)
| ListDedicatedHosts : Call (result (list DedicatedHost))
| GetAvailableDedicatedHost : Call (result DedicatedHost)
(* cloud.BillingAuthorizer *)
| AuthorizeProvisioning (b : BillingAuthorizer) (teamID : string)
    (platform : Platform) (instanceType : string) : Call (result BillingAuth)
| ReportUsage (b : BillingAuthorizer) (instanceID : string)
    (platform : Platform) (hours : F64.t) (hourlyCents : Z)
    : Call (option error)
(* cloud.CloudProvisioner, on the provisioner object [p] *)
| ProvCreateInstance (p : CloudProvisioner) (req : ProvisionRequest)
    : Call (result CloudInstance)
| ProvGetInstance (p : CloudProvisioner) (id : string) : Call (result CloudInstance)
| ProvListInstances (p : CloudProvisioner) (filters : InstanceFilters)
    : Call (result (list CloudInstance))
| ProvStartInstance (p : CloudProvisioner) (id : string) : Call (option error)
| ProvStopInstance (p : CloudProvisioner) (id : string) : Call (option error)
| ProvTerminateInstance (p : CloudProvisioner) (id : string) : Call (option error)
| ProvGetConnectionInfo (p : CloudProvisioner) (id : string)
    : Call (result ConnectionInfo)
| ProvExecuteCommand (p : CloudProvisioner) (id command : string)
    : Call (result CommandResult)
| ProvGetLogs (p : CloudProvisioner) (id : string) (lines : Z) : Call (result string)
(* the manager's event bus *)
| BusPublish (event : CloudEvent) : Call unit
(* the billing service endpoint *)
| HTTPAuthorize (url apiKey teamID : string) (platform : Platform)
    (instanceType : string) : Call (result (HTTPResponse BillingAuth))
| HTTPUsage (url apiKey instanceID : string) (platform : Platform)
    (hours : F64.t) (hourlyCents : Z) : Call (result (HTTPResponse unit))
(* EC2 *)
| EC2RunInstances (input : RunInstancesInput) : Call (result Ec2Instance)
| EC2DescribeInstances (filters : list Ec2Filter)
    : Call (result (list (list Ec2Instance)))
| EC2StartInstances (ids : list string) : Call (option error)
| EC2StopInstances (ids : list string) : Call (option error)
| EC2TerminateInstances (ids : list string) : Call (option error)
| RenderUserData (platform : string) (params : UserDataParams)
    : Call (result string)
(* Kubernetes *)
| K8sCreatePod (namespace : string) (pod : Pod) : Call (result Pod)
| K8sListPods (namespace : string) (labelSelector : StrMap)
    : Call (result (list Pod))
| K8sDeletePod (namespace name : string) : Call (option error).

Inductive Prog (R : Type) : Type :=
| Ret (r : R)
| Do (X : Type) (c : Call X) (k : X -> Prog R).
Arguments Ret {R} r.
Arguments Do {R X} c k.

Fixpoint bind {A B : Type} (p : Prog A) (k : A -> Prog B) : Prog B :=
  match p with
  | Ret a => k a
  | Do c f => Do c (fun x => bind (f x) k)
  end.

Definition call {X : Type} (c : Call X) : Prog X := Do c (fun x => Ret x).

Declare Scope prog_scope.
Delimit Scope prog_scope with prog.
Notation "x <- p ;; q" := (bind p (fun x => q))
  (at level 61, p at next level, right associativity) : prog_scope.
Notation "p ;; q" := (bind p (fun _ => q))
  (at level 61, right associativity) : prog_scope.
Local Open Scope prog_scope.

(** [for _, x := range l { body x }], when the body neither breaks nor
    returns. *)
Fixpoint forEach {A : Type} (l : list A) (body : A -> Prog unit) : Prog unit :=
  match l with
  | [] => Ret tt
  | x :: l' => body x ;; forEach l' body
  end.

(** One answered call of a run. *)
Inductive Event : Type :=
| Ev (X : Type) (c : Call X) (x : X).
Arguments Ev {X} c x.

Definition Trace := list Event.

(** [Exec p tr r]: some environment answers the calls of [p] as recorded in
    [tr], and [p] then returns [r]. *)
Fixpoint Exec {R : Type} (p : Prog R) (tr : Trace) (r : R) : Prop :=
  match p with
  | Ret r' => tr = [] /\ r = r'
  | Do c k => exists x tr', tr = Ev c x :: tr' /\ Exec (k x) tr' r
  end.

(** An environment with state [W]. *)
Definition Handler (W : Type) := forall X : Type, Call X -> W -> X * W.

Fixpoint run {W R : Type} (h : Handler W) (p : Prog R) (w : W)
  : R * W * Trace :=
  match p with
  | Ret r => (r, w, [])
  | Do c k =>
      let '(x, w1) := h _ c w in
      let '(r, w2, tr) := run h (k x) w1 in
      (r, w2, Ev c x :: tr)
  end.

(** An event whose answer is the one that handler [h] gives in some state
    of the environment. *)
Definition answeredBy {W : Type} (h : Handler W) (e : Event) : Prop :=
  match e with
  | Ev c x => exists w, x = fst (h _ c w)
  end.

(** Classes of calls, for statements about what a run did not do. *)
Definition isProvisionerCall (e : Event) : bool :=
  match e with
  | Ev (ProvCreateInstance _ _) _ | Ev (ProvGetInstance _ _) _
  | Ev (ProvListInstances _ _) _ | Ev (ProvStartInstance _ _) _
  | Ev (ProvStopInstance _ _) _ | Ev (ProvTerminateInstance _ _) _
  | Ev (ProvGetConnectionInfo _ _) _ | Ev (ProvExecuteCommand _ _ _) _
  | Ev (ProvGetLogs _ _ _) _ => true
  | _ => false
  end.

Definition isStoreWrite (e : Event) : bool :=
  match e with
  | Ev (CreateCloudInstance _) _ | Ev (UpdateCloudInstance _) _
  | Ev (DeleteCloudInstance _) _ | Ev (CreateDedicatedHost _) _
  | Ev (UpdateDedicatedHost _) _ => true
  | _ => false
  end.

(** Whether a call writes the instance table of the store. *)
Definition writesInstances {X : Type} (c : Call X) : bool :=
  match c with
  | CreateCloudInstance _ | UpdateCloudInstance _ | DeleteCloudInstance _ =>
      true
  | _ => false
  end.

Definition isInstanceWrite (e : Event) : bool :=
  match e with
  | Ev c _ => writesInstances c
  end.

(** A program none of whose calls writes the instance table, whatever the
    answers it gets. *)
Fixpoint sparesInstances {R : Type} (p : Prog R) : Prop :=
  match p with
  | Ret _ => True
  | Do c k => writesInstances c = false /\ forall x, sparesInstances (k x)
  end.

Definition isBillingCall (e : Event) : bool :=
  match e with
  | Ev (AuthorizeProvisioning _ _ _ _) _ | Ev (ReportUsage _ _ _ _ _) _ => true
  | _ => false
  end.

Definition isPublish (e : Event) : bool :=
  match e with
  | Ev (BusPublish _) _ => true
  | _ => false
  end.

(** Whether an optional error or a result is a failure. *)
Definition isSome {A} (o : option A) : bool :=
  match o with Some _ => true | None => false end.

Definition isErr {A} (r : result A) : bool :=
  match r with Err _ => true | Ok _ => false end.

(** The billing authorization call, and whether it came back with an
    error. *)
Definition isAuthorize (e : Event) : bool :=
  match e with
  | Ev (AuthorizeProvisioning _ _ _ _) _ => true
  | _ => false
  end.

Definition authorizeFailed (e : Event) : bool :=
  match e with
  | Ev c x =>
      match c in Call X return X -> bool with
      | AuthorizeProvisioning _ _ _ _ => fun x => isErr x
      | _ => fun _ => false
      end x
  end.

Definition authorizeGranted (e : Event) : bool :=
  match e with
  | Ev c x =>
      match c in Call X return X -> bool with
      | AuthorizeProvisioning _ _ _ _ =>
          fun x => match x with Ok auth => Authorized auth | Err _ => false end
      | _ => fun _ => false
      end x
  end.

Definition isProvCreate (e : Event) : bool :=
  match e with
  | Ev (ProvCreateInstance _ _) _ => true
  | _ => false
  end.

(** The team count query: whether it failed, and whether it returned a
    count of at least [cap]. *)
Definition countFailed (e : Event) : bool :=
  match e with
  | Ev c x =>
      match c in Call X return X -> bool with
      | CountCloudInstancesByTeam _ => fun x => isErr x
      | _ => fun _ => false
      end x
  end.

Definition countReached (cap : Z) (e : Event) : bool :=
  match e with
  | Ev c x =>
      match c in Call X return X -> bool with
      | CountCloudInstancesByTeam _ =>
          fun x => match x with Ok n => n >=? cap | Err _ => false end
      | _ => fun _ => false
      end x
  end.

(** The records that a run handed to [UpdateCloudInstance], to
    [UpdateDedicatedHost] and to [Publish], in order. *)
Fixpoint instanceWrites (tr : Trace) : list CloudInstance :=
  match tr with
  | [] => []
  | Ev (UpdateCloudInstance inst) _ :: tr' => inst :: instanceWrites tr'
  | _ :: tr' => instanceWrites tr'
  end.

Fixpoint hostWrites (tr : Trace) : list DedicatedHost :=
  match tr with
  | [] => []
  | Ev (UpdateDedicatedHost host) _ :: tr' => host :: hostWrites tr'
  | _ :: tr' => hostWrites tr'
  end.

Fixpoint published (tr : Trace) : list CloudEvent :=
  match tr with
  | [] => []
  | Ev (BusPublish event) _ :: tr' => event :: published tr'
  | _ :: tr' => published tr'
  end.

(** The clock readings of a run, in order. *)
Fixpoint clockReadings (tr : Trace) : list Time :=
  match tr with
  | [] => []
  | Ev TimeNow t :: tr' => t :: clockReadings tr'
  | _ :: tr' => clockReadings tr'
  end.

Fixpoint nondecreasing (l : list Time) : Prop :=
  match l with
  | [] => True
  | t :: l' =>
      match l' with
      | [] => True
      | u :: _ => t <= u /\ nondecreasing l'
      end
  end.

(** What a released host record says about its hold time: it was allocated
    at some [a], released at some [t], and [t - a] is at least [d]. *)
Definition heldAtLeast (d : Duration) (h : DedicatedHost) : Prop :=
  exists a t,
    dh_AllocatedAt h = Some a /\ dh_ReleasedAt h = Some t /\ d <= t - a.

(** Further readings of a run: what was handed to [CreateCloudInstance] and
    to [RunInstances], which records [UpdateCloudInstance] accepted, what
    was reported to billing, which provisioners were asked for an instance,
    and what the provisioners and the store listed. *)
Definition createOf (e : Event) : list CloudInstance :=
  match e with
  | Ev (CreateCloudInstance inst) _ => [inst]
  | _ => []
  end.

Definition instanceCreates (tr : Trace) : list CloudInstance :=
  flat_map createOf tr.

Definition launchOf (e : Event) : list RunInstancesInput :=
  match e with
  | Ev (EC2RunInstances input) _ => [input]
  | _ => []
  end.

Definition launches (tr : Trace) : list RunInstancesInput :=
  flat_map launchOf tr.

Definition savedOf (e : Event) : list CloudInstance :=
  match e with
  | Ev c x =>
      match c in Call X return X -> list CloudInstance with
      | UpdateCloudInstance inst =>
          fun x => match x with None => [inst] | Some _ => [] end
      | _ => fun _ => []
      end x
  end.

Definition savedOk (tr : Trace) : list CloudInstance := flat_map savedOf tr.

Definition usageOf (e : Event) : list (string * Platform * F64.t * Z) :=
  match e with
  | Ev (ReportUsage _ instanceID platform hours hourlyCents) _ =>
      [(instanceID, platform, hours, hourlyCents)]
  | _ => []
  end.

Definition usageReports (tr : Trace) : list (string * Platform * F64.t * Z) :=
  flat_map usageOf tr.

Definition lookupOf (e : Event) : list (CloudProvisioner * string) :=
  match e with
  | Ev (ProvGetInstance p id) _ => [(p, id)]
  | _ => []
  end.

Definition provisionerLookups (tr : Trace) : list (CloudProvisioner * string) :=
  flat_map lookupOf tr.

(** The instances that provisioners returned for a lookup, and the rows that
    the store returned for one. *)
Definition lookupAnswerOf (e : Event) : list (CloudProvisioner * CloudInstance) :=
  match e with
  | Ev c x =>
      match c in Call X return X -> list (CloudProvisioner * CloudInstance) with
      | ProvGetInstance p _ =>
          fun x => match x with Ok inst => [(p, inst)] | Err _ => [] end
      | _ => fun _ => []
      end x
  end.

Definition lookupAnswers (tr : Trace) : list (CloudProvisioner * CloudInstance) :=
  flat_map lookupAnswerOf tr.

Definition storeHitOf (e : Event) : list CloudInstance :=
  match e with
  | Ev c x =>
      match c in Call X return X -> list CloudInstance with
      | GetCloudInstance _ =>
          fun x => match x with Ok inst => [inst] | Err _ => [] end
      | _ => fun _ => []
      end x
  end.

Definition storeHits (tr : Trace) : list CloudInstance :=
  flat_map storeHitOf tr.

(** The instances that the provisioners listed, failed listings left out. *)
Definition listedOf (e : Event) : list CloudInstance :=
  match e with
  | Ev c x =>
      match c in Call X return X -> list CloudInstance with
      | ProvListInstances _ _ =>
          fun x => match x with Ok l => l | Err _ => [] end
      | _ => fun _ => []
      end x
  end.

Definition listed (tr : Trace) : list CloudInstance := flat_map listedOf tr.

Definition listingCallOf (e : Event) : list (CloudProvisioner * InstanceFilters) :=
  match e with
  | Ev (ProvListInstances p filters) _ => [(p, filters)]
  | _ => []
  end.

Definition listingCalls (tr : Trace)
  : list (CloudProvisioner * InstanceFilters) :=
  flat_map listingCallOf tr.

(** The answers of the store to [ListCloudInstances]: [Some] of the rows, or
    [None] for a failed query. *)
Definition storeListingOf (e : Event) : list (option (list CloudInstance)) :=
  match e with
  | Ev c x =>
      match c in Call X return X -> list (option (list CloudInstance)) with
      | ListCloudInstances _ =>
          fun x => match x with Ok l => [Some l] | Err _ => [None] end
      | _ => fun _ => []
      end x
  end.

Definition storeListings (tr : Trace) : list (option (list CloudInstance)) :=
  flat_map storeListingOf tr.

(** A billing authorization that came back with [Authorized = false], and
    the reasons given. *)
Definition denialOf (e : Event) : list string :=
  match e with
  | Ev c x =>
      match c in Call X return X -> list string with
      | AuthorizeProvisioning _ _ _ _ =>
          fun x => match x with
                   | Ok auth => if Authorized auth then [] else [Reason auth]
                   | Err _ => []
                   end
      | _ => fun _ => []
      end x
  end.

Definition denials (tr : Trace) : list string := flat_map denialOf tr.

(** The authorizations that were granted. *)
Definition grantOf (e : Event) : list BillingAuth :=
  match e with
  | Ev c x =>
      match c in Call X return X -> list BillingAuth with
      | AuthorizeProvisioning _ _ _ _ =>
          fun x => match x with
                   | Ok auth => if Authorized auth then [auth] else []
                   | Err _ => []
                   end
      | _ => fun _ => []
      end x
  end.

Definition grants (tr : Trace) : list BillingAuth := flat_map grantOf tr.

(** The instances that a provisioner created. *)
Definition createdOf (e : Event) : list CloudInstance :=
  match e with
  | Ev c x =>
      match c in Call X return X -> list CloudInstance with
      | ProvCreateInstance _ _ =>
          fun x => match x with Ok inst => [inst] | Err _ => [] end
      | _ => fun _ => []
      end x
  end.

Definition provisioned (tr : Trace) : list CloudInstance :=
  flat_map createdOf tr.

(** The creations asked of provisioners: which provisioner, with which
    request. *)
Definition createCallOf (e : Event) : list (CloudProvisioner * ProvisionRequest) :=
  match e with
  | Ev (ProvCreateInstance p req) _ => [(p, req)]
  | _ => []
  end.

Definition createCalls (tr : Trace)
  : list (CloudProvisioner * ProvisionRequest) :=
  flat_map createCallOf tr.

(** The authorizations asked of billing: of which client, for which team,
    platform and instance type. *)
Definition authorizeCallOf (e : Event)
  : list (BillingAuthorizer * string * Platform * string) :=
  match e with
  | Ev (AuthorizeProvisioning b teamID platform instanceType) _ =>
      [(b, teamID, platform, instanceType)]
  | _ => []
  end.

Definition authorizeCalls (tr : Trace)
  : list (BillingAuthorizer * string * Platform * string) :=
  flat_map authorizeCallOf tr.

(** The errors with which provisioners refused to create an instance. *)
Definition refusalOf (e : Event) : list error :=
  match e with
  | Ev c x =>
      match c in Call X return X -> list error with
      | ProvCreateInstance _ _ =>
          fun x => match x with Ok _ => [] | Err err => [err] end
      | _ => fun _ => []
      end x
  end.

Definition refusals (tr : Trace) : list error := flat_map refusalOf tr.

(** The host records that [UpdateDedicatedHost] accepted. *)
Definition hostSavedOf (e : Event) : list DedicatedHost :=
  match e with
  | Ev c x =>
      match c in Call X return X -> list DedicatedHost with
      | UpdateDedicatedHost host =>
          fun x => match x with None => [host] | Some _ => [] end
      | _ => fun _ => []
      end x
  end.

Definition hostSaved (tr : Trace) : list DedicatedHost :=
  flat_map hostSavedOf tr.

(** [TerminateInstances] accepted by EC2. *)
Definition ec2Terminated (e : Event) : bool :=
  match e with
  | Ev c x =>
      match c in Call X return X -> bool with
      | EC2TerminateInstances _ => fun x => negb (isSome x)
      | _ => fun _ => false
      end x
  end.

(** The instance ids of the published events of type [eventType]. *)
Definition announced (eventType : string) (tr : Trace) : list string :=
  map ev_InstanceID
    (filter (fun ev => String.eqb (ev_Type ev) eventType) (published tr)).

(** ** CloudManager *)

Module Manager.

Record t := {
  config : CloudConfig;
  hasStore : bool;  (* [m.store != nil] *)
  provisioners : list (Platform * CloudProvisioner);
  billing : BillingAuthorizer
}.

Definition NewCloudManager (cfg : CloudConfig) (store : bool) : t :=
  {| config := cfg;
     hasStore := store;
     provisioners := [];
     billing :=
       if billing_Enabled (Billing cfg)
          && negb (String.eqb (ServiceURL (Billing cfg)) "")
       then HTTPBillingClient (ServiceURL (Billing cfg))
              (APIKey (Billing cfg))
       else NoopBillingClient |}.

(** The bus that [NewCloudManager] creates. *)
Definition newEventBus : EventBus.t := EventBus.NewEventBus 200.

(** [m.provisioners[platform] = p] *)
Definition assign (platform : Platform) (p : CloudProvisioner)
  (ps : list (Platform * CloudProvisioner))
  : list (Platform * CloudProvisioner) :=
  (platform, p)
    :: filter (fun kv => negb (String.eqb (fst kv) platform)) ps.

Definition RegisterProvisioner (platforms : list Platform)
  (p : CloudProvisioner) (m : t) : t :=
  {| config := config m;
     hasStore := hasStore m;
     provisioners :=
       fold_left (fun ps platform => assign platform p ps) platforms
         (provisioners m);
     billing := billing m |}.

(** [eb.EmitInstanceEvent(eventType, instanceID, data)] *)
Definition EmitInstanceEvent (eventType instanceID : string)
  (data : option Payload) : Prog unit :=
  now <- call TimeNow ;;
  call (BusPublish {| ev_ID := ""; ev_Type := eventType;
                      ev_InstanceID := instanceID; ev_Timestamp := now;
                      ev_Data := data |}).

Fixpoint find (platform : Platform) (ps : list (Platform * CloudProvisioner))
  : option CloudProvisioner :=
  match ps with
  | [] => None
  | (k, p) :: ps' => if String.eqb k platform then Some p else find platform ps'
  end.

Definition getProvisioner (m : t) (platform : Platform)
  : result CloudProvisioner :=
  match find platform (provisioners m) with
  | Some prov => Ok prov
  | None =>
      Err (Wrapf ("invalid platform: no provisioner for platform "
                    ++ platform) ErrInvalidPlatform)
  end.

Definition CreateInstance (m : t) (req : ProvisionRequest)
  : Prog (result CloudInstance) :=
  if negb (Enabled (config m)) then Ret (Err ErrCloudDisabled) else
  (* Check team instance limit. *)
  reached <-
    (if negb (String.eqb (req_TeamID req) "") && hasStore m then
       r <- call (CountCloudInstancesByTeam (req_TeamID req)) ;;
       Ret (match r with
            | Ok count => count >=? MaxInstancesPerTeam (config m)
            | Err _ => false
            end)
     else Ret false) ;;
  if (reached : bool) then Ret (Err ErrMaxInstancesReached) else
  (* Billing authorization check. *)
  a <- call (AuthorizeProvisioning (billing m) (req_TeamID req)
               (req_Platform req) (req_InstanceType req)) ;;
  match a with
  | Err _ => Ret (Err ErrBillingServiceUnavailable)
  | Ok auth =>
      if negb (Authorized auth) then
        Ret (Err (Wrapf ("billing authorization denied: " ++ Reason auth)
                    ErrBillingNotAuthorized))
      else
        match getProvisioner m (req_Platform req) with
        | Err e => Ret (Err e)
        | Ok prov =>
            EmitInstanceEvent EventInstanceRequested ""
              (Some (PayloadMap [("platform", req_Platform req);
                                 ("bot_package", req_BotPackage req);
                                 ("team_id", req_TeamID req)])) ;;
            r <- call (ProvCreateInstance prov req) ;;
            match r with
            | Err e => Ret (Err e)
            | Ok inst =>
                (* Attach billing metadata to instance. *)
                let inst := set_Billing (HourlyCents auth) (Tier auth) inst in
                (* Persist to storage. *)
                (if hasStore m
                 then _ <- call (CreateCloudInstance inst) ;; Ret tt
                 else Ret tt) ;;
                EmitInstanceEvent EventInstanceProvisioning (ID inst)
                  (Some (PayloadInstance inst)) ;;
                Ret (Ok inst)
            end
        end
  end.

(** The loop of [GetInstance] over the registered provisioners; the order
    of the list stands for the order in which Go walks the map. *)
Fixpoint scanProvisioners (ps : list (Platform * CloudProvisioner))
  (instanceID : string) : Prog (result CloudInstance) :=
  match ps with
  | [] => Ret (Err ErrInstanceNotFound)
  | (_, prov) :: ps' =>
      r <- call (ProvGetInstance prov instanceID) ;;
      match r with
      | Ok inst => Ret (Ok inst)
      | Err _ => scanProvisioners ps' instanceID
      end
  end.

Definition GetInstance (m : t) (instanceID : string)
  : Prog (result CloudInstance) :=
  if negb (Enabled (config m)) then Ret (Err ErrCloudDisabled) else
  (* Try storage first. *)
  found <-
    (if hasStore m then
       r <- call (GetCloudInstance instanceID) ;;
       Ret (match r with Ok inst => Some inst | Err _ => None end)
     else Ret None) ;;
  match found with
  | Some inst => Ret (Ok inst)
  | None => scanProvisioners (provisioners m) instanceID
  end.

(** The aggregation loop of [ListInstances]. *)
Fixpoint listAll (ps : list (Platform * CloudProvisioner))
  (filters : InstanceFilters) : Prog (list CloudInstance) :=
  match ps with
  | [] => Ret []
  | (_, prov) :: ps' =>
      r <- call (ProvListInstances prov filters) ;;
      rest <- listAll ps' filters ;;
      Ret (match r with Ok l => (l ++ rest)%list | Err _ => rest end)
  end.

Definition ListInstances (m : t) (filters : InstanceFilters)
  : Prog (result (list CloudInstance)) :=
  if negb (Enabled (config m)) then Ret (Err ErrCloudDisabled) else
  if hasStore m then call (ListCloudInstances filters)
  else all <- listAll (provisioners m) filters ;; Ret (Ok all).

Definition resolveInstance (m : t) (instanceID : string)
  : Prog (result (CloudInstance * CloudProvisioner)) :=
  if negb (Enabled (config m)) then Ret (Err ErrCloudDisabled) else
  r <- GetInstance m instanceID ;;
  match r with
  | Err e => Ret (Err e)
  | Ok inst =>
      match getProvisioner m (Platform_ inst) with
      | Err e => Ret (Err e)
      | Ok prov => Ret (Ok (inst, prov))
      end
  end.

(** [if m.store != nil { inst.State = s; _ = m.store.UpdateCloudInstance }] *)
Definition storeState (m : t) (inst : CloudInstance) (s : InstanceState)
  : Prog unit :=
  if hasStore m
  then _ <- call (UpdateCloudInstance (set_State s inst)) ;; Ret tt
  else Ret tt.

Definition StartInstance (m : t) (instanceID : string)
  : Prog (option error) :=
  r <- resolveInstance m instanceID ;;
  match r with
  | Err e => Ret (Some e)
  | Ok (inst, prov) =>
      e <- call (ProvStartInstance prov instanceID) ;;
      match e with
      | Some e => Ret (Some e)
      | None =>
          storeState m inst InstanceStateRunning ;;
          Ret None
      end
  end.

Definition StopInstance (m : t) (instanceID : string)
  : Prog (option error) :=
  r <- resolveInstance m instanceID ;;
  match r with
  | Err e => Ret (Some e)
  | Ok (inst, prov) =>
      e <- call (ProvStopInstance prov instanceID) ;;
      match e with
      | Some e => Ret (Some e)
      | None =>
          storeState m inst InstanceStateStopped ;;
          EmitInstanceEvent EventInstanceStopped instanceID None ;;
          Ret None
      end
  end.

Definition TerminateInstance (m : t) (instanceID : string)
  : Prog (option error) :=
  r <- resolveInstance m instanceID ;;
  match r with
  | Err e => Ret (Some e)
  | Ok (inst, prov) =>
      e <- call (ProvTerminateInstance prov instanceID) ;;
      match e with
      | Some e => Ret (Some e)
      | None =>
          storeState m inst InstanceStateTerminated ;;
          EmitInstanceEvent EventInstanceTerminated instanceID None ;;
          Ret None
      end
  end.

Definition GetConnectionInfo (m : t) (instanceID : string)
  : Prog (result ConnectionInfo) :=
  r <- resolveInstance m instanceID ;;
  match r with
  | Err e => Ret (Err e)
  | Ok (_, prov) => call (ProvGetConnectionInfo prov instanceID)
  end.

Definition ExecuteCommand (m : t) (instanceID command : string)
  : Prog (result CommandResult) :=
  r <- resolveInstance m instanceID ;;
  match r with
  | Err e => Ret (Err e)
  | Ok (_, prov) => call (ProvExecuteCommand prov instanceID command)
  end.

Definition GetLogs (m : t) (instanceID : string) (lines : Z)
  : Prog (result string) :=
  r <- resolveInstance m instanceID ;;
  match r with
  | Err e => Ret (Err e)
  | Ok (_, prov) => call (ProvGetLogs prov instanceID lines)
  end.

(** What a successful start, stop or terminate leaves in the trace: the
    store write of the new state, when there is a store, and the event
    handed to the bus. *)
Definition newStateWrite (m : t) (inst : CloudInstance) (s : InstanceState)
  : list CloudInstance :=
  if hasStore m then [set_State s inst] else [].

Definition lifecycleEvent (eventType instanceID : string) (now : Time)
  : CloudEvent :=
  {| ev_ID := ""; ev_Type := eventType; ev_InstanceID := instanceID;
     ev_Timestamp := now; ev_Data := None |}.

End Manager.

(** ** Billing clients *)

Module Billing.

(** [platformHourlyCents]: the default hourly rate of a platform. *)
Definition platformHourlyCents (p : Platform) : Z :=
  if String.eqb p PlatformMacOS then 120
  else if String.eqb p PlatformWindows then 10
  else if String.eqb p PlatformLinux then 1
  else 10.

Definition Noop_AuthorizeProvisioning (platform : Platform)
  : result BillingAuth :=
  Ok {| Authorized := true; Tier := "unlimited";
        HourlyCents := platformHourlyCents platform;
        Reason := ""; BillingAccount := "" |}.

Definition Noop_ReportUsage : option error := None.

Definition Noop_GetTeamQuota : result CloudQuota :=
  Ok {| q_Tier := "unlimited"; MaxLinuxInstances := 100;
        MaxWindowsInstances := 10; MaxMacOSInstances := 5;
        MaxComputeHours := 0 |}.

(** [HTTPBillingClient.AuthorizeProvisioning]: a transport failure and an
    undecodable body are errors; any decoded body is returned, whatever
    the status code. *)
Definition HTTP_AuthorizeProvisioning (baseURL apiKey teamID : string)
  (platform : Platform) (instanceType : string)
  : Prog (result BillingAuth) :=
  resp <- call (HTTPAuthorize (baseURL ++ "/v1/billing/cloud/authorize")
                  apiKey teamID platform instanceType) ;;
  match resp with
  | Err e => Ret (Err (Wrapf "billing service unreachable" e))
  | Ok resp =>
      match Body resp with
      | None =>
          Ret (Err (Wrapf "billing response decode failed"
                      (External "json")))
      | Some auth => Ret (Ok auth)
      end
  end.

(** [HTTPBillingClient.ReportUsage]: failures are logged, never returned. *)
Definition HTTP_ReportUsage (baseURL apiKey instanceID : string)
  (platform : Platform) (hours : F64.t) (hourlyCents : Z)
  : Prog (option error) :=
  _ <- call (HTTPUsage (baseURL ++ "/v1/billing/cloud/usage") apiKey
               instanceID platform hours hourlyCents) ;;
  Ret None.

(** Dispatch of an interface call on the installed client. *)
Definition authorize (b : BillingAuthorizer) (teamID : string)
  (platform : Platform) (instanceType : string)
  : Prog (result BillingAuth) :=
  match b with
  | NoopBillingClient => Ret (Noop_AuthorizeProvisioning platform)
  | HTTPBillingClient baseURL apiKey =>
      HTTP_AuthorizeProvisioning baseURL apiKey teamID platform instanceType
  end.

Definition report (b : BillingAuthorizer) (instanceID : string)
  (platform : Platform) (hours : F64.t) (hourlyCents : Z)
  : Prog (option error) :=
  match b with
  | NoopBillingClient => Ret Noop_ReportUsage
  | HTTPBillingClient baseURL apiKey =>
      HTTP_ReportUsage baseURL apiKey instanceID platform hours hourlyCents
  end.

End Billing.

(** ** Instance monitor *)

Module Monitor.

Record t := {
  manager : Manager.t;
  config : CloudConfig
}.

Definition NewCloudInstanceMonitor (manager : Manager.t) (cfg : CloudConfig)
  : t :=
  {| manager := manager; config := cfg |}.

(** The cost of one interval:
    [int(float64(rate) * intervalHours)], at least one cent. *)
Definition costCents (rate : Z) (intervalHours : F64.t) : Z :=
  let costCents := F64.to_int (F64.mul (F64.of_int rate) intervalHours) in
  if costCents <? 1 then 1 else costCents.

(** The body of the loop of [accrueUsageCosts]. *)
Definition accrueOne (m : t) (intervalHours : F64.t) (inst : CloudInstance)
  : Prog unit :=
  if HourlyRateCents inst <=? 0 then Ret tt else
  (* Accrue cost for this interval. *)
  let costCents := costCents (HourlyRateCents inst) intervalHours in
  let inst :=
    set_AccruedCostCents (wrap64 (AccruedCostCents inst + costCents)) inst in
  e <- call (UpdateCloudInstance inst) ;;
  match e with
  | Some _ => Ret tt
  | None =>
      (* Report usage to billing service. *)
      _ <- call (ReportUsage (Manager.billing (manager m)) (ID inst)
                   (Platform_ inst) intervalHours (HourlyRateCents inst)) ;;
      Ret tt
  end.

Definition accrueUsageCosts (m : t) : Prog unit :=
  r <- call (ListCloudInstances (stateFilter InstanceStateRunning)) ;;
  match r with
  | Err _ => Ret tt
  | Ok instances =>
      let intervalHours := Hours (MonitorInterval (config m)) in
      forEach instances (accrueOne m intervalHours)
  end.

Definition cleanupStaleProvisioning (m : t) : Prog unit :=
  r <- call (ListCloudInstances (stateFilter InstanceStateProvisioning)) ;;
  match r with
  | Err _ => Ret tt
  | Ok instances =>
      now <- call TimeNow ;;
      (* [-m.config.ProvisioningTimeout]: the negation of an int64 *)
      let cutoff := Add now (wrap64 (- ProvisioningTimeout (config m))) in
      forEach instances (fun inst =>
        if Before (CreatedAt inst) cutoff then
          e <- Manager.TerminateInstance (manager m) (ID inst) ;;
          (match e with
           | Some _ =>
               (* Mark as failed. *)
               let inst :=
                 set_ErrorMessage "provisioning timeout"
                   (set_State InstanceStateFailed inst) in
               _ <- call (UpdateCloudInstance inst) ;; Ret tt
           | None => Ret tt
           end) ;;
          Manager.EmitInstanceEvent EventInstanceFailed (ID inst)
            (Some (PayloadMap [("reason", "provisioning_timeout")]))
        else Ret tt)
  end.

(** The body of the loop of [syncInstanceStates]. *)
Definition syncOne (m : t) (inst : CloudInstance) : Prog unit :=
  match Manager.getProvisioner (manager m) (Platform_ inst) with
  | Err _ => Ret tt
  | Ok prov =>
      r <- call (ProvGetInstance prov (ID inst)) ;;
      match r with
      | Err _ => Ret tt
      | Ok live =>
          if negb (String.eqb (State live) (State inst)) then
            now <- call TimeNow ;;
            let inst :=
              set_UpdatedAt now
                (set_IPs (PublicIP live) (PrivateIP live)
                   (set_State (State live) inst)) in
            inst <-
              (if String.eqb (State live) InstanceStateTerminated
               then now <- call TimeNow ;;
                    Ret (set_TerminatedAt (Some now) inst)
               else Ret inst) ;;
            inst <-
              (if String.eqb (State live) InstanceStateRunning
                  && match ProvisionedAt inst with
                     | None => true | Some _ => false end
               then now <- call TimeNow ;;
                    Ret (set_ProvisionedAt (Some now) inst)
               else Ret inst) ;;
            _ <- call (UpdateCloudInstance inst) ;;
            (* Emit appropriate event. *)
            if String.eqb (State live) InstanceStateRunning then
              Manager.EmitInstanceEvent EventInstanceRunning (ID inst)
                (Some (PayloadInstance inst))
            else if String.eqb (State live) InstanceStateTerminated then
              Manager.EmitInstanceEvent EventInstanceTerminated (ID inst) None
            else if String.eqb (State live) InstanceStateFailed then
              Manager.EmitInstanceEvent EventInstanceFailed (ID inst) None
            else Ret tt
          else Ret tt
      end
  end.

Definition syncInstanceStates (m : t) : Prog unit :=
  r <- call (ListCloudInstances (stateFilter InstanceStateRunning)) ;;
  match r with
  | Err _ => Ret tt
  | Ok instances => forEach instances (syncOne m)
  end.

(** The body of the loop of [releaseIdleHosts]. *)
Definition releaseOne (m : t) (host : DedicatedHost) : Prog unit :=
  if negb (String.eqb (dh_State host) "allocated")
     || negb (String.eqb (dh_CurrentInstanceID host) "")
  then Ret tt else
  match dh_AllocatedAt host with
  | None => Ret tt
  | Some idleSince =>
      t <- call TimeNow ;;
      if Since t idleSince >? IdleHostRelease (MacOS (AWS (config m))) then
        now <- call TimeNow ;;
        let host :=
          set_host "available" (dh_CurrentInstanceID host)
            (dh_AllocatedAt host) (Some now) host in
        e <- call (UpdateDedicatedHost host) ;;
        match e with
        | Some _ => Ret tt
        | None =>
            Manager.EmitInstanceEvent EventHostReleased (dh_HostID host) None
        end
      else Ret tt
  end.

Definition releaseIdleHosts (m : t) : Prog unit :=
  if negb (aws_Enabled (AWS (config m))) then Ret tt else
  r <- call ListDedicatedHosts ;;
  match r with
  | Err _ => Ret tt
  | Ok hosts => forEach hosts (releaseOne m)
  end.

Definition tick (m : t) : Prog unit :=
  cleanupStaleProvisioning m ;;
  syncInstanceStates m ;;
  accrueUsageCosts m ;;
  releaseIdleHosts m.

End Monitor.

(** ** AWS provisioner *)

Module AWSProv.

Definition ProviderName : string := "aws".

(** [ec2StateToInstanceState] *)
Definition ec2StateToInstanceState (state : string) : InstanceState :=
  if String.eqb state "pending" then InstanceStateProvisioning
  else if String.eqb state "running" then InstanceStateRunning
  else if String.eqb state "stopping" || String.eqb state "stopped"
       then InstanceStateStopped
  else if String.eqb state "shutting-down" || String.eqb state "terminated"
       then InstanceStateTerminated
  else InstanceStateFailed.

(** The two filters of [describeInstanceByTag]. *)
Definition describeFilters (instanceID : string) : list Ec2Filter :=
  [ {| Name := "tag:hanzo.ai/cloud-instance"; Values := [instanceID] |};
    {| Name := "instance-state-name";
       Values := ["pending"; "running"; "stopping"; "stopped"] |} ].

(** The first instance of the first non-empty reservation. *)
Fixpoint firstInstance (reservations : list (list Ec2Instance))
  : option Ec2Instance :=
  match reservations with
  | [] => None
  | res :: rest =>
      match res with
      | i :: _ => Some i
      | [] => firstInstance rest
      end
  end.

Definition describeInstanceByTag (instanceID : string)
  : Prog (result Ec2Instance) :=
  out <- call (EC2DescribeInstances (describeFilters instanceID)) ;;
  match out with
  | Err e => Ret (Err (Wrapf "failed to describe instances" e))
  | Ok reservations =>
      match firstInstance reservations with
      | Some i => Ret (Ok i)
      | None => Ret (Err ErrInstanceNotFound)
      end
  end.

(** The value of the last tag with key [key], or [dflt]. *)
Definition tagOr (key dflt : string) (tags : StrMap) : string :=
  fold_left (fun acc kv => if String.eqb (fst kv) key then snd kv else acc)
    tags dflt.

Definition GetInstance (p : AWSProvisioner) (instanceID : string)
  : Prog (result CloudInstance) :=
  r <- describeInstanceByTag instanceID ;;
  match r with
  | Err e => Ret (Err e)
  | Ok ec2Instance =>
      let state := ec2StateToInstanceState (ec2_StateName ec2Instance) in
      let platform :=
        tagOr "hanzo.ai/platform" PlatformWindows (ec2_Tags ec2Instance) in
      Ret (Ok
        {| ID := instanceID; Platform_ := platform; State := state;
           Provider := "aws";
           InstanceID := ec2_InstanceId ec2Instance;
           InstanceType := ec2_InstanceType ec2Instance;
           ImageID := ""; Region := aws_Region (awsCfg p);
           BotPackage :=
             tagOr "hanzo.ai/bot-package" "" (ec2_Tags ec2Instance);
           BotVersion := "";
           PublicIP := ec2_PublicIpAddress ec2Instance;
           PrivateIP := ec2_PrivateIpAddress ec2Instance;
           AgentNodeID := "";
           TeamID := tagOr "hanzo.ai/team" "" (ec2_Tags ec2Instance);
           DedicatedHostID :=
             tagOr "hanzo.ai/dedicated-host" "" (ec2_Tags ec2Instance);
           HourlyRateCents := 0; AccruedCostCents := 0; BillingTier := "";
           ConnectionInfo_ := None; Metadata := ""; Tags := [];
           ErrorMessage := ""; RequestedAt := 0; ProvisionedAt := None;
           TerminatedAt := None; CreatedAt := 0; UpdatedAt := 0 |})
  end.

(** [acquireDedicatedHost] *)
Definition acquireDedicatedHost (p : AWSProvisioner) (instanceID : string)
  : Prog (result DedicatedHost) :=
  if negb (aws_hasStore p) then
    Ret (Err (Errorf "storage required for dedicated host management"))
  else
    (* Try to find an available host in the DB. *)
    r <- call GetAvailableDedicatedHost ;;
    match r with
    | Ok host =>
        now <- call TimeNow ;;
        let host :=
          set_host "allocated" instanceID (Some now) (dh_ReleasedAt host)
            host in
        e <- call (UpdateDedicatedHost host) ;;
        match e with
        | Some err =>
            Ret (Err (Wrapf ("failed to allocate host " ++ dh_HostID host)
                        err))
        | None => Ret (Ok host)
        end
    | Err _ => Ret (Err ErrNoAvailableHost)
    end.

(** [releaseDedicatedHost] *)
Definition releaseDedicatedHost (p : AWSProvisioner) (hostDBID : string)
  : Prog (option error) :=
  if negb (aws_hasStore p) then Ret None else
  r <- call (GetDedicatedHost hostDBID) ;;
  match r with
  | Err e => Ret (Some e)
  | Ok host =>
      (* Check minimum allocation period. *)
      tooEarly <-
        match dh_AllocatedAt host with
        | Some allocatedAt =>
            let minEnd := Add allocatedAt (dh_MinAllocation host) in
            t <- call TimeNow ;;
            Ret (Before t minEnd)
        | None => Ret false
        end ;;
      if (tooEarly : bool) then Ret (Some ErrHostMinAllocation) else
      now <- call TimeNow ;;
      call (UpdateDedicatedHost
              (set_host "available" "" (dh_AllocatedAt host) (Some now)
                 host))
  end.

Definition userDataParams (p : AWSProvisioner) (req : ProvisionRequest)
  (instanceID : string) : UserDataParams :=
  {| ud_ControlPlaneURL := aws_serverURL p; ud_APIKey := aws_apiKey p;
     ud_InstanceID := instanceID; ud_BotPackage := req_BotPackage req;
     ud_BotVersion := req_BotVersion req |}.

Definition userTags (req : ProvisionRequest) : StrMap :=
  map (fun kv => ("hanzo.ai/tag-" ++ fst kv, snd kv)) (req_Tags req).

Definition optString (s : string) : option string :=
  if String.eqb s "" then None else Some s.

(** [launchMacOSInstance]. The [Name] tag takes [instanceID[:8]], which
    is [substring 0 8] for an id of at least 8 bytes; the caller passes
    [uuid.New().String()], 36 bytes long. On a shorter id the source
    panics at that point, after the host was acquired and before
    [RunInstances]: a case that the embedding leaves out. *)
Definition launchMacOSInstance (p : AWSProvisioner) (req : ProvisionRequest)
  (instanceID : string) : Prog (result CloudInstance) :=
  let cfg := MacOS (awsCfg p) in
  (* Acquire a dedicated host. *)
  h <- acquireDedicatedHost p instanceID ;;
  match h with
  | Err e => Ret (Err e)
  | Ok host =>
      ud <- call (RenderUserData "macos" (userDataParams p req instanceID)) ;;
      match ud with
      | Err e => Ret (Err (Wrapf "failed to render macOS userdata" e))
      | Ok userData =>
          let tags :=
            ([("Name", ("hanzo-mac-bot-" ++ substring 0 8 instanceID)%string);
              ("hanzo.ai/cloud-instance", instanceID);
              ("hanzo.ai/platform", "macos");
              ("hanzo.ai/team", req_TeamID req);
              ("hanzo.ai/bot-package", req_BotPackage req);
              ("hanzo.ai/dedicated-host", dh_HostID host)]
             ++ userTags req)%list in
          let input :=
            {| in_ImageId := mac_AMIID cfg;
               in_InstanceType := mac_InstanceType cfg;
               in_UserData := userData;
               in_PlacementHostId := Some (dh_HostID host);
               in_Tags := tags;
               in_SubnetId := hd_error (SubnetIDs (awsCfg p));
               in_SecurityGroupIds :=
                 if String.eqb (SecurityGroupID (awsCfg p)) "" then []
                 else [SecurityGroupID (awsCfg p)];
               in_IamInstanceProfile :=
                 optString (IAMInstanceProfile (awsCfg p));
               in_KeyName := None |} in
          out <- call (EC2RunInstances input) ;;
          match out with
          | Err err =>
              (* Release host on failure. *)
              _ <- releaseDedicatedHost p (dh_ID host) ;;
              Ret (Err (ProvisionError instanceID PlatformMacOS "aws" err))
          | Ok launched =>
              let ec2ID := ec2_InstanceId launched in
              (* Update host with instance assignment. *)
              (if aws_hasStore p then
                 _ <- call (UpdateDedicatedHost
                              (set_host "allocated" instanceID
                                 (dh_AllocatedAt host) (dh_ReleasedAt host)
                                 host)) ;;
                 Ret tt
               else Ret tt) ;;
              now <- call TimeNow ;;
              Ret (Ok
                {| ID := instanceID; Platform_ := PlatformMacOS;
                   State := InstanceStateProvisioning; Provider := "aws";
                   InstanceID := ec2ID;
                   InstanceType := mac_InstanceType cfg;
                   ImageID := mac_AMIID cfg;
                   Region := aws_Region (awsCfg p);
                   BotPackage := req_BotPackage req;
                   BotVersion := req_BotVersion req;
                   PublicIP := ""; PrivateIP := ""; AgentNodeID := "";
                   TeamID := req_TeamID req;
                   DedicatedHostID := dh_HostID host;
                   HourlyRateCents := 0; AccruedCostCents := 0;
                   BillingTier := ""; ConnectionInfo_ := None;
                   Metadata := ""; Tags := req_Tags req;
                   ErrorMessage := ""; RequestedAt := now;
                   ProvisionedAt := None; TerminatedAt := None;
                   CreatedAt := now; UpdatedAt := now |})
          end
      end
  end.

(** [launchWindowsInstance]; [instanceID[:8]] as in
    [launchMacOSInstance]. *)
Definition launchWindowsInstance (p : AWSProvisioner)
  (req : ProvisionRequest) (instanceID : string)
  : Prog (result CloudInstance) :=
  let cfg := Windows (awsCfg p) in
  let instanceType :=
    if String.eqb (req_InstanceType req) "" then DefaultInstanceType cfg
    else req_InstanceType req in
  ud <- call (RenderUserData "windows" (userDataParams p req instanceID)) ;;
  match ud with
  | Err e => Ret (Err (Wrapf "failed to render Windows userdata" e))
  | Ok userData =>
      let tags :=
        ([("Name", ("hanzo-bot-" ++ substring 0 8 instanceID)%string);
          ("hanzo.ai/cloud-instance", instanceID);
          ("hanzo.ai/platform", "windows");
          ("hanzo.ai/team", req_TeamID req);
          ("hanzo.ai/bot-package", req_BotPackage req)]
         ++ userTags req)%list in
      let input :=
        {| in_ImageId := win_AMIID cfg;
           in_InstanceType := instanceType;
           in_UserData := userData;
           in_PlacementHostId := None;
           in_Tags := tags;
           in_SubnetId := hd_error (SubnetIDs (awsCfg p));
           in_SecurityGroupIds :=
             if String.eqb (SecurityGroupID (awsCfg p)) "" then []
             else [SecurityGroupID (awsCfg p)];
           in_IamInstanceProfile :=
             optString (IAMInstanceProfile (awsCfg p));
           in_KeyName := Some "hanzo-agent-windows" |} in
      out <- call (EC2RunInstances input) ;;
      match out with
      | Err err =>
          Ret (Err (ProvisionError instanceID PlatformWindows "aws" err))
      | Ok launched =>
          now <- call TimeNow ;;
          Ret (Ok
            {| ID := instanceID; Platform_ := PlatformWindows;
               State := InstanceStateProvisioning; Provider := "aws";
               InstanceID := ec2_InstanceId launched;
               InstanceType := instanceType;
               ImageID := win_AMIID cfg;
               Region := aws_Region (awsCfg p);
               BotPackage := req_BotPackage req;
               BotVersion := req_BotVersion req;
               PublicIP := ""; PrivateIP := ""; AgentNodeID := "";
               TeamID := req_TeamID req; DedicatedHostID := "";
               HourlyRateCents := 0; AccruedCostCents := 0;
               BillingTier := ""; ConnectionInfo_ := None;
               Metadata := ""; Tags := req_Tags req;
               ErrorMessage := ""; RequestedAt := now;
               ProvisionedAt := None; TerminatedAt := None;
               CreatedAt := now; UpdatedAt := now |})
      end
  end.

Definition CreateInstance (p : AWSProvisioner) (req : ProvisionRequest)
  : Prog (result CloudInstance) :=
  instanceID <- call NewUUID ;;
  if String.eqb (req_Platform req) PlatformWindows then
    launchWindowsInstance p req instanceID
  else if String.eqb (req_Platform req) PlatformMacOS then
    launchMacOSInstance p req instanceID
  else
    Ret (Err (Errorf ("AWS provisioner does not support platform: "
                        ++ req_Platform req))).

Definition StartInstance (p : AWSProvisioner) (instanceID : string)
  : Prog (option error) :=
  r <- describeInstanceByTag instanceID ;;
  match r with
  | Err e => Ret (Some e)
  | Ok ec2Instance =>
      let ec2ID := ec2_InstanceId ec2Instance in
      e <- call (EC2StartInstances [ec2ID]) ;;
      match e with
      | Some err =>
          Ret (Some (Wrapf ("failed to start instance " ++ ec2ID) err))
      | None => Ret None
      end
  end.

Definition StopInstance (p : AWSProvisioner) (instanceID : string)
  : Prog (option error) :=
  r <- describeInstanceByTag instanceID ;;
  match r with
  | Err e => Ret (Some e)
  | Ok ec2Instance =>
      let ec2ID := ec2_InstanceId ec2Instance in
      e <- call (EC2StopInstances [ec2ID]) ;;
      match e with
      | Some err =>
          Ret (Some (Wrapf ("failed to stop instance " ++ ec2ID) err))
      | None => Ret None
      end
  end.

(** The inner loop of [TerminateInstance]: release the first host whose
    provider id is [hostID]. *)
Fixpoint releaseByHostID (p : AWSProvisioner) (hostID : string)
  (hosts : list DedicatedHost) : Prog unit :=
  match hosts with
  | [] => Ret tt
  | h :: rest =>
      if String.eqb (dh_HostID h) hostID
      then _ <- releaseDedicatedHost p (dh_ID h) ;; Ret tt
      else releaseByHostID p hostID rest
  end.

Definition TerminateInstance (p : AWSProvisioner) (instanceID : string)
  : Prog (option error) :=
  r <- describeInstanceByTag instanceID ;;
  match r with
  | Err e => Ret (Some e)
  | Ok ec2Instance =>
      let ec2ID := ec2_InstanceId ec2Instance in
      e <- call (EC2TerminateInstances [ec2ID]) ;;
      match e with
      | Some err =>
          Ret (Some (Wrapf ("failed to terminate instance " ++ ec2ID) err))
      | None =>
          (* Release dedicated host if macOS. *)
          forEach (ec2_Tags ec2Instance) (fun tag =>
            if String.eqb (fst tag) "hanzo.ai/dedicated-host"
               && aws_hasStore p
            then
              hosts <- call ListDedicatedHosts ;;
              releaseByHostID p (snd tag)
                (match hosts with Ok l => l | Err _ => [] end)
            else Ret tt) ;;
          Ret None
      end
  end.

(** The body of the loop of [SeedDedicatedHosts]: a failed listing counts
    as an empty one, and the outcome of the insertion is only logged. *)
Definition seedOne (p : AWSProvisioner) (hostID : string) : Prog unit :=
  existing <- call ListDedicatedHosts ;;
  let existing := match existing with Ok l => l | Err _ => [] end in
  if existsb (fun h => String.eqb (dh_HostID h) hostID) existing then Ret tt
  else
    now <- call TimeNow ;;
    _ <- call (CreateDedicatedHost
                 {| dh_ID := "dh-" ++ hostID; dh_HostID := hostID;
                    dh_InstanceType := mac_InstanceType (MacOS (awsCfg p));
                    dh_State := "available"; dh_CurrentInstanceID := "";
                    dh_AllocatedAt := None; dh_ReleasedAt := None;
                    dh_MinAllocation :=
                      MinHostAllocation (MacOS (awsCfg p));
                    dh_CreatedAt := now; dh_UpdatedAt := now |}) ;;
    Ret tt.

(** [SeedDedicatedHosts] *)
Definition SeedDedicatedHosts (p : AWSProvisioner) : Prog (option error) :=
  forEach (DedicatedHostIDs (MacOS (awsCfg p))) (seedOne p) ;;
  Ret None.

(** [SyncInstanceState]: the instance is updated in place; what is
    returned is the instance after the call, and the error. *)
Definition SyncInstanceState (p : AWSProvisioner) (inst : CloudInstance)
  : Prog (CloudInstance * option error) :=
  r <- GetInstance p (ID inst) ;;
  match r with
  | Err e => Ret (inst, Some e)
  | Ok updated =>
      now <- call TimeNow ;;
      let inst :=
        set_UpdatedAt now
          (set_IPs (PublicIP updated) (PrivateIP updated)
             (set_State (State updated) inst)) in
      let inst :=
        if String.eqb (State updated) InstanceStateRunning
           && match ProvisionedAt inst with
              | None => true | Some _ => false end
        then set_ProvisionedAt (Some now) inst else inst in
      let inst :=
        if String.eqb (State updated) InstanceStateTerminated
           && match TerminatedAt inst with
              | None => true | Some _ => false end
        then set_TerminatedAt (Some now) inst else inst in
      Ret (inst, None)
  end.

End AWSProv.

(** ** Kubernetes provisioner *)

Module K8sProv.

Definition ProviderName : string := "k8s".

(** [podPhaseToState] *)
Definition podPhaseToState (phase : string) : InstanceState :=
  if String.eqb phase "Pending" then InstanceStateProvisioning
  else if String.eqb phase "Running" then InstanceStateRunning
  else if String.eqb phase "Succeeded" || String.eqb phase "Failed"
       then InstanceStateTerminated
  else InstanceStateFailed.

(** [findPodByInstanceID]: the first pod carrying the instance label. *)
Definition findPodByInstanceID (p : K8sProvisioner) (instanceID : string)
  : Prog (result Pod) :=
  pods <- call (K8sListPods (Namespace (k8sCfg p))
                  [("hanzo.ai/cloud-instance", instanceID)]) ;;
  match pods with
  | Err e => Ret (Err (Wrapf "failed to find pod" e))
  | Ok [] => Ret (Err ErrInstanceNotFound)
  | Ok (pod :: _) => Ret (Ok pod)
  end.

(** [CreateInstance]; the pod name takes [instanceID[:8]] of the 36-byte
    id drawn on the line before. *)
Definition CreateInstance (p : K8sProvisioner) (req : ProvisionRequest)
  : Prog (result CloudInstance) :=
  instanceID <- call NewUUID ;;
  let podName := "bot-" ++ substring 0 8 instanceID in
  let image :=
    if String.eqb (req_InstanceType req) "" then DefaultImage (k8sCfg p)
    else req_InstanceType req in
  let labels :=
    ([("app", "hanzo-agent-bot");
      ("hanzo.ai/cloud-instance", instanceID);
      ("hanzo.ai/team", req_TeamID req);
      ("hanzo.ai/bot-package", req_BotPackage req)]
     ++ map (fun kv => (("hanzo.ai/tag-" ++ fst kv)%string, snd kv))
          (req_Tags req))%list in
  let env :=
    ([("HANZO_AGENTS_SERVER_URL", k8s_serverURL p);
      ("HANZO_AGENTS_API_KEY", k8s_apiKey p);
      ("HANZO_AGENTS_INSTANCE_ID", instanceID);
      ("HANZO_AGENTS_BOT_PACKAGE", req_BotPackage req)]
     ++ (if String.eqb (req_BotVersion req) "" then []
         else [("HANZO_AGENTS_BOT_VERSION", req_BotVersion req)]))%list in
  let pod :=
    {| pod_Name := podName; pod_Namespace := Namespace (k8sCfg p);
       pod_Labels := labels; pod_Phase := ""; pod_PodIP := "";
       pod_Image := image; pod_Env := env;
       pod_ServiceAccountName := ServiceAccount (k8sCfg p);
       pod_RestartPolicy := "Never";
       pod_Requests := [("cpu", "250m"); ("memory", "256Mi")];
       pod_Limits := [("cpu", "1"); ("memory", "1Gi")] |} in
  created <- call (K8sCreatePod (Namespace (k8sCfg p)) pod) ;;
  match created with
  | Err err => Ret (Err (ProvisionError instanceID PlatformLinux "k8s" err))
  | Ok created =>
      now <- call TimeNow ;;
      Ret (Ok
        {| ID := instanceID; Platform_ := PlatformLinux;
           State := InstanceStateProvisioning; Provider := "k8s";
           InstanceID := pod_Name created; InstanceType := image;
           ImageID := ""; Region := "";
           BotPackage := req_BotPackage req;
           BotVersion := req_BotVersion req;
           PublicIP := ""; PrivateIP := ""; AgentNodeID := "";
           TeamID := req_TeamID req; DedicatedHostID := "";
           HourlyRateCents := 0; AccruedCostCents := 0; BillingTier := "";
           ConnectionInfo_ := None; Metadata := ""; Tags := [];
           ErrorMessage := ""; RequestedAt := now; ProvisionedAt := None;
           TerminatedAt := None; CreatedAt := now; UpdatedAt := now |})
  end.

Definition GetInstance (p : K8sProvisioner) (instanceID : string)
  : Prog (result CloudInstance) :=
  r <- findPodByInstanceID p instanceID ;;
  match r with
  | Err e => Ret (Err e)
  | Ok pod =>
      Ret (Ok
        {| ID := instanceID; Platform_ := PlatformLinux;
           State := podPhaseToState (pod_Phase pod); Provider := "k8s";
           InstanceID := pod_Name pod; InstanceType := "";
           ImageID := ""; Region := "";
           BotPackage := index (pod_Labels pod) "hanzo.ai/bot-package";
           BotVersion := "";
           PublicIP := ""; PrivateIP := pod_PodIP pod; AgentNodeID := "";
           TeamID := index (pod_Labels pod) "hanzo.ai/team";
           DedicatedHostID := "";
           HourlyRateCents := 0; AccruedCostCents := 0; BillingTier := "";
           ConnectionInfo_ := None; Metadata := ""; Tags := [];
           ErrorMessage := ""; RequestedAt := 0; ProvisionedAt := None;
           TerminatedAt := None; CreatedAt := 0; UpdatedAt := 0 |})
  end.

Definition StartInstance (p : K8sProvisioner) (instanceID : string)
  : Prog (option error) :=
  Ret (Some (Errorf
    "start not supported for K8s pods; create a new instance instead")).

(** [TerminateInstance] deletes the pod. *)
Definition TerminateInstance (p : K8sProvisioner) (instanceID : string)
  : Prog (option error) :=
  r <- findPodByInstanceID p instanceID ;;
  match r with
  | Err e => Ret (Some e)
  | Ok pod =>
      e <- call (K8sDeletePod (Namespace (k8sCfg p)) (pod_Name pod)) ;;
      match e with
      | Some err =>
          Ret (Some (Wrapf ("failed to delete pod " ++ pod_Name pod) err))
      | None => Ret None
      end
  end.

Definition StopInstance (p : K8sProvisioner) (instanceID : string)
  : Prog (option error) :=
  TerminateInstance p instanceID.

End K8sProv.

(** ** Storage layer (package [storage]) *)

Module Storage.

(** A row of [cloud_instances] has one column per field of
    [CloudInstance]; the composite columns (connection info, tags) are
    kept decoded, the JSON codec being taken to round-trip. *)
Definition CloudInstanceModel := CloudInstance.

Record DedicatedHostModel := {
  m_ID : string;
  m_HostID : string;
  m_InstanceType : string;
  m_State : string;
  m_CurrentInstanceID : string;
  m_AllocatedAt : option Time;
  m_ReleasedAt : option Time;
  m_MinAllocationSec : Z;
  m_CreatedAt : Time;
  m_UpdatedAt : Time
}.

(** The database behind [LocalStorage]: its two tables, and the error
    with which every statement fails while the database is out of
    reach. *)
Record LocalStorage := {
  cloud_instances : list CloudInstanceModel;
  dedicated_hosts : list DedicatedHostModel;
  outage : option error
}.

(** [cloudInstanceToModel]: the two tracked timestamps are not copied. *)
Definition cloudInstanceToModel (inst : CloudInstance) : CloudInstanceModel :=
  set_Stamps (ProvisionedAt inst) (TerminatedAt inst) 0 0 inst.

Definition modelToCloudInstance (m : CloudInstanceModel) : CloudInstance := m.

Definition dedicatedHostToModel (h : DedicatedHost) : DedicatedHostModel :=
  {| m_ID := dh_ID h; m_HostID := dh_HostID h;
     m_InstanceType := dh_InstanceType h; m_State := dh_State h;
     m_CurrentInstanceID := dh_CurrentInstanceID h;
     m_AllocatedAt := dh_AllocatedAt h; m_ReleasedAt := dh_ReleasedAt h;
     m_MinAllocationSec := Z.quot (dh_MinAllocation h) Second;
     m_CreatedAt := 0; m_UpdatedAt := 0 |}.

Definition modelToDedicatedHost (m : DedicatedHostModel) : DedicatedHost :=
  {| dh_ID := m_ID m; dh_HostID := m_HostID m;
     dh_InstanceType := m_InstanceType m; dh_State := m_State m;
     dh_CurrentInstanceID := m_CurrentInstanceID m;
     dh_AllocatedAt := m_AllocatedAt m; dh_ReleasedAt := m_ReleasedAt m;
     dh_MinAllocation := wrap64 (m_MinAllocationSec m * Second);
     dh_CreatedAt := m_CreatedAt m; dh_UpdatedAt := m_UpdatedAt m |}.

(** The ORM's time tracking. The row types are declared outside the
    sources at hand; a created row gets both timestamps, a saved row keeps
    its creation time and gets a new update time. *)
Definition trackInstance (created updated : Time) (m : CloudInstanceModel)
  : CloudInstanceModel :=
  set_Stamps (ProvisionedAt m) (TerminatedAt m) created updated m.

Definition trackHost (created updated : Time) (m : DedicatedHostModel)
  : DedicatedHostModel :=
  {| m_ID := m_ID m; m_HostID := m_HostID m;
     m_InstanceType := m_InstanceType m; m_State := m_State m;
     m_CurrentInstanceID := m_CurrentInstanceID m;
     m_AllocatedAt := m_AllocatedAt m; m_ReleasedAt := m_ReleasedAt m;
     m_MinAllocationSec := m_MinAllocationSec m;
     m_CreatedAt := created; m_UpdatedAt := updated |}.

Definition withInstances (l : list CloudInstanceModel) (ls : LocalStorage) :=
  {| cloud_instances := l; dedicated_hosts := dedicated_hosts ls;
     outage := outage ls |}.

Definition withHosts (l : list DedicatedHostModel) (ls : LocalStorage) :=
  {| cloud_instances := cloud_instances ls; dedicated_hosts := l;
     outage := outage ls |}.

Definition prepare (e : error) : error := Wrapf "failed to prepare gorm" e.

(** [Where("id = ?", id).Take(&model)] *)
Definition takeInstance (id : string) (rows : list CloudInstanceModel)
  : option CloudInstanceModel :=
  List.find (fun m => String.eqb (ID m) id) rows.

Definition takeHost (id : string) (rows : list DedicatedHostModel)
  : option DedicatedHostModel :=
  List.find (fun m => String.eqb (m_ID m) id) rows.

(** [Save]: the row with the same primary key is replaced, and the row is
    inserted when there is none. *)
Fixpoint saveInstance (now : Time) (m : CloudInstanceModel)
  (rows : list CloudInstanceModel) : list CloudInstanceModel :=
  match rows with
  | [] => [trackInstance now now m]
  | r :: rest =>
      if String.eqb (ID r) (ID m)
      then trackInstance (CreatedAt r) now m :: rest
      else r :: saveInstance now m rest
  end.

Fixpoint saveHost (now : Time) (m : DedicatedHostModel)
  (rows : list DedicatedHostModel) : list DedicatedHostModel :=
  match rows with
  | [] => [trackHost now now m]
  | r :: rest =>
      if String.eqb (m_ID r) (m_ID m)
      then trackHost (m_CreatedAt r) now m :: rest
      else r :: saveHost now m rest
  end.

Definition CreateCloudInstance (now : Time) (ls : LocalStorage)
  (instance : CloudInstance) : option error * LocalStorage :=
  match outage ls with
  | Some e => (Some (prepare e), ls)
  | None =>
      let model := cloudInstanceToModel instance in
      match takeInstance (ID model) (cloud_instances ls) with
      | Some _ =>
          (Some (Wrapf "failed to create cloud instance"
                   (External "UNIQUE constraint failed")), ls)
      | None =>
          (None,
           withInstances
             (cloud_instances ls ++ [trackInstance now now model]) ls)
      end
  end.

Definition GetCloudInstance (ls : LocalStorage) (id : string)
  : result CloudInstance :=
  match outage ls with
  | Some e => Err (prepare e)
  | None =>
      match takeInstance id (cloud_instances ls) with
      | Some model => Ok (modelToCloudInstance model)
      | None => Err (Errorf ("cloud instance not found: " ++ id))
      end
  end.

Definition UpdateCloudInstance (now : Time) (ls : LocalStorage)
  (instance : CloudInstance) : option error * LocalStorage :=
  match outage ls with
  | Some e => (Some (prepare e), ls)
  | None =>
      let model := cloudInstanceToModel instance in
      (None, withInstances (saveInstance now model (cloud_instances ls)) ls)
  end.

Definition eqOpt (f : option string) (v : string) : bool :=
  match f with
  | Some x => String.eqb v x
  | None => true
  end.

(** The [Where] clauses of [ListCloudInstances]. *)
Definition matches (filters : InstanceFilters) (m : CloudInstanceModel)
  : bool :=
  eqOpt (f_Platform filters) (Platform_ m)
  && eqOpt (f_State filters) (State m)
  && eqOpt (f_TeamID filters) (TeamID m)
  && eqOpt (f_Provider filters) (Provider m).

(** [ORDER BY created_at DESC] *)
Fixpoint insertDesc (m : CloudInstanceModel) (l : list CloudInstanceModel)
  : list CloudInstanceModel :=
  match l with
  | [] => [m]
  | x :: rest =>
      if CreatedAt x <? CreatedAt m then m :: l else x :: insertDesc m rest
  end.

Definition orderDesc (l : list CloudInstanceModel) : list CloudInstanceModel :=
  fold_right insertDesc [] l.

(** The order of a listing: [a] may come before [b]. *)
Definition newerFirst (a b : CloudInstanceModel) : Prop :=
  CreatedAt b <= CreatedAt a.

Definition limitOffset {A} (limit offset : Z) (l : list A) : list A :=
  let l := if offset >? 0 then skipn (Z.to_nat offset) l else l in
  if limit >? 0 then firstn (Z.to_nat limit) l else l.

Definition ListCloudInstances (ls : LocalStorage) (filters : InstanceFilters)
  : result (list CloudInstance) :=
  match outage ls with
  | Some e => Err (prepare e)
  | None =>
      Ok (map modelToCloudInstance
            (limitOffset (f_Limit filters) (f_Offset filters)
               (orderDesc (filter (matches filters) (cloud_instances ls)))))
  end.

Definition DeleteCloudInstance (ls : LocalStorage) (id : string)
  : option error * LocalStorage :=
  match outage ls with
  | Some e => (Some (prepare e), ls)
  | None =>
      (None,
       withInstances
         (filter (fun m => negb (String.eqb (ID m) id)) (cloud_instances ls))
         ls)
  end.

(** [team_id = ? AND state NOT IN ("terminated", "failed")] *)
Definition countsForTeam (teamID : string) (m : CloudInstanceModel) : bool :=
  String.eqb (TeamID m) teamID
  && negb (String.eqb (State m) "terminated" || String.eqb (State m) "failed").

Definition CountCloudInstancesByTeam (ls : LocalStorage) (teamID : string)
  : result Z :=
  match outage ls with
  | Some e => Err (prepare e)
  | None =>
      Ok (Z.of_nat
            (List.length (filter (countsForTeam teamID) (cloud_instances ls))))
  end.

Definition CreateDedicatedHost (now : Time) (ls : LocalStorage)
  (host : DedicatedHost) : option error * LocalStorage :=
  match outage ls with
  | Some e => (Some (prepare e), ls)
  | None =>
      let model := dedicatedHostToModel host in
      match takeHost (m_ID model) (dedicated_hosts ls) with
      | Some _ =>
          (Some (Wrapf "failed to create dedicated host"
                   (External "UNIQUE constraint failed")), ls)
      | None =>
          (None,
           withHosts (dedicated_hosts ls ++ [trackHost now now model]) ls)
      end
  end.

Definition GetDedicatedHost (ls : LocalStorage) (id : string)
  : result DedicatedHost :=
  match outage ls with
  | Some e => Err (prepare e)
  | None =>
      match takeHost id (dedicated_hosts ls) with
      | Some model => Ok (modelToDedicatedHost model)
      | None => Err (Errorf ("dedicated host not found: " ++ id))
      end
  end.

Definition UpdateDedicatedHost (now : Time) (ls : LocalStorage)
  (host : DedicatedHost) : option error * LocalStorage :=
  match outage ls with
  | Some e => (Some (prepare e), ls)
  | None =>
      (None,
       withHosts
         (saveHost now (dedicatedHostToModel host) (dedicated_hosts ls)) ls)
  end.

Definition ListDedicatedHosts (ls : LocalStorage)
  : result (list DedicatedHost) :=
  match outage ls with
  | Some e => Err (prepare e)
  | None => Ok (map modelToDedicatedHost (dedicated_hosts ls))
  end.

(** The row with the least [updated_at] among those that qualify. *)
Fixpoint oldest (best : option DedicatedHostModel)
  (rows : list DedicatedHostModel) : option DedicatedHostModel :=
  match rows with
  | [] => best
  | r :: rest =>
      oldest (match best with
              | Some b => if m_UpdatedAt r <? m_UpdatedAt b
                          then Some r else Some b
              | None => Some r
              end) rest
  end.

Definition GetAvailableDedicatedHost (ls : LocalStorage)
  : result DedicatedHost :=
  match outage ls with
  | Some e => Err (prepare e)
  | None =>
      match oldest None
              (filter (fun m => String.eqb (m_State m) "available"
                                && String.eqb (m_CurrentInstanceID m) "")
                 (dedicated_hosts ls)) with
      | Some model => Ok (modelToDedicatedHost model)
      | None => Err (Errorf "no available dedicated host")
      end
  end.

End Storage.

(** ** The accrual pass over the table *)

Module Accrual.

Import Storage.

(** What the store lists for the monitor: the running rows, newest
    first. *)
Definition runningRows (rows : list CloudInstanceModel) : list CloudInstance :=
  orderDesc (filter (fun r => String.eqb (State r) InstanceStateRunning) rows).

(** The row that an accrual step saves over [x]. *)
Definition accrued (hours : F64.t) (now : Time) (x : CloudInstance)
  : CloudInstanceModel :=
  trackInstance (CreatedAt x) now
    (cloudInstanceToModel
       (set_AccruedCostCents
          (wrap64 (AccruedCostCents x
                   + Monitor.costCents (HourlyRateCents x) hours)) x)).

(** The effect of one iteration of the accrual loop on the table. *)
Definition accrueRow (hours : F64.t) (now : Time)
  (rows : list CloudInstanceModel) (x : CloudInstance)
  : list CloudInstanceModel :=
  if HourlyRateCents x <=? 0 then rows
  else saveInstance now
         (cloudInstanceToModel
            (set_AccruedCostCents
               (wrap64 (AccruedCostCents x
                        + Monitor.costCents (HourlyRateCents x) hours)) x))
         rows.

End Accrual.

(** ** The environment: an in-memory world

    The collaborators outside the code base, reduced to what the code
    observes of them. *)

Module World.

(** The EC2 service: the instances of the account, the error with which
    every call fails while the endpoint is out of reach, and the error
    with which launches are refused (no capacity, bad image). *)
Record EC2 := {
  instances : list Ec2Instance;
  apiError : option error;
  launchError : option error
}.

(** The Kubernetes API server. *)
Record K8s := {
  pods : list Pod;
  k8sError : option error
}.

Record t := {
  clock : Time;               (* the next reading of the clock *)
  latency : Duration;         (* time that passes between two readings *)
  uuidSeed : nat;             (* how many ids were drawn *)
  uuidOf : nat -> string;     (* the id drawn at each position *)
  db : Storage.LocalStorage;
  ec2 : EC2;
  k8s : K8s;
  bus : EventBus.t;
  (* the billing service: unreachable, or its reply to every request *)
  billingService : option (HTTPResponse BillingAuth);
  (* the failure of user-data rendering, when it fails *)
  renderError : option error
}.

Definition setClock (c : Time) (w : t) : t :=
  {| clock := c; latency := latency w; uuidSeed := uuidSeed w;
     uuidOf := uuidOf w; db := db w; ec2 := ec2 w; k8s := k8s w;
     bus := bus w; billingService := billingService w;
     renderError := renderError w |}.

Definition setSeed (n : nat) (w : t) : t :=
  {| clock := clock w; latency := latency w; uuidSeed := n;
     uuidOf := uuidOf w; db := db w; ec2 := ec2 w; k8s := k8s w;
     bus := bus w; billingService := billingService w;
     renderError := renderError w |}.

Definition setDb (d : Storage.LocalStorage) (w : t) : t :=
  {| clock := clock w; latency := latency w; uuidSeed := uuidSeed w;
     uuidOf := uuidOf w; db := d; ec2 := ec2 w; k8s := k8s w;
     bus := bus w; billingService := billingService w;
     renderError := renderError w |}.

Definition setEc2 (e : EC2) (w : t) : t :=
  {| clock := clock w; latency := latency w; uuidSeed := uuidSeed w;
     uuidOf := uuidOf w; db := db w; ec2 := e; k8s := k8s w;
     bus := bus w; billingService := billingService w;
     renderError := renderError w |}.

Definition setK8s (k : K8s) (w : t) : t :=
  {| clock := clock w; latency := latency w; uuidSeed := uuidSeed w;
     uuidOf := uuidOf w; db := db w; ec2 := ec2 w; k8s := k;
     bus := bus w; billingService := billingService w;
     renderError := renderError w |}.

Definition setBus (b : EventBus.t) (w : t) : t :=
  {| clock := clock w; latency := latency w; uuidSeed := uuidSeed w;
     uuidOf := uuidOf w; db := db w; ec2 := ec2 w; k8s := k8s w;
     bus := b; billingService := billingService w;
     renderError := renderError w |}.

(** [time.Now()]: the reading, and the clock moved on. *)
Definition now (w : t) : Time * t :=
  (clock w, setClock (clock w + latency w) w).

(** [uuid.New().String()] *)
Definition uuid (w : t) : string * t :=
  (uuidOf w (uuidSeed w), setSeed (S (uuidSeed w)) w).

(** A store statement: it runs at the current time, which it does not
    consume. *)
Definition write (f : Time -> Storage.LocalStorage
                      -> option error * Storage.LocalStorage) (w : t)
  : option error * t :=
  let '(e, d) := f (clock w) (db w) in (e, setDb d w).

(** *** EC2 *)

(** One filter of [DescribeInstances]: [instance-state-name] and
    [tag:<key>] are the names the code uses; [*] matches any value. A
    filter of another name selects nothing. *)
Definition matchFilter (f : Ec2Filter) (i : Ec2Instance) : bool :=
  if String.eqb (Name f) "instance-state-name" then
    existsb (String.eqb (ec2_StateName i)) (Values f)
  else if String.prefix "tag:" (Name f) then
    match lookup (substring 4 (String.length (Name f) - 4) (Name f))
            (ec2_Tags i) with
    | Some v =>
        existsb (fun pat => String.eqb pat "*" || String.eqb pat v) (Values f)
    | None => false
    end
  else false.

(** The two filters of a lookup by instance id. *)
Definition tagFilter (instanceID : string) : Ec2Filter :=
  {| Name := "tag:hanzo.ai/cloud-instance"; Values := [instanceID] |}.

Definition liveFilter : Ec2Filter :=
  {| Name := "instance-state-name";
     Values := ["pending"; "running"; "stopping"; "stopped"] |}.

(** Every instance was launched alone, so it sits in a reservation of its
    own. *)
Definition describe (filters : list Ec2Filter) (e : EC2)
  : result (list (list Ec2Instance)) :=
  match apiError e with
  | Some err => Err err
  | None =>
      Ok (map (fun i => [i])
            (filter (fun i => forallb (fun f => matchFilter f i) filters)
               (instances e)))
  end.

Definition setInstances (l : list Ec2Instance) (e : EC2) : EC2 :=
  {| instances := l; apiError := apiError e; launchError := launchError e |}.

Definition launch (id : string) (input : RunInstancesInput) (e : EC2)
  : result Ec2Instance * EC2 :=
  match apiError e with
  | Some err => (Err err, e)
  | None =>
      match launchError e with
      | Some err => (Err err, e)
      | None =>
          let i := {| ec2_InstanceId := id; ec2_StateName := "pending";
                      ec2_InstanceType := in_InstanceType input;
                      ec2_PrivateIpAddress := "";
                      ec2_PublicIpAddress := "";
                      ec2_Tags := in_Tags input |} in
          (Ok i, setInstances (instances e ++ [i]) e)
      end
  end.

Definition setStateName (s : string) (i : Ec2Instance) : Ec2Instance :=
  {| ec2_InstanceId := ec2_InstanceId i; ec2_StateName := s;
     ec2_InstanceType := ec2_InstanceType i;
     ec2_PrivateIpAddress := ec2_PrivateIpAddress i;
     ec2_PublicIpAddress := ec2_PublicIpAddress i;
     ec2_Tags := ec2_Tags i |}.

(** [StartInstances], [StopInstances], [TerminateInstances]: the named
    instances move to [s]; an unknown id is an error. *)
Definition transition (s : string) (ids : list string) (e : EC2)
  : option error * EC2 :=
  match apiError e with
  | Some err => (Some err, e)
  | None =>
      if forallb (fun id => existsb (fun i => String.eqb (ec2_InstanceId i) id)
                              (instances e)) ids
      then (None,
            setInstances
              (map (fun i => if existsb (String.eqb (ec2_InstanceId i)) ids
                             then setStateName s i else i) (instances e)) e)
      else (Some (External "InvalidInstanceID.NotFound"), e)
  end.

(** *** Kubernetes *)

Definition selects (namespace : string) (selector : StrMap) (p : Pod) : bool :=
  String.eqb (pod_Namespace p) namespace
  && forallb (fun kv => match lookup (fst kv) (pod_Labels p) with
                        | Some v => String.eqb v (snd kv)
                        | None => false
                        end) selector.

Definition listPods (namespace : string) (selector : StrMap) (k : K8s)
  : result (list Pod) :=
  match k8sError k with
  | Some err => Err err
  | None => Ok (filter (selects namespace selector) (pods k))
  end.

Definition setPhase (phase : string) (p : Pod) : Pod :=
  {| pod_Name := pod_Name p; pod_Namespace := pod_Namespace p;
     pod_Labels := pod_Labels p; pod_Phase := phase;
     pod_PodIP := pod_PodIP p; pod_Image := pod_Image p;
     pod_Env := pod_Env p;
     pod_ServiceAccountName := pod_ServiceAccountName p;
     pod_RestartPolicy := pod_RestartPolicy p;
     pod_Requests := pod_Requests p; pod_Limits := pod_Limits p |}.

Definition named (namespace name : string) (p : Pod) : bool :=
  String.eqb (pod_Namespace p) namespace && String.eqb (pod_Name p) name.

Definition createPod (namespace : string) (pod : Pod) (k : K8s)
  : result Pod * K8s :=
  match k8sError k with
  | Some err => (Err err, k)
  | None =>
      if existsb (named namespace (pod_Name pod)) (pods k)
      then (Err (External "AlreadyExists"), k)
      else
        let created := setPhase "Pending" pod in
        (Ok created, {| pods := pods k ++ [created]; k8sError := None |})
  end.

Definition deletePod (namespace name : string) (k : K8s)
  : option error * K8s :=
  match k8sError k with
  | Some err => (Some err, k)
  | None =>
      if existsb (named namespace name) (pods k)
      then (None,
            {| pods := filter (fun p => negb (named namespace name p)) (pods k);
               k8sError := None |})
      else (Some (External "NotFound"), k)
  end.

(** *** Handlers *)

Definition unlinked {A} : result A := Err (External "unlinked").

(** The calls that reach a collaborator. Interface calls are not answered
    at this level. *)
Definition base : Handler t := fun X c =>
  match c in Call X return t -> X * t with
  | TimeNow => now
  | NewUUID => uuid
  | CreateCloudInstance inst =>
      write (fun t d => Storage.CreateCloudInstance t d inst)
  | GetCloudInstance id => fun w => (Storage.GetCloudInstance (db w) id, w)
  | UpdateCloudInstance inst =>
      write (fun t d => Storage.UpdateCloudInstance t d inst)
  | ListCloudInstances filters =>
      fun w => (Storage.ListCloudInstances (db w) filters, w)
  | DeleteCloudInstance id =>
      write (fun _ d => Storage.DeleteCloudInstance d id)
  | CountCloudInstancesByTeam teamID =>
      fun w => (Storage.CountCloudInstancesByTeam (db w) teamID, w)
  | CreateDedicatedHost host =>
      write (fun t d => Storage.CreateDedicatedHost t d host)
  | GetDedicatedHost id => fun w => (Storage.GetDedicatedHost (db w) id, w)
  | UpdateDedicatedHost host =>
      write (fun t d => Storage.UpdateDedicatedHost t d host)
  | ListDedicatedHosts => fun w => (Storage.ListDedicatedHosts (db w), w)
  | GetAvailableDedicatedHost =>
      fun w => (Storage.GetAvailableDedicatedHost (db w), w)
  | BusPublish event =>
      fun w =>
        let '(id, w1) :=
          if String.eqb (ev_ID event) "" then uuid w else ("", w) in
        let '(t, w2) :=
          if IsZero (ev_Timestamp event) then now w1 else (0, w1) in
        (tt, setBus (EventBus.Publish id t event (bus w2)) w2)
  | HTTPAuthorize _ _ _ _ _ =>
      fun w =>
        (match billingService w with
         | Some resp => Ok resp
         | None => Err (External "dial tcp: connection refused")
         end, w)
  | HTTPUsage _ _ _ _ _ _ =>
      fun w =>
        (match billingService w with
         | Some resp =>
             Ok {| StatusCode := StatusCode resp; Body := Some tt |}
         | None => Err (External "dial tcp: connection refused")
         end, w)
  | EC2RunInstances input =>
      fun w =>
        let '(id, w1) := uuid w in
        let '(r, e) := launch ("i-" ++ id) input (ec2 w1) in
        (r, setEc2 e w1)
  | EC2DescribeInstances filters => fun w => (describe filters (ec2 w), w)
  | EC2StartInstances ids =>
      fun w => let '(r, e) := transition "pending" ids (ec2 w) in
               (r, setEc2 e w)
  | EC2StopInstances ids =>
      fun w => let '(r, e) := transition "stopping" ids (ec2 w) in
               (r, setEc2 e w)
  | EC2TerminateInstances ids =>
      fun w => let '(r, e) := transition "shutting-down" ids (ec2 w) in
               (r, setEc2 e w)
  | RenderUserData platform params =>
      fun w =>
        (match renderError w with
         | Some err => Err err
         | None => Ok ("#!" ++ platform ++ ":" ++ ud_InstanceID params)
         end, w)
  | K8sCreatePod namespace pod =>
      fun w => let '(r, k) := createPod namespace pod (k8s w) in
               (r, setK8s k w)
  | K8sListPods namespace selector =>
      fun w => (listPods namespace selector (k8s w), w)
  | K8sDeletePod namespace name =>
      fun w => let '(r, k) := deletePod namespace name (k8s w) in
               (r, setK8s k w)
  | AuthorizeProvisioning _ _ _ _ => fun w => (unlinked, w)
  | ReportUsage _ _ _ _ _ => fun w => (Some (External "unlinked"), w)
  | ProvCreateInstance _ _ => fun w => (unlinked, w)
  | ProvGetInstance _ _ => fun w => (unlinked, w)
  | ProvListInstances _ _ => fun w => (unlinked, w)
  | ProvStartInstance _ _ => fun w => (Some (External "unlinked"), w)
  | ProvStopInstance _ _ => fun w => (Some (External "unlinked"), w)
  | ProvTerminateInstance _ _ => fun w => (Some (External "unlinked"), w)
  | ProvGetConnectionInfo _ _ => fun w => (unlinked, w)
  | ProvExecuteCommand _ _ _ => fun w => (unlinked, w)
  | ProvGetLogs _ _ _ => fun w => (unlinked, w)
  end.

(** The result and final world of a program run at the base level. *)
Definition exec {R} (p : Prog R) (w : t) : R * t :=
  let '(r, w', _) := run base p w in (r, w').

(** The full environment: an interface call runs the method of its
    receiver. The methods of the provisioners that the sources do not
    need here (listing, connection info, remote commands, logs) are left
    unlinked. *)
Definition handle : Handler t := fun X c =>
  match c in Call X return t -> X * t with
  | AuthorizeProvisioning b teamID platform instanceType =>
      exec (Billing.authorize b teamID platform instanceType)
  | ReportUsage b instanceID platform hours hourlyCents =>
      exec (Billing.report b instanceID platform hours hourlyCents)
  | ProvCreateInstance (ProvAWS p) req => exec (AWSProv.CreateInstance p req)
  | ProvCreateInstance (ProvK8s p) req => exec (K8sProv.CreateInstance p req)
  | ProvGetInstance (ProvAWS p) id => exec (AWSProv.GetInstance p id)
  | ProvGetInstance (ProvK8s p) id => exec (K8sProv.GetInstance p id)
  | ProvStartInstance (ProvAWS p) id => exec (AWSProv.StartInstance p id)
  | ProvStartInstance (ProvK8s p) id => exec (K8sProv.StartInstance p id)
  | ProvStopInstance (ProvAWS p) id => exec (AWSProv.StopInstance p id)
  | ProvStopInstance (ProvK8s p) id => exec (K8sProv.StopInstance p id)
  | ProvTerminateInstance (ProvAWS p) id =>
      exec (AWSProv.TerminateInstance p id)
  | ProvTerminateInstance (ProvK8s p) id =>
      exec (K8sProv.TerminateInstance p id)
  | c => base c
  end.

End World.

(** ** Seeding of the host table, step by step *)

Module Seeding.

(** Whether a seeding step for [hostID] finds nothing to do or cannot do
    it: the store is out of reach, a record with this host id exists, or
    the record id that the step would use is taken. *)
Definition settled (hostID : string) (d : Storage.LocalStorage) : bool :=
  isSome (Storage.outage d)
  || existsb (fun r => String.eqb (Storage.m_HostID r) hostID)
       (Storage.dedicated_hosts d)
  || isSome (Storage.takeHost ("dh-" ++ hostID) (Storage.dedicated_hosts d)).

(** The row that a seeding step inserts at the store's time [t]. *)
Definition seedRow (p : AWSProvisioner) (hostID : string) (t : Time)
  : Storage.DedicatedHostModel :=
  {| Storage.m_ID := "dh-" ++ hostID; Storage.m_HostID := hostID;
     Storage.m_InstanceType := mac_InstanceType (MacOS (awsCfg p));
     Storage.m_State := "available"; Storage.m_CurrentInstanceID := "";
     Storage.m_AllocatedAt := None; Storage.m_ReleasedAt := None;
     Storage.m_MinAllocationSec :=
       Z.quot (MinHostAllocation (MacOS (awsCfg p))) Second;
     Storage.m_CreatedAt := t; Storage.m_UpdatedAt := t |}.

(** The world after one seeding step. *)
Definition seedStep (p : AWSProvisioner) (w : World.t) (hostID : string)
  : World.t :=
  snd (World.exec (AWSProv.seedOne p hostID) w).

(** What is asked of a row that seeding added to the rows [before], for
    the configured host ids [ids]. *)
Definition seeded (p : AWSProvisioner) (ids : list string)
  (before : list Storage.DedicatedHostModel)
  (r : Storage.DedicatedHostModel) : Prop :=
  In (Storage.m_HostID r) ids
  /\ ~ In (Storage.m_HostID r) (map Storage.m_HostID before)
  /\ Storage.m_ID r = "dh-" ++ Storage.m_HostID r
  /\ Storage.m_InstanceType r = mac_InstanceType (MacOS (awsCfg p))
  /\ Storage.m_State r = "available"
  /\ Storage.m_CurrentInstanceID r = ""
  /\ Storage.m_AllocatedAt r = None
  /\ Storage.m_ReleasedAt r = None
  /\ Storage.m_MinAllocationSec r
     = Z.quot (MinHostAllocation (MacOS (awsCfg p))) Second.

End Seeding.

(** ** Scenarios

    Concrete configurations and worlds, used to run the code. *)

Module Scenario.

(** Identifiers as [uuid.New] would draw them, told apart by their first
    digit. *)
Definition uuids (n : nat) : string :=
  String (Ascii.ascii_of_nat (48 + n mod 10))
    "0000000-0000-4000-8000-000000000000".

Definition emptyConfig : CloudConfig :=
  {| Enabled := true;
     AWS := {| aws_Enabled := true; aws_Region := ""; VPCID := "";
               SubnetIDs := []; SecurityGroupID := "";
               IAMInstanceProfile := "";
               MacOS := {| DedicatedHostIDs := ["h-1"]; mac_AMIID := "ami-mac";
                           mac_InstanceType := ""; MinHostAllocation := 0;
                           IdleHostRelease := 0 |};
               Windows := {| win_AMIID := "ami-win";
                             DefaultInstanceType := "" |} |};
     K8s := {| k8s_Enabled := true; Namespace := ""; DefaultImage := "";
               ServiceAccount := "" |};
     Billing := {| billing_Enabled := false; ServiceURL := ""; APIKey := "" |};
     MaxInstancesPerTeam := 0;
     ProvisioningTimeout := 0;
     MonitorInterval := 0 |}.

(** The default configuration: 10 instances per team, a tick every 30
    seconds, hosts held 24 hours and released when idle for 25. *)
Definition cfg : CloudConfig := Defaults emptyConfig.

Definition withBilling (c : CloudConfig) : CloudConfig :=
  {| Enabled := Enabled c; AWS := AWS c; K8s := K8s c;
     Billing := {| billing_Enabled := true;
                   ServiceURL := "https://billing.example";
                   APIKey := "key" |};
     MaxInstancesPerTeam := MaxInstancesPerTeam c;
     ProvisioningTimeout := ProvisioningTimeout c;
     MonitorInterval := MonitorInterval c |}.

Definition awsP : AWSProvisioner :=
  {| awsCfg := AWS cfg; aws_hasStore := true;
     aws_serverURL := "https://cp.example"; aws_apiKey := "k" |}.

Definition k8sP : K8sProvisioner :=
  {| k8sCfg := K8s cfg; k8s_serverURL := "https://cp.example";
     k8s_apiKey := "k" |}.

Definition register (m : Manager.t) : Manager.t :=
  Manager.RegisterProvisioner [PlatformWindows; PlatformMacOS] (ProvAWS awsP)
    (Manager.RegisterProvisioner [PlatformLinux] (ProvK8s k8sP) m).

Definition mgr : Manager.t := register (Manager.NewCloudManager cfg true).

Definition mgrBilled : Manager.t :=
  register (Manager.NewCloudManager (withBilling cfg) true).

Definition monitor : Monitor.t :=
  Monitor.NewCloudInstanceMonitor mgr cfg.

Definition t0 : Time := 1000 * Hour.

(** The host [h-1] as [SeedDedicatedHosts] records it. *)
Definition hostRow : Storage.DedicatedHostModel :=
  {| Storage.m_ID := "dh-h-1"; Storage.m_HostID := "h-1";
     Storage.m_InstanceType := "mac2.metal";
     Storage.m_State := "available"; Storage.m_CurrentInstanceID := "";
     Storage.m_AllocatedAt := None; Storage.m_ReleasedAt := None;
     Storage.m_MinAllocationSec := 86400;
     Storage.m_CreatedAt := 0; Storage.m_UpdatedAt := 0 |}.

Definition instanceRow (id : string) (platform : Platform)
  (state : InstanceState) (rate accrued : Z) : CloudInstance :=
  {| ID := id; Platform_ := platform; State := state; Provider := "aws";
     InstanceID := "i-" ++ id; InstanceType := "t3.large"; ImageID := "";
     Region := "us-east-1"; BotPackage := "bot"; BotVersion := "";
     PublicIP := ""; PrivateIP := ""; AgentNodeID := ""; TeamID := "team";
     DedicatedHostID := ""; HourlyRateCents := rate;
     AccruedCostCents := accrued; BillingTier := "pro";
     ConnectionInfo_ := None; Metadata := ""; Tags := [];
     ErrorMessage := ""; RequestedAt := 0; ProvisionedAt := None;
     TerminatedAt := None; CreatedAt := 0; UpdatedAt := 0 |}.

Definition ec2Instance (id state : string) : Ec2Instance :=
  {| ec2_InstanceId := "i-" ++ id; ec2_StateName := state;
     ec2_InstanceType := "t3.large"; ec2_PrivateIpAddress := "10.0.0.1";
     ec2_PublicIpAddress := "";
     ec2_Tags := [("hanzo.ai/cloud-instance", id);
                  ("hanzo.ai/platform", "windows");
                  ("hanzo.ai/team", "team")] |}.

Definition world (rows : list CloudInstance)
  (hosts : list Storage.DedicatedHostModel) (vms : list Ec2Instance)
  : World.t :=
  {| World.clock := t0; World.latency := 1 * Second;
     World.uuidSeed := 0; World.uuidOf := uuids;
     World.db := {| Storage.cloud_instances := rows;
                    Storage.dedicated_hosts := hosts;
                    Storage.outage := None |};
     World.ec2 := {| World.instances := vms; World.apiError := None;
                     World.launchError := None |};
     World.k8s := {| World.pods := []; World.k8sError := None |};
     World.bus := Manager.newEventBus;
     World.billingService := None;
     World.renderError := None |}.

(** EC2 refuses launches. *)
Definition noCapacity (w : World.t) : World.t :=
  World.setEc2 {| World.instances := World.instances (World.ec2 w);
                  World.apiError := None;
                  World.launchError :=
                    Some (External "InsufficientHostCapacity") |} w.

(** The database is out of reach. *)
Definition dbDown (w : World.t) : World.t :=
  World.setDb {| Storage.cloud_instances :=
                   Storage.cloud_instances (World.db w);
                 Storage.dedicated_hosts :=
                   Storage.dedicated_hosts (World.db w);
                 Storage.outage := Some (External "database is locked") |} w.

Definition request (platform : Platform) : ProvisionRequest :=
  {| req_Platform := platform; req_BotPackage := "bot";
     req_BotVersion := ""; req_InstanceType := ""; req_TeamID := "team";
     req_Tags := []; req_Metadata := "" |}.

(** A cap of two instances per team. *)
Definition cfgCap2 : CloudConfig :=
  {| Enabled := true; AWS := AWS cfg; K8s := K8s cfg; Billing := Billing cfg;
     MaxInstancesPerTeam := 2;
     ProvisioningTimeout := ProvisioningTimeout cfg;
     MonitorInterval := MonitorInterval cfg |}.

Definition mgrCap2 : Manager.t :=
  register (Manager.NewCloudManager cfgCap2 true).




(** One free host, and an EC2 that refuses launches. *)
Definition wLaunchRefused : World.t := noCapacity (world [] [hostRow] []).


(** Four instances: running at 200 cents an hour, stopped, running at no
    charge, and running at one cent an hour. *)
Definition wAccrual : World.t :=
  world [instanceRow "a" "linux" "running" 200 0;
         instanceRow "b" "linux" "stopped" 200 0;
         instanceRow "c" "linux" "running" 0 5;
         instanceRow "d" "linux" "running" 1 7] [] [].

(** A stopped Windows instance, in the store and in EC2. *)
Definition wStopped : World.t :=
  world [instanceRow "a" "windows" "stopped" 10 0] []
    [ec2Instance "a" "stopped"].

(** A running Windows instance, in the store and in EC2. *)
Definition wRunning : World.t :=
  world [instanceRow "a" "windows" "running" 10 0] []
    [ec2Instance "a" "running"].

(** An instance that EC2 has terminated. *)
Definition wTerminated : World.t := world [] [] [ec2Instance "a" "terminated"].

(** A team with two active instances and a terminated one. *)
Definition wTeamFull : World.t :=
  world [instanceRow "a" "linux" "running" 1 0;
         instanceRow "b" "linux" "provisioning" 1 0;
         instanceRow "c" "linux" "terminated" 1 0] [] [].

Definition event (id : string) : CloudEvent :=
  {| ev_ID := id; ev_Type := EventInstanceRunning; ev_InstanceID := "i1";
     ev_Timestamp := 5; ev_Data := None |}.

(** What the specification asks of an accrual step, in exact arithmetic:
    the product of the rate and the interval in hours, rounded to the
    nearest cent, and at least one cent. A second reading of the rule,
    kept apart from [Monitor.costCents], which follows the code. *)
Definition roundedCost (rate : Z) (interval : Duration) : Z :=
  Z.max 1 ((2 * rate * interval + Hour) / (2 * Hour)).

End Scenario.

(** ** Further scenarios *)

Module Cases.

Import Scenario.

(** The default configuration with the subsystem switched off. *)
Definition cfgOff : CloudConfig :=
  {| Enabled := false; AWS := AWS cfg; K8s := K8s cfg; Billing := Billing cfg;
     MaxInstancesPerTeam := MaxInstancesPerTeam cfg;
     ProvisioningTimeout := ProvisioningTimeout cfg;
     MonitorInterval := MonitorInterval cfg |}.

Definition mgrOff : Manager.t := register (Manager.NewCloudManager cfgOff true).

(** A manager without a store. *)
Definition mgrNoStore : Manager.t :=
  register (Manager.NewCloudManager cfg false).

(** An empty account, cluster and database. *)
Definition wEmpty : World.t := world [] [] [].

(** One free host. *)
Definition wFreeHost : World.t := world [] [hostRow] [].

(** A billing service that refuses every request. *)
Definition wDenied : World.t :=
  {| World.clock := t0; World.latency := 1 * Second;
     World.uuidSeed := 0; World.uuidOf := uuids;
     World.db := {| Storage.cloud_instances := [];
                    Storage.dedicated_hosts := [];
                    Storage.outage := None |};
     World.ec2 := {| World.instances := []; World.apiError := None;
                     World.launchError := None |};
     World.k8s := {| World.pods := []; World.k8sError := None |};
     World.bus := Manager.newEventBus;
     World.billingService :=
       Some {| StatusCode := 200;
               Body := Some {| Authorized := false; Tier := "free";
                               HourlyCents := 0;
                               Reason := "quota exceeded";
                               BillingAccount := "" |} |};
     World.renderError := None |}.

(** An instance that has been provisioning for an hour, and one that has
    just been requested. *)
Definition staleRow : CloudInstance :=
  set_Stamps None None (t0 - 1 * Hour) (t0 - 1 * Hour)
    (instanceRow "a" "windows" "provisioning" 10 0).

Definition freshRow : CloudInstance :=
  set_Stamps None None t0 t0 (instanceRow "b" "windows" "provisioning" 10 0).

Definition wStale : World.t :=
  world [staleRow; freshRow] []
    [ec2Instance "a" "pending"; ec2Instance "b" "pending"].

(** A running macOS instance on host [h-1], tagged as
    [launchMacOSInstance] tags it, and the row of its host, allocated to
    it at [allocatedAt]. *)
Definition macID : string := uuids 7.

Definition macInstance : Ec2Instance :=
  {| ec2_InstanceId := "i-0abc"; ec2_StateName := "running";
     ec2_InstanceType := "mac2.metal"; ec2_PrivateIpAddress := "10.0.0.2";
     ec2_PublicIpAddress := "";
     ec2_Tags := [("Name", "hanzo-mac-bot-70000000");
                  ("hanzo.ai/cloud-instance", macID);
                  ("hanzo.ai/platform", "macos");
                  ("hanzo.ai/team", "team");
                  ("hanzo.ai/bot-package", "bot");
                  ("hanzo.ai/dedicated-host", "h-1")] |}.

Definition macHostRow (allocatedAt : Time) : Storage.DedicatedHostModel :=
  {| Storage.m_ID := "dh-h-1"; Storage.m_HostID := "h-1";
     Storage.m_InstanceType := "mac2.metal";
     Storage.m_State := "allocated"; Storage.m_CurrentInstanceID := macID;
     Storage.m_AllocatedAt := Some allocatedAt;
     Storage.m_ReleasedAt := None;
     Storage.m_MinAllocationSec := 86400;
     Storage.m_CreatedAt := 0; Storage.m_UpdatedAt := 0 |}.

(** The instance on a host held for twenty-five hours. *)
Definition wMacHeld : World.t :=
  world [] [macHostRow (t0 - 25 * Hour)] [macInstance].

(** An instance that the store has as [running] and EC2 as
    [terminated]. *)
Definition wGone : World.t :=
  world [instanceRow "a" "windows" "running" 10 0] []
    [ec2Instance "a" "terminated"].

End Cases.

(** * Properties *)

Unset Implicit Arguments.
Local Open Scope list_scope.

(** ** Programs, executions and runs *)

Lemma Exec_bind {A B : Type} (p : Prog A) (k : A -> Prog B) tr r :
  Exec (bind p k) tr r <->
  exists a tr1 tr2, Exec p tr1 a /\ Exec (k a) tr2 r /\ tr = tr1 ++ tr2.
Proof.
  revert tr. induction p as [a|X c f IH]; intros tr; simpl.
  - split.
    + intros H. exists a, [], tr. auto.
    + intros (a' & tr1 & tr2 & [-> ->] & H & ->). exact H.
  - split.
    + intros (x & tr' & -> & H). apply IH in H.
      destruct H as (a & tr1 & tr2 & H1 & H2 & ->).
      exists a, (Ev c x :: tr1), tr2. repeat split; auto.
      exists x, tr1. auto.
    + intros (a & tr1 & tr2 & (x & tr' & -> & H1) & H2 & ->).
      exists x, (tr' ++ tr2). split; [reflexivity|].
      apply IH. exists a, tr', tr2. auto.
Qed.

Lemma run_bind {W A B : Type} (h : Handler W) (p : Prog A) (k : A -> Prog B) w :
  run h (bind p k) w
  = let '(a, w1, tr1) := run h p w in
    let '(r, w2, tr2) := run h (k a) w1 in
    (r, w2, tr1 ++ tr2).
Proof.
  revert w. induction p as [a|X c f IH]; intros w; simpl.
  - destruct (run h (k a) w) as [[r w2] tr2]. reflexivity.
  - destruct (h X c w) as [x w1]. rewrite IH.
    destruct (run h (f x) w1) as [[a w2] tr1].
    destruct (run h (k a) w2) as [[r w3] tr2]. reflexivity.
Qed.

(** Every run is an execution. *)
Lemma run_Exec {W R : Type} (h : Handler W) (p : Prog R) w :
  Exec p (snd (run h p w)) (fst (fst (run h p w))).
Proof.
  revert w. induction p as [r|X c f IH]; intros w; simpl.
  - auto.
  - destruct (h X c w) as [x w1]. specialize (IH x w1).
    destruct (run h (f x) w1) as [[r w2] tr]. simpl in *.
    exists x, tr. auto.
Qed.

Lemma Exec_forEach {A : Type} (body : A -> Prog unit) (l : list A) tr r :
  Exec (forEach l body) tr r ->
  exists trs,
    tr = List.concat trs /\ Forall2 (fun x t => Exec (body x) t tt) l trs.
Proof.
  revert tr. induction l as [|x l IH]; intros tr H; simpl in H.
  - destruct H as [-> _]. exists []. split; [reflexivity | constructor].
  - apply Exec_bind in H. destruct H as ([] & tr1 & tr2 & H1 & H2 & ->).
    apply IH in H2. destruct H2 as (trs & -> & HF).
    exists (tr1 :: trs). split; [reflexivity | constructor; assumption].
Qed.

Lemma clockReadings_app tr1 tr2 :
  clockReadings (tr1 ++ tr2) = clockReadings tr1 ++ clockReadings tr2.
Proof.
  induction tr1 as [|[X c x] tr1 IH]; simpl; auto.
  destruct c; simpl; rewrite ?IH; reflexivity.
Qed.

Lemma hostWrites_app tr1 tr2 :
  hostWrites (tr1 ++ tr2) = hostWrites tr1 ++ hostWrites tr2.
Proof.
  induction tr1 as [|[X c x] tr1 IH]; simpl; auto.
  destruct c; simpl; rewrite ?IH; reflexivity.
Qed.

Lemma nondecreasing_app l1 l2 :
  nondecreasing (l1 ++ l2) -> nondecreasing l1 /\ nondecreasing l2.
Proof.
  induction l1 as [|a l1 IH]; simpl; [auto|].
  destruct l1 as [|b l1]; simpl in *.
  - destruct l2; simpl; auto. intros [_ H]. auto.
  - intros [Hab H]. destruct (IH H) as [H1 H2]. auto.
Qed.

(** Peeling an execution: one answered call at a time, splitting on the
    tests the program makes. *)
Ltac exec_step H :=
  match type of H with
  | _ = [] /\ _ = _ =>
      let E := fresh "E" in
      destruct H as [-> E]; try discriminate E; try subst
  | exists _ _, _ = _ :: _ /\ _ =>
      let x := fresh "x" in
      let tr := fresh "tr" in
      destruct H as (x & tr & -> & H)
  | Exec (if match ?d with _ => _ end then _ else _) _ _ => destruct d eqn:?
  | Exec (match ?d with _ => _ end) _ _ => destruct d eqn:?
  | Exec (if ?b then _ else _) _ _ => destruct b eqn:?
  | Exec (bind (match ?d with _ => _ end) _) _ _ => destruct d eqn:?
  | Exec (bind (if ?b then _ else _) _) _ _ => destruct b eqn:?
  end.

Ltac exec_all H := repeat (cbn in H; exec_step H).

(** ** Event bus *)

Section EventBusFacts.

Import EventBus.

Lemma lastn_all {A} (n : nat) (l : list A) :
  (List.length l <= n)%nat -> lastn n l = l.
Proof.
  intros H. unfold lastn.
  replace (List.length l - n)%nat with 0%nat by lia. reflexivity.
Qed.

Lemma lastn_length {A} (n : nat) (l : list A) :
  List.length (lastn n l) = Nat.min n (List.length l).
Proof. unfold lastn. rewrite length_skipn. lia. Qed.

Lemma lastn_app {A} (n : nat) (l r : list A) :
  (List.length r <= n)%nat ->
  lastn n (l ++ r) = lastn (n - List.length r) l ++ r.
Proof.
  intros H. unfold lastn. rewrite length_app, skipn_app.
  replace (List.length l + List.length r - n - List.length l)%nat
    with 0%nat by lia.
  simpl. f_equal. f_equal. lia.
Qed.

Lemma tl_skipn {A} (k : nat) (l : list A) : tl (skipn k l) = skipn (S k) l.
Proof.
  revert l. induction k as [|k IH]; intros [|a l]; simpl; auto.
Qed.

Lemma lastn_snoc_full {A} (n : nat) (l : list A) (x : A) :
  (0 < n)%nat -> (n <= List.length l)%nat ->
  lastn n (tl (lastn n l) ++ [x]) = lastn n (l ++ [x]).
Proof.
  intros Hn Hl. unfold lastn.
  rewrite tl_skipn, !length_app, length_skipn.
  change (List.length [x]) with 1%nat.
  assert (E : (List.length l - S (List.length l - n) + 1 - n = 0)%nat) by lia.
  rewrite E. clear E. rewrite skipn_O.
  rewrite skipn_app.
  assert (E : (List.length l + 1 - n - List.length l = 0)%nat) by lia.
  rewrite E. clear E.
  rewrite !skipn_O. f_equal. f_equal. lia.
Qed.

Lemma Publish_buffer uuid now e eb :
  buffer (Publish uuid now e eb)
  = (if len (buffer eb) >=? bufferSize eb
     then tl (buffer eb) else buffer eb) ++ [stamp uuid now e].
Proof. reflexivity. Qed.

Lemma Publish_bufferSize uuid now e eb :
  bufferSize (Publish uuid now e eb) = bufferSize eb.
Proof. reflexivity. Qed.

Lemma NewEventBus_wf n : wf (NewEventBus n).
Proof.
  unfold wf, NewEventBus, len. simpl.
  destruct (n <=? 0) eqn:E; lia.
Qed.

Lemma Publish_wf uuid now e eb : wf eb -> wf (Publish uuid now e eb).
Proof.
  unfold wf, len. intros [Hs Hl].
  rewrite Publish_buffer, Publish_bufferSize. split; [exact Hs|].
  rewrite length_app. simpl.
  destruct (len (buffer eb) >=? bufferSize eb) eqn:E; unfold len in E.
  - destruct (buffer eb) as [|x l]; simpl in *; lia.
  - lia.
Qed.

Lemma publishAll_wf evs : forall eb, wf eb -> wf (publishAll evs eb).
Proof.
  induction evs as [|[[u n] e] evs IH]; intros eb H; simpl; auto.
  apply IH, Publish_wf, H.
Qed.

Lemma publishAll_bufferSize evs :
  forall eb, bufferSize (publishAll evs eb) = bufferSize eb.
Proof.
  induction evs as [|[[u n] e] evs IH]; intros eb; simpl; auto.
  rewrite IH. reflexivity.
Qed.

(** One [Publish] keeps the last [bufferSize] events of what was retained
    followed by the new one. *)
Lemma Publish_lastn uuid now e eb :
  wf eb ->
  buffer (Publish uuid now e eb)
  = lastn (Z.to_nat (bufferSize eb)) (buffer eb ++ [stamp uuid now e]).
Proof.
  intros [Hs Hl]. rewrite Publish_buffer. unfold len in *.
  destruct (Z.of_nat (List.length (buffer eb)) >=? bufferSize eb) eqn:E.
  - assert (Hlen : List.length (buffer eb) = Z.to_nat (bufferSize eb)) by lia.
    rewrite <- (lastn_all (Z.to_nat (bufferSize eb)) (buffer eb)) at 1 by lia.
    rewrite <- lastn_snoc_full by lia.
    symmetry. apply lastn_all.
    rewrite length_app. simpl.
    destruct (buffer eb) as [|x l]; [simpl in *; lia|].
    unfold lastn. rewrite Hlen, Nat.sub_diag. simpl. simpl in Hlen. lia.
  - symmetry. apply lastn_all. rewrite length_app. simpl. lia.
Qed.

Lemma lastn_lastn_app {A} (n : nat) (l r : list A) :
  lastn n (lastn n l ++ r) = lastn n (l ++ r).
Proof.
  destruct (Nat.le_gt_cases (List.length l) n) as [H|H].
  - rewrite (lastn_all n l) by exact H. reflexivity.
  - unfold lastn.
    rewrite !length_app, length_skipn, !skipn_app, length_skipn, skipn_skipn.
    f_equal; f_equal; lia.
Qed.

Lemma publishAll_lastn evs :
  forall eb, wf eb ->
  buffer (publishAll evs eb)
  = lastn (Z.to_nat (bufferSize eb)) (buffer eb ++ stamped evs).
Proof.
  induction evs as [|[[u n] e] evs IH]; intros eb H; simpl.
  - rewrite app_nil_r. symmetry. apply lastn_all.
    destruct H as [Hs Hl]. unfold len in Hl. lia.
  - rewrite IH by (apply Publish_wf, H).
    rewrite Publish_bufferSize, Publish_lastn by exact H.
    rewrite lastn_lastn_app, <- app_assoc. reflexivity.
Qed.

Lemma Recent_lastn limit eb :
  Recent limit eb = lastn (Z.to_nat (effective limit eb)) (buffer eb).
Proof.
  unfold Recent, effective, lastn, len.
  set (n := List.length (buffer eb)).
  set (k := if (limit <=? 0) || (limit >? Z.of_nat n)
            then Z.of_nat n else limit).
  assert (Hk : 0 <= k <= Z.of_nat n).
  { subst k. destruct (limit <=? 0) eqn:E1; simpl; [lia|].
    destruct (limit >? Z.of_nat n) eqn:E2; lia. }
  replace (Z.to_nat (Z.of_nat n - k)) with (n - Z.to_nat k)%nat by lia.
  apply firstn_all2. rewrite length_skipn. fold n. lia.
Qed.

End EventBusFacts.

(** C7, as amended: on a bus made by [NewEventBus] and driven by [Publish]
    (one that satisfies [wf]), [Recent N] right after [N] publishes, for
    [1 <= N <= bufferSize], returns exactly those [N] events, stamped, in
    publish order. In general [Recent limit] returns the last [limit]
    retained events in order, where a [limit] that is not positive or
    exceeds the number retained stands for all of them, and a publish on a
    full buffer drops the oldest event. *)
Theorem C7_recent_after_publishes :
  forall eb evs limit uuid now e,
    EventBus.wf eb ->
    1 <= EventBus.len evs <= EventBus.bufferSize eb ->
    EventBus.Recent (EventBus.len evs) (EventBus.publishAll evs eb)
    = EventBus.stamped evs
    /\ EventBus.Recent limit eb
       = EventBus.lastn
           (Z.to_nat (if (limit <=? 0)
                         || (limit >? EventBus.len (EventBus.buffer eb))
                      then EventBus.len (EventBus.buffer eb) else limit))
           (EventBus.buffer eb)
    /\ EventBus.buffer (EventBus.Publish uuid now e eb)
       = (if EventBus.len (EventBus.buffer eb) >=? EventBus.bufferSize eb
          then tl (EventBus.buffer eb) else EventBus.buffer eb)
         ++ [EventBus.stamp uuid now e].
Proof.
  intros eb evs limit uuid now e Hwf [H1 H2].
  split; [|split; [apply Recent_lastn | apply Publish_buffer]].
  rewrite Recent_lastn. unfold EventBus.effective.
  rewrite publishAll_lastn by exact Hwf.
  assert (Hs : List.length (EventBus.stamped evs) = List.length evs)
    by (unfold EventBus.stamped; apply length_map).
  unfold EventBus.len in *.
  rewrite lastn_app by lia.
  rewrite length_app, Hs.
  set (rest := EventBus.lastn _ (EventBus.buffer eb)).
  replace ((Z.of_nat (List.length evs) <=? 0)
           || (Z.of_nat (List.length evs)
               >? Z.of_nat (List.length rest + List.length evs)))
    with false by lia.
  rewrite lastn_app by lia.
  rewrite Nat2Z.id, Hs, Nat.sub_diag.
  unfold EventBus.lastn at 1. rewrite Nat.sub_0_r, skipn_all. reflexivity.
Qed.

Lemma published_app tr1 tr2 :
  published (tr1 ++ tr2) = published tr1 ++ published tr2.
Proof.
  induction tr1 as [|[X c x] tr1 IH]; simpl; auto.
  destruct c; simpl; rewrite ?IH; reflexivity.
Qed.

Lemma instanceWrites_app tr1 tr2 :
  instanceWrites (tr1 ++ tr2) = instanceWrites tr1 ++ instanceWrites tr2.
Proof.
  induction tr1 as [|[X c x] tr1 IH]; simpl; auto.
  destruct c; simpl; rewrite ?IH; reflexivity.
Qed.

(** ** CloudManager *)

Section ManagerFacts.

Import Manager.

(** Resolving an instance only reads: it publishes nothing and writes
    nothing. *)
Lemma scanProvisioners_reads ps id tr r :
  Exec (scanProvisioners ps id) tr r ->
  published tr = [] /\ instanceWrites tr = [].
Proof.
  revert tr. induction ps as [|[k p] ps IH]; intros tr H.
  - exec_all H. auto.
  - cbn in H. exec_step H. cbn in H. exec_step H.
    + exec_all H. auto.
    + apply IH in H. exact H.
Qed.

Lemma GetInstance_reads m id tr r :
  Exec (GetInstance m id) tr r ->
  published tr = [] /\ instanceWrites tr = [].
Proof.
  unfold GetInstance. intros H.
  destruct (negb (Enabled (config m))); [exec_all H; auto|].
  destruct (hasStore m).
  - cbn in H. exec_step H. cbn in H. exec_step H.
    + exec_all H. auto.
    + cbn in H. apply scanProvisioners_reads in H. exact H.
  - cbn in H. apply scanProvisioners_reads in H. exact H.
Qed.

Lemma resolveInstance_reads m id tr r :
  Exec (resolveInstance m id) tr r ->
  published tr = [] /\ instanceWrites tr = [].
Proof.
  unfold resolveInstance. intros H.
  destruct (negb (Enabled (config m))); [exec_all H; auto|].
  apply Exec_bind in H. destruct H as (a & tr1 & tr2 & H1 & H2 & ->).
  apply GetInstance_reads in H1. destruct H1 as [P W].
  rewrite published_app, instanceWrites_app, P, W.
  destruct a as [inst|e]; exec_all H2; auto.
Qed.

Lemma StartInstance_effects m id tr :
  Exec (StartInstance m id) tr None ->
  exists inst, instanceWrites tr = newStateWrite m inst InstanceStateRunning
               /\ published tr = [].
Proof.
  unfold StartInstance. intros H.
  apply Exec_bind in H. destruct H as (a & tr1 & tr2 & H1 & H2 & ->).
  apply resolveInstance_reads in H1. destruct H1 as [P W].
  rewrite published_app, instanceWrites_app, P, W.
  destruct a as [[inst prov]|e]; [|exec_all H2; discriminate].
  exists inst. unfold storeState, newStateWrite in *.
  cbn in H2. exec_step H2. cbn in H2. exec_step H2; [exec_all H2; discriminate|].
  destruct (hasStore m); exec_all H2; auto.
Qed.

Lemma StopInstance_effects m id tr :
  Exec (StopInstance m id) tr None ->
  exists inst now,
    instanceWrites tr = newStateWrite m inst InstanceStateStopped
    /\ published tr = [lifecycleEvent EventInstanceStopped id now].
Proof.
  unfold StopInstance. intros H.
  apply Exec_bind in H. destruct H as (a & tr1 & tr2 & H1 & H2 & ->).
  apply resolveInstance_reads in H1. destruct H1 as [P W].
  rewrite published_app, instanceWrites_app, P, W.
  destruct a as [[inst prov]|e]; [|exec_all H2; discriminate].
  unfold storeState, newStateWrite in *.
  cbn in H2. exec_step H2. cbn in H2. exec_step H2; [exec_all H2; discriminate|].
  destruct (hasStore m); exec_all H2; eexists inst, _; split; reflexivity.
Qed.

Lemma TerminateInstance_effects m id tr :
  Exec (TerminateInstance m id) tr None ->
  exists inst now,
    instanceWrites tr = newStateWrite m inst InstanceStateTerminated
    /\ published tr = [lifecycleEvent EventInstanceTerminated id now].
Proof.
  unfold TerminateInstance. intros H.
  apply Exec_bind in H. destruct H as (a & tr1 & tr2 & H1 & H2 & ->).
  apply resolveInstance_reads in H1. destruct H1 as [P W].
  rewrite published_app, instanceWrites_app, P, W.
  destruct a as [[inst prov]|e]; [|exec_all H2; discriminate].
  unfold storeState, newStateWrite in *.
  cbn in H2. exec_step H2. cbn in H2. exec_step H2; [exec_all H2; discriminate|].
  destruct (hasStore m); exec_all H2; eexists inst, _; split; reflexivity.
Qed.

End ManagerFacts.

(** C4, the part the code misses: whatever the environment answers,
    [StartInstance] publishes no event, also when the provisioner call
    succeeds and the store is updated to [running]. [StopInstance] and
    [TerminateInstance] do publish theirs ([StopInstance_effects],
    [TerminateInstance_effects]). *)
Theorem C4_start_publishes_nothing :
  forall m id tr r,
    Exec (Manager.StartInstance m id) tr r -> published tr = [].
Proof.
  intros m id tr r H. unfold Manager.StartInstance in H.
  apply Exec_bind in H. destruct H as (a & tr1 & tr2 & H1 & H2 & ->).
  apply resolveInstance_reads in H1. destruct H1 as [P _].
  rewrite published_app, P.
  destruct a as [[inst prov]|e]; [|exec_all H2; reflexivity].
  unfold Manager.storeState in H2.
  cbn in H2. exec_step H2. cbn in H2. exec_step H2; [exec_all H2; reflexivity|].
  destruct (Manager.hasStore m); exec_all H2; reflexivity.
Qed.

(** With billing enabled and a service URL configured, [NewCloudManager]
    installs the HTTP client, and its authorization call returns an error
    when the billing service cannot be reached. *)
Lemma billing_unreachable_is_error cfg store teamID platform instanceType w :
  billing_Enabled (Billing cfg) = true ->
  ServiceURL (Billing cfg) <> "" ->
  World.billingService w = None ->
  isErr (fst (World.handle
                (AuthorizeProvisioning
                   (Manager.billing (Manager.NewCloudManager cfg store))
                   teamID platform instanceType) w)) = true.
Proof.
  intros He Hu Hs. unfold Manager.NewCloudManager. cbn [Manager.billing].
  apply String.eqb_neq in Hu. rewrite He, Hu.
  unfold World.handle, World.exec, Billing.authorize,
    Billing.HTTP_AuthorizeProvisioning.
  cbn. rewrite Hs. reflexivity.
Qed.

(** C5: in every execution of [CreateInstance] in which the billing
    authorization call comes back with an error, the result is
    [ErrBillingServiceUnavailable], no provisioner was called and the store
    was not written. *)
Theorem C5_billing_unavailable_fails_safe :
  forall m req tr r,
    Exec (Manager.CreateInstance m req) tr r ->
    existsb authorizeFailed tr = true ->
    r = Err ErrBillingServiceUnavailable
    /\ existsb isProvisionerCall tr = false
    /\ existsb isStoreWrite tr = false.
Proof.
  intros m req tr r H F. unfold Manager.CreateInstance in H.
  destruct (negb (Enabled (Manager.config m)));
    [exec_all H; cbn in F; discriminate F|].
  destruct (negb (req_TeamID req =? "")%string && Manager.hasStore m).
  - cbn in H. exec_step H. cbn in H.
    destruct (match x with Ok count => _ | Err _ => false end);
      [exec_all H; cbn in F; discriminate F|].
    cbn in H. exec_step H. cbn in H. cbn in F.
    destruct x0 as [auth|e]; [|exec_all H; auto].
    exfalso. unfold Manager.EmitInstanceEvent in H.
    exec_all H; cbn in F; discriminate F.
  - cbn in H. exec_step H. cbn in H. cbn in F.
    destruct x as [auth|e]; [|exec_all H; auto].
    exfalso. unfold Manager.EmitInstanceEvent in H.
    exec_all H; cbn in F; discriminate F.
Qed.

(** C6: with the subsystem enabled, a store at hand and a team named in the
    request, when the rows of that team that are neither [terminated] nor
    [failed] number at least [MaxInstancesPerTeam], [CreateInstance] returns
    [ErrMaxInstancesReached]; the count query is the only call of the run,
    so the billing authorizer is not reached, and the world is unchanged. *)
Theorem C6_team_cap_before_billing :
  forall m req w,
    Enabled (Manager.config m) = true ->
    req_TeamID req <> "" ->
    Manager.hasStore m = true ->
    Storage.outage (World.db w) = None ->
    let active :=
      Z.of_nat (List.length
                  (filter (fun i => String.eqb (TeamID i) (req_TeamID req)
                                    && negb (String.eqb (State i) "terminated"
                                             || String.eqb (State i) "failed"))
                     (Storage.cloud_instances (World.db w)))) in
    MaxInstancesPerTeam (Manager.config m) <= active ->
    run World.handle (Manager.CreateInstance m req) w
    = (Err ErrMaxInstancesReached, w,
       [Ev (CountCloudInstancesByTeam (req_TeamID req)) (Ok active)]).
Proof.
  intros m req w He Ht Hs Ho active Hc.
  unfold Manager.CreateInstance. rewrite He, Hs.
  apply String.eqb_neq in Ht. rewrite Ht. cbn.
  unfold Storage.CountCloudInstancesByTeam. rewrite Ho.
  change (Z.of_nat
            (List.length
               (filter (Storage.countsForTeam (req_TeamID req))
                  (Storage.cloud_instances (World.db w))))) with active.
  replace (active >=? MaxInstancesPerTeam (Manager.config m)) with true by lia.
  reflexivity.
Qed.

(** C10: in every execution of [CreateInstance] in which the team count
    query comes back with an error, the billing authorizer is called all the
    same, and when it grants the request and a provisioner is registered for
    the platform the provisioner is asked to create the instance. With the
    subsystem enabled, a run stops short of billing only with
    [ErrMaxInstancesReached], after a count that was returned and is at least
    the cap. *)
Theorem C10_count_error_fails_open :
  forall m req tr r,
    Enabled (Manager.config m) = true ->
    Exec (Manager.CreateInstance m req) tr r ->
    (existsb countFailed tr = true ->
     existsb isAuthorize tr = true
     /\ (existsb authorizeGranted tr = true ->
         forall prov,
           Manager.getProvisioner m (req_Platform req) = Ok prov ->
           existsb isProvCreate tr = true))
    /\ (existsb isAuthorize tr = false ->
        r = Err ErrMaxInstancesReached
        /\ existsb (countReached (MaxInstancesPerTeam (Manager.config m))) tr
           = true).
Proof.
  intros m req tr r He H.
  unfold Manager.CreateInstance, Manager.EmitInstanceEvent in H.
  rewrite He in H. cbn [negb] in H.
  exec_all H; cbn; rewrite ?orb_false_r;
    (split;
     [ intros F;
       first [ discriminate F
             | split; [reflexivity|];
               intros G prov Hp;
               first [ discriminate G | reflexivity | congruence
                     | rewrite G in *; discriminate ] ]
     | intros F;
       first [ discriminate F | split; [reflexivity | lia] ] ]).
Qed.

(** ** Dedicated hosts: release *)

(** The allocator's release writes a host back only as [available], and,
    when the host carries an allocation time, only once the minimum
    allocation has elapsed. *)
Lemma releaseDedicatedHost_min_allocation p hostDBID tr r :
  Exec (AWSProv.releaseDedicatedHost p hostDBID) tr r ->
  nondecreasing (clockReadings tr) ->
  Forall (fun h => dh_State h = "available"
                   /\ (dh_AllocatedAt h = None
                       \/ heldAtLeast (dh_MinAllocation h) h))
    (hostWrites tr).
Proof.
  unfold AWSProv.releaseDedicatedHost. intros H M.
  exec_all H; cbn in M |- *;
    try (constructor; [split; [reflexivity|] | constructor]);
    try apply Forall_nil.
  - right. exists t, x1. cbn. repeat split.
    unfold Before, Add in *. lia.
  - left. reflexivity.
Qed.




(** ** Storage facts *)

Lemma wrap64_small z : min_int64 <= z <= max_int64 -> wrap64 z = z.
Proof.
  unfold wrap64, min_int64, max_int64. intros H.
  rewrite Z.mod_small; lia.
Qed.

Lemma takeHost_saveHost now m rows :
  exists created,
    Storage.takeHost (Storage.m_ID m) (Storage.saveHost now m rows)
    = Some (Storage.trackHost created now m).
Proof.
  induction rows as [|r rows IH]; simpl.
  - exists now. rewrite String.eqb_refl. reflexivity.
  - destruct (Storage.m_ID r =? Storage.m_ID m)%string eqn:E; simpl.
    + exists (Storage.m_CreatedAt r). rewrite String.eqb_refl. reflexivity.
    + rewrite E. exact IH.
Qed.

(** ** macOS launch *)

(** C1, where the code falls short: a macOS launch acquires a host, the
    launch is refused by EC2, and less time than the host's minimum
    allocation passes between the two clock readings. The error returned is
    the [ProvisionError] wrapping the EC2 error, but the release that the
    code attempts is refused by its own minimum-allocation check, and the
    host stays [allocated] to the instance that was never launched. *)
Theorem C1_launch_failure_keeps_host :
  forall p req instanceID w host sec err,
    aws_hasStore p = true ->
    Storage.outage (World.db w) = None ->
    Storage.GetAvailableDedicatedHost (World.db w) = Ok host ->
    dh_MinAllocation host = sec * Second ->
    sec * Second <= max_int64 ->
    World.renderError w = None ->
    World.apiError (World.ec2 w) = None ->
    World.launchError (World.ec2 w) = Some err ->
    0 <= World.latency w < dh_MinAllocation host ->
    let '(r, w') :=
      World.exec (AWSProv.launchMacOSInstance p req instanceID) w in
    r = Err (ProvisionError instanceID PlatformMacOS "aws" err)
    /\ exists h,
         Storage.GetDedicatedHost (World.db w') (dh_ID host) = Ok h
         /\ dh_State h = "allocated"
         /\ dh_CurrentInstanceID h = instanceID
         /\ dh_ReleasedAt h = dh_ReleasedAt host.
Proof.
  intros p req instanceID w host sec err Hs Ho Ha Hmin Hmax Hr Hapi Hl Hlat.
  unfold World.exec, AWSProv.launchMacOSInstance, AWSProv.acquireDedicatedHost,
    AWSProv.releaseDedicatedHost.
  rewrite Hs. cbn. rewrite Ha. cbn.
  unfold World.write, Storage.UpdateDedicatedHost. cbn. rewrite Ho.
  cbn -[Storage.saveHost Storage.dedicatedHostToModel].
  rewrite Hr. cbn -[Storage.saveHost Storage.dedicatedHostToModel].
  unfold World.launch. rewrite Hapi, Hl.
  cbn -[Storage.saveHost Storage.dedicatedHostToModel
        Storage.GetDedicatedHost].
  set (alloc := set_host "allocated" instanceID (Some (World.clock w))
                  (dh_ReleasedAt host) host).
  destruct (takeHost_saveHost (World.clock w + World.latency w)
              (Storage.dedicatedHostToModel alloc)
              (Storage.dedicated_hosts (World.db w))) as [created Ht].
  change (Storage.m_ID (Storage.dedicatedHostToModel alloc))
    with (dh_ID host) in Ht.
  unfold Storage.GetDedicatedHost.
  cbn -[Storage.saveHost Storage.dedicatedHostToModel Storage.takeHost].
  rewrite Ho, Ht.
  cbn -[Storage.saveHost Storage.takeHost wrap64 Z.quot Z.mul Before Add].
  assert (Hq : wrap64 (Z.quot (dh_MinAllocation host) Second * Second)
               = dh_MinAllocation host).
  { rewrite Hmin. rewrite Z.quot_mul by (unfold Second; lia).
    apply wrap64_small. unfold min_int64. lia. }
  rewrite Hq.
  replace (Before (World.clock w + World.latency w)
             (Add (World.clock w) (dh_MinAllocation host))) with true
    by (unfold Before, Add; lia).
  cbn -[Storage.saveHost Storage.dedicatedHostToModel Storage.takeHost].
  split; [reflexivity|].
  rewrite Ho, Ht. eexists. split; [reflexivity|]. cbn. auto.
Qed.

(** ** Cost accrual *)

Section Accrual.

Import Storage Accrual.

Lemma saveInstance_ids now m rows :
  In (ID m) (map ID rows) ->
  map ID (saveInstance now m rows) = map ID rows.
Proof.
  induction rows as [|r rows IH]; simpl; [tauto|].
  destruct (ID r =? ID m)%string eqn:E.
  - intros _. simpl. f_equal. apply String.eqb_eq in E. auto.
  - intros [H|H].
    + rewrite H, String.eqb_refl in E. discriminate.
    + simpl. f_equal. auto.
Qed.

Lemma saveInstance_other now m rows y :
  In y rows -> ID y <> ID m -> In y (saveInstance now m rows).
Proof.
  induction rows as [|r rows IH]; simpl; [tauto|].
  intros [->|H] Hne.
  - apply String.eqb_neq in Hne. rewrite Hne. left. reflexivity.
  - destruct (ID r =? ID m)%string; [right; exact H|].
    right. auto.
Qed.

Lemma saveInstance_same now m rows x :
  NoDup (map ID rows) -> In x rows -> ID x = ID m ->
  In (trackInstance (CreatedAt x) now m) (saveInstance now m rows).
Proof.
  induction rows as [|r rows IH]; simpl; [tauto|].
  intros Hnd [->|H] Hid.
  - rewrite Hid, String.eqb_refl. left. reflexivity.
  - inversion Hnd as [|? ? Hnot Hnd']; subst.
    destruct (ID r =? ID m)%string eqn:E.
    + exfalso. apply Hnot. apply String.eqb_eq in E.
      rewrite E, <- Hid. apply in_map. exact H.
    + right. auto.
Qed.

Lemma NoDup_ids_inj rows x y :
  NoDup (map ID rows) -> In x rows -> In y rows -> ID x = ID y -> x = y.
Proof.
  induction rows as [|r rows IH]; simpl; [tauto|].
  intros Hnd Hx Hy Hid. inversion Hnd as [|? ? Hnot Hnd']; subst.
  destruct Hx as [->|Hx], Hy as [->|Hy]; auto.
  - exfalso. apply Hnot. rewrite Hid. apply in_map. exact Hy.
  - exfalso. apply Hnot. rewrite <- Hid. apply in_map. exact Hx.
Qed.

Lemma takeInstance_In rows x :
  NoDup (map ID rows) -> In x rows -> takeInstance (ID x) rows = Some x.
Proof.
  unfold takeInstance.
  induction rows as [|r rows IH]; simpl; [tauto|].
  intros Hnd Hx. inversion Hnd as [|? ? Hnot Hnd']; subst.
  destruct (ID r =? ID x)%string eqn:E.
  - apply String.eqb_eq in E. f_equal.
    apply (NoDup_ids_inj (r :: rows)); simpl; auto.
  - destruct Hx as [->|Hx]; [rewrite String.eqb_refl in E; discriminate|].
    auto.
Qed.

(** The accrual loop over a list of distinct rows of the table: each of
    them with a positive rate is replaced by its accrued version, every
    other row of the table stays. *)
Lemma accrue_fold hours now L :
  forall rows,
    NoDup (map ID rows) -> NoDup (map ID L) -> incl L rows ->
    let final := fold_left (accrueRow hours now) L rows in
    map ID final = map ID rows
    /\ forall r, In r rows ->
         exists r',
           In r' final /\ ID r' = ID r
           /\ AccruedCostCents r'
              = if existsb (fun x => String.eqb (ID x) (ID r)) L
                   && (0 <? HourlyRateCents r)
                then wrap64 (AccruedCostCents r
                             + Monitor.costCents (HourlyRateCents r) hours)
                else AccruedCostCents r.
Proof.
  induction L as [|x L IH]; intros rows Hnd HndL Hincl; simpl.
  - split; [reflexivity|]. intros r Hr. exists r. auto.
  - inversion HndL as [|? ? HnotL HndL']; subst.
    assert (Hx : In x rows) by (apply Hincl; left; reflexivity).
    set (rows1 := accrueRow hours now rows x).
    assert (Hids : map ID rows1 = map ID rows).
    { unfold rows1, accrueRow. destruct (HourlyRateCents x <=? 0); auto.
      apply saveInstance_ids. apply in_map with (f := ID) in Hx. exact Hx. }
    assert (Hother : forall y, In y rows -> ID y <> ID x -> In y rows1).
    { intros y Hy Hne. unfold rows1, accrueRow.
      destruct (HourlyRateCents x <=? 0); auto.
      apply saveInstance_other; auto. }
    destruct (IH rows1) as [Hids' Hrows].
    { rewrite Hids. exact Hnd. }
    { exact HndL'. }
    { intros y Hy. apply Hother; [apply Hincl; right; exact Hy|].
      intros E. apply HnotL. rewrite <- E. apply in_map. exact Hy. }
    split; [rewrite Hids', Hids; reflexivity|].
    intros r Hr.
    destruct (ID x =? ID r)%string eqn:E.
    + apply String.eqb_eq in E.
      assert (r = x) by (apply (NoDup_ids_inj rows); auto). subst r.
      assert (HnotEx : existsb (fun y => (ID y =? ID x)%string) L = false).
      { apply not_true_is_false. intros Hex.
        apply existsb_exists in Hex. destruct Hex as (y & Hy & Ey).
        apply String.eqb_eq in Ey. apply HnotL. rewrite <- Ey.
        apply in_map. exact Hy. }
      cbn [orb andb].
      destruct (HourlyRateCents x <=? 0) eqn:Hrate.
      * destruct (Hrows x) as (r' & Hin & Hid & Hacc).
        { unfold rows1, accrueRow. rewrite Hrate. exact Hx. }
        exists r'. rewrite Hacc, HnotEx. cbn.
        replace (0 <? HourlyRateCents x) with false by lia. auto.
      * destruct (Hrows (accrued hours now x)) as (r' & Hin & Hid & Hacc).
        { unfold rows1, accrueRow. rewrite Hrate.
          apply (saveInstance_same now _ rows x); auto. }
        exists r'. split; [exact Hin|]. split; [exact Hid|].
        rewrite Hacc. change (ID (accrued hours now x)) with (ID x).
        rewrite HnotEx. cbn.
        replace (0 <? HourlyRateCents x) with true by lia. reflexivity.
    + assert (Hne : ID r <> ID x).
      { intros Heq. rewrite Heq, String.eqb_refl in E. discriminate. }
      destruct (Hrows r (Hother r Hr Hne)) as (r' & Hin & Hid & Hacc).
      exists r'. cbn [orb]. auto.
Qed.

End Accrual.

Section AccrualRun.

Import Storage Accrual.

Lemma insertDesc_perm m l : Permutation (insertDesc m l) (m :: l).
Proof.
  induction l as [|x l IH]; simpl; [reflexivity|].
  destruct (CreatedAt x <? CreatedAt m); [reflexivity|].
  rewrite IH. apply perm_swap.
Qed.

Lemma orderDesc_perm l : Permutation (orderDesc l) l.
Proof.
  induction l as [|x l IH]; simpl; [reflexivity|].
  rewrite insertDesc_perm. constructor. exact IH.
Qed.

Lemma ListCloudInstances_running ls :
  outage ls = None ->
  ListCloudInstances ls (stateFilter InstanceStateRunning)
  = Ok (Accrual.runningRows (cloud_instances ls)).
Proof.
  intros Ho. unfold ListCloudInstances, runningRows. rewrite Ho.
  unfold limitOffset. cbn [f_Limit f_Offset stateFilter Z.gtb Z.compare].
  rewrite map_id. f_equal. f_equal.
  apply filter_ext. intros r. unfold matches, eqOpt. cbn.
  rewrite !andb_true_r. reflexivity.
Qed.

Lemma runningRows_spec rows r :
  In r (Accrual.runningRows rows) <-> In r rows /\ State r = InstanceStateRunning.
Proof.
  unfold runningRows. split.
  - intros H. apply (Permutation_in _ (orderDesc_perm _)) in H.
    apply filter_In in H. destruct H as [H E].
    apply String.eqb_eq in E. auto.
  - intros [H E]. apply (Permutation_in _ (Permutation_sym (orderDesc_perm _))).
    apply filter_In. split; [exact H|]. apply String.eqb_eq. exact E.
Qed.

Lemma NoDup_map_filter {A B} (f : A -> B) (p : A -> bool) l :
  NoDup (map f l) -> NoDup (map f (filter p l)).
Proof.
  induction l as [|x l IH]; simpl; [auto|].
  intros H. inversion H as [|? ? Hnot Hnd]; subst.
  destruct (p x); simpl; auto.
  constructor; auto. intros Hin. apply Hnot.
  apply in_map_iff in Hin. destruct Hin as (y & <- & Hy).
  apply in_map. apply filter_In in Hy. tauto.
Qed.

Lemma runningRows_NoDup rows :
  NoDup (map ID rows) -> NoDup (map ID (Accrual.runningRows rows)).
Proof.
  intros H. unfold runningRows.
  eapply Permutation_NoDup.
  - apply Permutation_map. apply Permutation_sym. apply orderDesc_perm.
  - apply NoDup_map_filter. exact H.
Qed.

(** One iteration of the loop, run in the world. *)
Lemma run_accrueOne m hours x w :
  outage (World.db w) = None ->
  let '(_, w', _) := run World.handle (Monitor.accrueOne m hours x) w in
  cloud_instances (World.db w')
  = accrueRow hours (World.clock w) (cloud_instances (World.db w)) x
  /\ outage (World.db w') = None
  /\ World.clock w' = World.clock w.
Proof.
  intros Ho. unfold Monitor.accrueOne, accrueRow.
  destruct (HourlyRateCents x <=? 0); [cbn; auto|].
  cbn -[saveInstance cloudInstanceToModel Monitor.costCents wrap64
        Billing.report].
  unfold World.write, UpdateCloudInstance. rewrite Ho.
  cbn -[saveInstance cloudInstanceToModel Monitor.costCents wrap64
        Billing.report].
  unfold World.exec.
  destruct (Manager.billing (Monitor.manager m)) as [|url key];
    cbn -[saveInstance cloudInstanceToModel Monitor.costCents wrap64];
    auto.
Qed.

Lemma run_accrueLoop m hours L :
  forall w,
    outage (World.db w) = None ->
    let '(_, w', _) :=
      run World.handle (forEach L (Monitor.accrueOne m hours)) w in
    cloud_instances (World.db w')
    = fold_left (accrueRow hours (World.clock w)) L
        (cloud_instances (World.db w))
    /\ outage (World.db w') = None
    /\ World.clock w' = World.clock w.
Proof.
  induction L as [|x L IH]; intros w Ho.
  - cbn. auto.
  - cbn [forEach fold_left]. rewrite run_bind.
    pose proof (run_accrueOne m hours x w Ho) as H1.
    destruct (run World.handle (Monitor.accrueOne m hours x) w)
      as [[[] w1] tr1].
    destruct H1 as (Hrows & Ho1 & Hc1).
    specialize (IH w1 Ho1).
    destruct (run World.handle (forEach L (Monitor.accrueOne m hours)) w1)
      as [[[] w2] tr2].
    destruct IH as (Hrows2 & Ho2 & Hc2).
    rewrite Hrows2, Hrows, Hc1, Hc2. auto.
Qed.

End AccrualRun.

(** C3, as amended: one accrual pass over a store whose rows have distinct
    ids adds to [accrued_cost_cents] of every row in state [running] with a
    positive rate the float64 product of the rate and the interval in hours,
    truncated toward zero, and at least 1 (in 64-bit arithmetic); every
    other row keeps its accrued cost. *)
Theorem C3_accrual_pass :
  forall m w,
    Storage.outage (World.db w) = None ->
    NoDup (map ID (Storage.cloud_instances (World.db w))) ->
    let hours := Hours (MonitorInterval (Monitor.config m)) in
    let '(_, w', _) := run World.handle (Monitor.accrueUsageCosts m) w in
    forall row,
      In row (Storage.cloud_instances (World.db w)) ->
      exists row',
        Storage.GetCloudInstance (World.db w') (ID row) = Ok row'
        /\ AccruedCostCents row'
           = if String.eqb (State row) InstanceStateRunning
                && (0 <? HourlyRateCents row)
             then wrap64
                    (AccruedCostCents row
                     + Z.max 1 (F64.to_int
                                  (F64.mul (F64.of_int (HourlyRateCents row))
                                     hours)))
             else AccruedCostCents row.
Proof.
  intros m w Ho Hnd hours. unfold Monitor.accrueUsageCosts.
  cbn [bind call run World.handle World.base].
  rewrite ListCloudInstances_running by exact Ho.
  cbn [bind].
  pose proof (run_accrueLoop m hours
                (Accrual.runningRows (Storage.cloud_instances (World.db w))) w Ho)
    as HL.
  fold hours.
  destruct (run World.handle
              (forEach (Accrual.runningRows (Storage.cloud_instances (World.db w)))
                 (Monitor.accrueOne m hours)) w) as [[[] w'] tr].
  destruct HL as (Hrows & Ho' & _).
  intros row Hrow.
  destruct (accrue_fold hours (World.clock w)
              (Accrual.runningRows (Storage.cloud_instances (World.db w)))
              (Storage.cloud_instances (World.db w)) Hnd
              (runningRows_NoDup _ Hnd)) as [Hids Hall].
  { intros x Hx. apply runningRows_spec in Hx. tauto. }
  destruct (Hall row Hrow) as (row' & Hin & Hid & Hacc).
  exists row'. split.
  - unfold Storage.GetCloudInstance. rewrite Ho', Hrows, <- Hid.
    rewrite takeInstance_In; [reflexivity| |exact Hin].
    rewrite Hids. exact Hnd.
  - rewrite Hacc.
    assert (Hex : existsb (fun x => (ID x =? ID row)%string)
                    (Accrual.runningRows (Storage.cloud_instances (World.db w)))
                  = (State row =? InstanceStateRunning)%string).
    { apply eq_true_iff_eq. rewrite existsb_exists, String.eqb_eq. split.
      - intros (x & Hx & E). apply runningRows_spec in Hx.
        destruct Hx as [Hx Hs]. apply String.eqb_eq in E.
        assert (x = row)
          by (apply (NoDup_ids_inj (Storage.cloud_instances (World.db w)));
              auto).
        subst x. exact Hs.
      - intros Hs. exists row. split.
        + apply runningRows_spec. auto.
        + apply String.eqb_refl. }
    rewrite Hex. unfold Monitor.costCents.
    destruct ((State row =? InstanceStateRunning)%string
              && (0 <? HourlyRateCents row)); [|reflexivity].
    f_equal. f_equal.
    destruct (F64.to_int _ <? 1) eqn:E; lia.
Qed.

(** ** Kubernetes provisioner *)

(** C8: for every instance id, [StartInstance] of the Kubernetes provisioner
    fails with an error that says start is not supported, without any call
    to the cluster; [StopInstance] is [TerminateInstance]: in every world
    the two return the same result and leave the same world behind. *)
Theorem C8_k8s_start_unsupported_stop_terminates :
  forall p id,
    (forall w,
        run World.base (K8sProv.StartInstance p id) w
        = (Some (Errorf
             "start not supported for K8s pods; create a new instance instead"),
           w, []))
    /\ K8sProv.StopInstance p id = K8sProv.TerminateInstance p id
    /\ (forall w,
           World.handle (ProvStopInstance (ProvK8s p) id) w
           = World.handle (ProvTerminateInstance (ProvK8s p) id) w)
    /\ (forall w,
           World.handle (ProvStartInstance (ProvK8s p) id) w
           = (Some (Errorf
                "start not supported for K8s pods; create a new instance instead"),
              w)).
Proof.
  intros p id. repeat split; reflexivity.
Qed.

(** ** AWS provisioner: lookups *)

Section Lookup.

Import World.

Lemma firstInstance_singletons l :
  AWSProv.firstInstance (map (fun i => [i]) l) = hd_error l.
Proof. destruct l; reflexivity. Qed.

Lemma hd_error_filter {A} (f : A -> bool) l x :
  hd_error (filter f l) = Some x -> In x l /\ f x = true.
Proof.
  intros H. assert (Hin : In x (filter f l)).
  { destruct (filter f l); simpl in H; [discriminate|].
    injection H as ->. left. reflexivity. }
  apply filter_In in Hin. exact Hin.
Qed.

Lemma filter_none {A} (f : A -> bool) l :
  (forall x, In x l -> f x = false) -> filter f l = [].
Proof.
  induction l as [|x l IH]; simpl; [reflexivity|].
  intros H. rewrite (H x) by auto. apply IH. intros y Hy. apply H. auto.
Qed.

Lemma liveFilter_states i :
  matchFilter World.liveFilter i = true ->
  ec2_StateName i = "pending" \/ ec2_StateName i = "running"
  \/ ec2_StateName i = "stopping" \/ ec2_StateName i = "stopped".
Proof.
  unfold matchFilter, World.liveFilter. cbn.
  rewrite !orb_true_iff, !String.eqb_eq. intuition discriminate.
Qed.

Lemma exec_GetInstance p id w :
  fst (exec (AWSProv.GetInstance p id) w)
  = match apiError (ec2 w) with
    | Some e => Err (Wrapf "failed to describe instances" e)
    | None =>
        match hd_error
                (filter (fun i => matchFilter (World.tagFilter id) i
                                  && (matchFilter World.liveFilter i && true))
                   (instances (ec2 w))) with
        | Some i =>
            Ok {| ID := id;
                  Platform_ := AWSProv.tagOr "hanzo.ai/platform"
                                 PlatformWindows (ec2_Tags i);
                  State := AWSProv.ec2StateToInstanceState (ec2_StateName i);
                  Provider := "aws";
                  InstanceID := ec2_InstanceId i;
                  InstanceType := ec2_InstanceType i;
                  ImageID := ""; Region := aws_Region (awsCfg p);
                  BotPackage := AWSProv.tagOr "hanzo.ai/bot-package" ""
                                  (ec2_Tags i);
                  BotVersion := "";
                  PublicIP := ec2_PublicIpAddress i;
                  PrivateIP := ec2_PrivateIpAddress i;
                  AgentNodeID := "";
                  TeamID := AWSProv.tagOr "hanzo.ai/team" "" (ec2_Tags i);
                  DedicatedHostID :=
                    AWSProv.tagOr "hanzo.ai/dedicated-host" "" (ec2_Tags i);
                  HourlyRateCents := 0; AccruedCostCents := 0;
                  BillingTier := ""; ConnectionInfo_ := None;
                  Metadata := ""; Tags := []; ErrorMessage := "";
                  RequestedAt := 0; ProvisionedAt := None;
                  TerminatedAt := None; CreatedAt := 0; UpdatedAt := 0 |}
        | None => Err ErrInstanceNotFound
        end
    end.
Proof.
  unfold exec, AWSProv.GetInstance, AWSProv.describeInstanceByTag.
  cbn -[matchFilter AWSProv.firstInstance AWSProv.tagOr
        AWSProv.ec2StateToInstanceState].
  unfold describe. destruct (apiError (ec2 w)); [reflexivity|].
  cbn -[matchFilter AWSProv.firstInstance AWSProv.tagOr
        AWSProv.ec2StateToInstanceState].
  rewrite firstInstance_singletons.
  destruct (hd_error _); reflexivity.
Qed.

End Lookup.

(** C9: [GetInstance] of the AWS provisioner looks an instance up through
    [describeInstanceByTag], which asks EC2 for the states [pending],
    [running], [stopping] and [stopped] only. When the EC2 call succeeds and
    every instance carrying the id's tag is [shutting-down] or [terminated],
    the result is [ErrInstanceNotFound]; and no instance that [GetInstance]
    returns is in state [terminated], although the state mapping sends
    [shutting-down] and [terminated] there. *)
Theorem C9_terminated_is_not_found :
  forall p id w,
    (World.apiError (World.ec2 w) = None ->
     (forall i,
         In i (World.instances (World.ec2 w)) ->
         World.matchFilter
           {| Name := "tag:hanzo.ai/cloud-instance"; Values := [id] |} i = true ->
         ec2_StateName i = "shutting-down" \/ ec2_StateName i = "terminated") ->
     fst (World.exec (AWSProv.GetInstance p id) w) = Err ErrInstanceNotFound)
    /\ (forall inst,
           fst (World.exec (AWSProv.GetInstance p id) w) = Ok inst ->
           State inst <> InstanceStateTerminated)
    /\ AWSProv.describeFilters id
       = [ {| Name := "tag:hanzo.ai/cloud-instance"; Values := [id] |};
           {| Name := "instance-state-name";
              Values := ["pending"; "running"; "stopping"; "stopped"] |} ]
    /\ AWSProv.ec2StateToInstanceState "shutting-down" = InstanceStateTerminated
    /\ AWSProv.ec2StateToInstanceState "terminated" = InstanceStateTerminated.
Proof.
  intros p id w. rewrite exec_GetInstance.
  split; [|split; [|repeat split]].
  - intros Hapi Hall. rewrite Hapi.
    rewrite filter_none; [reflexivity|].
    intros i Hi. destruct (World.matchFilter (World.tagFilter id) i) eqn:Et;
      [|reflexivity].
    destruct (Hall i Hi Et) as [Hs|Hs];
      unfold World.matchFilter, World.liveFilter; cbn; rewrite Hs; reflexivity.
  - intros inst H.
    destruct (World.apiError (World.ec2 w)); [discriminate|].
    destruct (hd_error _) as [i|] eqn:Eh; [|discriminate].
    injection H as <-. cbn [State].
    apply hd_error_filter in Eh. destruct Eh as [_ Ef].
    apply andb_true_iff in Ef. destruct Ef as [_ Ef].
    rewrite andb_true_r in Ef. apply liveFilter_states in Ef.
    destruct Ef as [E|[E|[E|E]]]; rewrite E; discriminate.
Qed.

(** * Further properties of the code *)

(** ** Runs in the environment *)

Section Environment.

Import Storage.

Lemma exec_bind {A B} (p : Prog A) (k : A -> Prog B) w :
  World.exec (bind p k) w
  = let '(a, w1) := World.exec p w in World.exec (k a) w1.
Proof.
  unfold World.exec. rewrite run_bind.
  destruct (run World.base p w) as [[a w1] tr1].
  destruct (run World.base (k a) w1) as [[r w2] tr2]. reflexivity.
Qed.

Lemma exec_forEach {A} (body : A -> Prog unit) l :
  forall w,
    World.exec (forEach l body) w
    = (tt, fold_left (fun w x => snd (World.exec (body x) w)) l w).
Proof.
  induction l as [|x l IH]; intros w; [reflexivity|].
  cbn [forEach fold_left]. rewrite exec_bind.
  destruct (World.exec (body x) w) as [[] w1]. cbn [snd]. apply IH.
Qed.

(** *** Programs that leave the instance table alone *)

Lemma sparesInstances_bind {A B} (p : Prog A) (k : A -> Prog B) :
  sparesInstances p -> (forall a, sparesInstances (k a)) ->
  sparesInstances (bind p k).
Proof.
  induction p as [a|X c f IH]; cbn; intros H K; [apply K|].
  destruct H as [Hc H]. split; [exact Hc|].
  intros x. apply IH; [apply H | exact K].
Qed.

Lemma sparesInstances_forEach {A} (body : A -> Prog unit) l :
  (forall x, sparesInstances (body x)) -> sparesInstances (forEach l body).
Proof.
  intros H. induction l as [|x l IH]; cbn [forEach]; [exact I|].
  apply sparesInstances_bind; [apply H | intros _; exact IH].
Qed.

Ltac spare :=
  repeat first
    [ exact I
    | progress intros
    | match goal with
      | |- _ = false /\ _ => split; [reflexivity|]
      | |- sparesInstances (bind _ _) => apply sparesInstances_bind
      | |- sparesInstances (forEach _ _) => apply sparesInstances_forEach
      | |- sparesInstances (match ?x with _ => _ end) => destruct x
      end
    | progress cbn ].

Lemma spares_releaseDedicatedHost p hostDBID :
  sparesInstances (AWSProv.releaseDedicatedHost p hostDBID).
Proof. unfold AWSProv.releaseDedicatedHost. spare. Qed.

Lemma spares_releaseByHostID p hostID hosts :
  sparesInstances (AWSProv.releaseByHostID p hostID hosts).
Proof.
  induction hosts as [|h hosts IH]; cbn [AWSProv.releaseByHostID]; [exact I|].
  destruct (dh_HostID h =? hostID)%string; [|exact IH].
  apply sparesInstances_bind; [apply spares_releaseDedicatedHost|].
  intros _. exact I.
Qed.

Lemma spares_describeInstanceByTag id :
  sparesInstances (AWSProv.describeInstanceByTag id).
Proof. unfold AWSProv.describeInstanceByTag. spare. Qed.

Lemma spares_aws_CreateInstance p req :
  sparesInstances (AWSProv.CreateInstance p req).
Proof.
  unfold AWSProv.CreateInstance, AWSProv.launchWindowsInstance,
    AWSProv.launchMacOSInstance, AWSProv.acquireDedicatedHost.
  cbn. split; [reflexivity|]. intros id.
  destruct (req_Platform req =? PlatformWindows)%string; [spare|].
  destruct (req_Platform req =? PlatformMacOS)%string; [|exact I].
  destruct (aws_hasStore p); cbn; [|exact I].
  split; [reflexivity|]. intros [host|e]; cbn; [|exact I].
  split; [reflexivity|]. intros now. split; [reflexivity|].
  intros [err|]; cbn; [exact I|].
  split; [reflexivity|]. intros [userData|e]; cbn; [|exact I].
  split; [reflexivity|]. intros [launched|err].
  - spare.
  - apply sparesInstances_bind; [apply spares_releaseDedicatedHost|].
    intros _. exact I.
Qed.

Lemma spares_aws_GetInstance p id : sparesInstances (AWSProv.GetInstance p id).
Proof.
  unfold AWSProv.GetInstance.
  apply sparesInstances_bind; [apply spares_describeInstanceByTag|].
  intros [i|e]; exact I.
Qed.

Lemma spares_aws_StartInstance p id :
  sparesInstances (AWSProv.StartInstance p id).
Proof.
  unfold AWSProv.StartInstance.
  apply sparesInstances_bind; [apply spares_describeInstanceByTag|].
  intros [i|e]; spare.
Qed.

Lemma spares_aws_StopInstance p id :
  sparesInstances (AWSProv.StopInstance p id).
Proof.
  unfold AWSProv.StopInstance.
  apply sparesInstances_bind; [apply spares_describeInstanceByTag|].
  intros [i|e]; spare.
Qed.

Lemma spares_aws_TerminateInstance p id :
  sparesInstances (AWSProv.TerminateInstance p id).
Proof.
  unfold AWSProv.TerminateInstance.
  apply sparesInstances_bind; [apply spares_describeInstanceByTag|].
  intros [i|e]; [|exact I]. cbn. split; [reflexivity|].
  intros [err|]; [exact I|].
  apply sparesInstances_bind; [|intros _; exact I].
  apply sparesInstances_forEach. intros tag.
  destruct ((fst tag =? "hanzo.ai/dedicated-host")%string && aws_hasStore p);
    [|exact I].
  cbn. split; [reflexivity|]. intros hosts. apply spares_releaseByHostID.
Qed.

Lemma spares_findPodByInstanceID p id :
  sparesInstances (K8sProv.findPodByInstanceID p id).
Proof. unfold K8sProv.findPodByInstanceID. spare. Qed.

Lemma spares_k8s_CreateInstance p req :
  sparesInstances (K8sProv.CreateInstance p req).
Proof. unfold K8sProv.CreateInstance. spare. Qed.

Lemma spares_k8s_GetInstance p id : sparesInstances (K8sProv.GetInstance p id).
Proof.
  unfold K8sProv.GetInstance.
  apply sparesInstances_bind; [apply spares_findPodByInstanceID|].
  intros [pod|e]; exact I.
Qed.

Lemma spares_k8s_TerminateInstance p id :
  sparesInstances (K8sProv.TerminateInstance p id).
Proof.
  unfold K8sProv.TerminateInstance.
  apply sparesInstances_bind; [apply spares_findPodByInstanceID|].
  intros [pod|e]; spare.
Qed.

Lemma spares_authorize b teamID platform instanceType :
  sparesInstances (Billing.authorize b teamID platform instanceType).
Proof.
  destruct b; cbn; [exact I|].
  unfold Billing.HTTP_AuthorizeProvisioning. spare.
Qed.

Lemma spares_report b instanceID platform hours hourlyCents :
  sparesInstances (Billing.report b instanceID platform hours hourlyCents).
Proof.
  destruct b; cbn; [exact I|]. unfold Billing.HTTP_ReportUsage. spare.
Qed.

(** A call of the environment that is not a write of the instance table
    leaves the table as it is. *)
Lemma base_spares {X} (c : Call X) w :
  writesInstances c = false ->
  cloud_instances (World.db (snd (World.base c w)))
  = cloud_instances (World.db w).
Proof.
  destruct c; cbn; intros H; try discriminate H; try reflexivity.
  - unfold World.write, CreateDedicatedHost.
    destruct (outage (World.db w)); [reflexivity|]. cbn.
    destruct (takeHost _ _); reflexivity.
  - unfold World.write, UpdateDedicatedHost.
    destruct (outage (World.db w)); reflexivity.
  - destruct (ev_ID event =? "")%string;
      destruct (IsZero (ev_Timestamp event)); reflexivity.
  - unfold World.launch. cbn.
    destruct (World.apiError (World.ec2 w)); [reflexivity|].
    destruct (World.launchError (World.ec2 w)); reflexivity.
  - destruct (World.transition "pending" ids (World.ec2 w)); reflexivity.
  - destruct (World.transition "stopping" ids (World.ec2 w)); reflexivity.
  - destruct (World.transition "shutting-down" ids (World.ec2 w));
      reflexivity.
  - destruct (World.createPod namespace pod (World.k8s w)); reflexivity.
  - destruct (World.deletePod namespace name (World.k8s w)); reflexivity.
Qed.

Lemma exec_spares {R} (p : Prog R) :
  sparesInstances p ->
  forall w,
    cloud_instances (World.db (snd (World.exec p w)))
    = cloud_instances (World.db w).
Proof.
  unfold World.exec.
  induction p as [r|X c k IH]; cbn; intros H w; [reflexivity|].
  destruct H as [Hc H].
  pose proof (base_spares c w Hc) as Hb.
  destruct (World.base c w) as [x w1]. cbn [snd] in Hb.
  specialize (IH x (H x) w1).
  destruct (run World.base (k x) w1) as [[r w2] tr]. cbn [snd] in *.
  congruence.
Qed.

Lemma handle_spares {X} (c : Call X) w :
  writesInstances c = false ->
  cloud_instances (World.db (snd (World.handle c w)))
  = cloud_instances (World.db w).
Proof.
  intros H.
  destruct c; try exact (base_spares _ w H); cbn [World.handle].
  - apply exec_spares, spares_authorize.
  - apply exec_spares, spares_report.
  - destruct p; apply exec_spares;
      [apply spares_aws_CreateInstance | apply spares_k8s_CreateInstance].
  - destruct p; apply exec_spares;
      [apply spares_aws_GetInstance | apply spares_k8s_GetInstance].
  - destruct p; apply exec_spares;
      [apply spares_aws_StartInstance | exact I].
  - destruct p; apply exec_spares;
      [apply spares_aws_StopInstance | apply spares_k8s_TerminateInstance].
  - destruct p; apply exec_spares;
      [apply spares_aws_TerminateInstance
      | apply spares_k8s_TerminateInstance].
Qed.

(** A run none of whose calls writes the instance table ends with the
    table it started with, whatever the provisioners and the billing
    client did on the way. *)
Lemma run_spares {R} (p : Prog R) :
  forall w,
    existsb isInstanceWrite (snd (run World.handle p w)) = false ->
    cloud_instances (World.db (snd (fst (run World.handle p w))))
    = cloud_instances (World.db w).
Proof.
  induction p as [r|X c k IH]; cbn; intros w H; [reflexivity|].
  pose proof (handle_spares c w) as Hh.
  destruct (World.handle c w) as [x w1]. cbn [snd] in Hh.
  specialize (IH x w1).
  destruct (run World.handle (k x) w1) as [[r w2] tr]. cbn in *.
  apply orb_false_iff in H. destruct H as [Hc H].
  rewrite (IH H). apply Hh. exact Hc.
Qed.

Lemma isStoreWrite_isInstanceWrite tr :
  existsb isStoreWrite tr = false -> existsb isInstanceWrite tr = false.
Proof.
  induction tr as [|[X c x] tr IH]; cbn; [reflexivity|].
  intros H. apply orb_false_iff in H. destruct H as [Hc H].
  rewrite (IH H), orb_false_r. destruct c; cbn in *; congruence.
Qed.

End Environment.


(** ** CloudManager: dispatch and lookup *)

Section Dispatch.

Import Manager.

Lemma find_filter_other k k' (ps : list (Platform * CloudProvisioner)) :
  (k' =? k)%string = false ->
  find k (filter (fun kv => negb (fst kv =? k')%string) ps) = find k ps.
Proof.
  intros Hne. induction ps as [|[k0 p0] ps IH]; simpl; [reflexivity|].
  destruct (k0 =? k')%string eqn:E; simpl.
  - apply String.eqb_eq in E. subst k0. rewrite Hne. exact IH.
  - rewrite IH. reflexivity.
Qed.

Lemma find_assign k k' p ps :
  find k (assign k' p ps) = if (k' =? k)%string then Some p else find k ps.
Proof.
  unfold assign. simpl. destruct (k' =? k)%string eqn:E; [reflexivity|].
  apply find_filter_other. exact E.
Qed.

Lemma find_register platform p platforms :
  forall ps,
    find platform (fold_left (fun ps k => assign k p ps) platforms ps)
    = if existsb (String.eqb platform) platforms then Some p
      else find platform ps.
Proof.
  induction platforms as [|k ks IH]; intros ps; simpl; [reflexivity|].
  rewrite IH, find_assign. rewrite (String.eqb_sym platform k).
  destruct (existsb (String.eqb platform) ks); simpl.
  - rewrite orb_true_r. reflexivity.
  - rewrite orb_false_r. reflexivity.
Qed.

Lemma scanProvisioners_outcome ps id tr r :
  Exec (scanProvisioners ps id) tr r ->
  storeHits tr = []
  /\ match r with
     | Err e =>
         e = ErrInstanceNotFound
         /\ provisionerLookups tr = map (fun kv => (snd kv, id)) ps
         /\ lookupAnswers tr = []
     | Ok inst =>
         exists ps1 kv ps2,
           ps = ps1 ++ kv :: ps2
           /\ provisionerLookups tr
              = map (fun kv => (snd kv, id)) (ps1 ++ [kv])
           /\ lookupAnswers tr = [(snd kv, inst)]
     end.
Proof.
  revert tr. induction ps as [|[k p] ps IH]; intros tr H.
  - exec_all H. cbn. auto.
  - cbn in H. exec_step H. cbn in H. exec_step H.
    + exec_all H. cbn. split; [reflexivity|].
      exists [], (k, p), ps. cbn. auto.
    + apply IH in H. destruct H as [Hs H].
      unfold storeHits, provisionerLookups, lookupAnswers in *.
      cbn [flat_map storeHitOf lookupOf lookupAnswerOf app].
      split; [exact Hs|].
      destruct r as [inst|e0].
      * destruct H as (ps1 & kv & ps2 & -> & Hl & Ha).
        exists ((k, p) :: ps1), kv, ps2. rewrite Hl, Ha. auto.
      * destruct H as (-> & Hl & Ha). rewrite Hl, Ha. auto.
Qed.

End Dispatch.

(** A provisioner registered for a list of platforms is the one found for
    each of them afterwards, whatever was registered before; the lookup of
    every other platform is as it was. *)
Theorem registered_provisioner_is_found :
  forall platforms p m platform,
    Manager.getProvisioner (Manager.RegisterProvisioner platforms p m) platform
    = if existsb (String.eqb platform) platforms then Ok p
      else Manager.getProvisioner m platform.
Proof.
  intros platforms p m platform.
  unfold Manager.getProvisioner, Manager.RegisterProvisioner.
  cbn [Manager.provisioners]. rewrite find_register.
  destruct (existsb (String.eqb platform) platforms); reflexivity.
Qed.

(** With the cloud subsystem disabled, every entry point of the manager
    returns [ErrCloudDisabled] and is a program without any call: nothing is
    read, written, billed, provisioned or published. *)
Theorem disabled_manager_makes_no_call :
  forall m,
    Enabled (Manager.config m) = false ->
    (forall req, Manager.CreateInstance m req = Ret (Err ErrCloudDisabled))
    /\ (forall id, Manager.GetInstance m id = Ret (Err ErrCloudDisabled))
    /\ (forall filters,
           Manager.ListInstances m filters = Ret (Err ErrCloudDisabled))
    /\ (forall id, Manager.StartInstance m id = Ret (Some ErrCloudDisabled))
    /\ (forall id, Manager.StopInstance m id = Ret (Some ErrCloudDisabled))
    /\ (forall id, Manager.TerminateInstance m id = Ret (Some ErrCloudDisabled))
    /\ (forall id, Manager.GetConnectionInfo m id = Ret (Err ErrCloudDisabled))
    /\ (forall id command,
           Manager.ExecuteCommand m id command = Ret (Err ErrCloudDisabled))
    /\ (forall id lines, Manager.GetLogs m id lines = Ret (Err ErrCloudDisabled)).
Proof.
  intros m H.
  unfold Manager.CreateInstance, Manager.GetInstance, Manager.ListInstances,
    Manager.StartInstance, Manager.StopInstance, Manager.TerminateInstance,
    Manager.GetConnectionInfo, Manager.ExecuteCommand, Manager.GetLogs,
    Manager.resolveInstance.
  rewrite H. cbn. repeat split; reflexivity.
Qed.

(** [GetInstance] on an enabled manager asks the store first and returns its
    row without asking any provisioner; when the store has no row (or
    fails, or there is no store) it asks the provisioners of the registered
    platforms one after the other, as the map is walked, and returns the
    first instance found; when none has it, the error is
    [ErrInstanceNotFound], whatever errors the store and the provisioners
    gave. *)
Theorem GetInstance_store_first_then_provisioners :
  forall m id tr r,
    Enabled (Manager.config m) = true ->
    Exec (Manager.GetInstance m id) tr r ->
    match r with
    | Ok inst =>
        (Manager.hasStore m = true
         /\ storeHits tr = [inst] /\ provisionerLookups tr = [])
        \/ (storeHits tr = []
            /\ exists ps1 kv ps2,
                 Manager.provisioners m = ps1 ++ kv :: ps2
                 /\ provisionerLookups tr
                    = map (fun kv => (snd kv, id)) (ps1 ++ [kv])
                 /\ lookupAnswers tr = [(snd kv, inst)])
    | Err e =>
        e = ErrInstanceNotFound
        /\ storeHits tr = []
        /\ provisionerLookups tr
           = map (fun kv => (snd kv, id)) (Manager.provisioners m)
    end.
Proof.
  intros m id tr r He H. unfold Manager.GetInstance in H. rewrite He in H.
  cbn [negb] in H. destruct (Manager.hasStore m).
  - cbn in H. exec_step H. cbn in H. destruct x as [found|err].
    + exec_all H. left. cbn. repeat split; reflexivity.
    + cbn in H. apply scanProvisioners_outcome in H. destruct H as [Hs H].
      unfold storeHits, provisionerLookups, lookupAnswers in *.
      cbn [flat_map storeHitOf lookupOf lookupAnswerOf app].
      destruct r as [inst|e0].
      * right. split; [exact Hs | exact H].
      * destruct H as (-> & Hl & _). auto.
  - cbn in H. apply scanProvisioners_outcome in H. destruct H as [Hs H].
    destruct r as [inst|e0].
    + right. split; [exact Hs | exact H].
    + destruct H as (-> & Hl & _). auto.
Qed.

Section Listing.

Import Manager.

Lemma listAll_outcome ps filters tr l :
  Exec (listAll ps filters) tr l ->
  l = listed tr
  /\ listingCalls tr = map (fun kv => (snd kv, filters)) ps
  /\ storeListings tr = [].
Proof.
  revert tr l. induction ps as [|[k p] ps IH]; intros tr l H.
  - exec_all H. cbn. auto.
  - cbn in H. exec_step H.
    apply Exec_bind in H. destruct H as (rest & tr1 & tr2 & H1 & H2 & ->).
    apply IH in H1. destruct H1 as (-> & Hc & Hs).
    unfold listed, listingCalls, storeListings in *.
    cbn in H2. destruct H2 as [-> ->]. rewrite app_nil_r. cbn.
    rewrite Hc, Hs. destruct x; auto.
Qed.

End Listing.

(** [ListInstances] on an enabled manager: with a store it returns the
    store's answer and asks no provisioner; without one it never fails,
    the provisioner of every registered platform is asked once with the
    same filters (a provisioner registered for two platforms is asked
    twice), and the result is the concatenation of the lists that came
    back, a provisioner that fails contributing nothing. *)
Theorem ListInstances_store_or_aggregate :
  forall m filters tr r,
    Enabled (Manager.config m) = true ->
    Exec (Manager.ListInstances m filters) tr r ->
    if Manager.hasStore m then
      listingCalls tr = []
      /\ storeListings tr
         = [match r with Ok l => Some l | Err _ => None end]
    else
      r = Ok (listed tr)
      /\ listingCalls tr
         = map (fun kv => (snd kv, filters)) (Manager.provisioners m)
      /\ storeListings tr = [].
Proof.
  intros m filters tr r He H. unfold Manager.ListInstances in H.
  rewrite He in H. cbn [negb] in H. destruct (Manager.hasStore m).
  - exec_all H. destruct x; cbn; split; reflexivity.
  - apply Exec_bind in H. destruct H as (all & tr1 & tr2 & H1 & H2 & ->).
    apply listAll_outcome in H1. destruct H1 as (-> & Hc & Hs).
    cbn in H2. destruct H2 as [-> ->]. rewrite app_nil_r. auto.
Qed.

(** A start, stop or terminate that returns an error has changed nothing:
    no instance record was written and no event was published, whether the
    instance could not be resolved or the provisioner refused. *)
Theorem failed_lifecycle_call_changes_nothing :
  forall m id e,
    (forall tr, Exec (Manager.StartInstance m id) tr (Some e) ->
                instanceWrites tr = [] /\ published tr = [])
    /\ (forall tr, Exec (Manager.StopInstance m id) tr (Some e) ->
                   instanceWrites tr = [] /\ published tr = [])
    /\ (forall tr, Exec (Manager.TerminateInstance m id) tr (Some e) ->
                   instanceWrites tr = [] /\ published tr = []).
Proof.
  intros m id e.
  unfold Manager.StartInstance, Manager.StopInstance,
    Manager.TerminateInstance, Manager.storeState, Manager.EmitInstanceEvent.
  split; [|split]; intros tr H;
    apply Exec_bind in H; destruct H as (a & tr1 & tr2 & H1 & H2 & ->);
    apply resolveInstance_reads in H1; destruct H1 as [P W];
    rewrite ?published_app, ?instanceWrites_app, P, W;
    (destruct a as [[inst prov]|e0]; [|exec_all H2; split; reflexivity]);
    cbn in H2; exec_step H2; cbn in H2;
    (exec_step H2; [exec_all H2; split; reflexivity|]);
    exfalso; destruct (Manager.hasStore m); exec_all H2.
Qed.

(** ** CloudManager: creation *)

(** A successful [CreateInstance]: the manager's billing client was asked
    once, for the team, platform and instance type of the request, and
    granted it; one creation was asked, of the provisioner registered for
    the platform and with the request as it came, and that provisioner
    created the instance; the instance returned is the provisioner's with
    the hourly rate and the tier of the authorization stamped on it, that
    same record is what was handed to the store (once, when there is a
    store, and whatever the store answered), and two events were
    published: [instance.requested] without an instance id, then
    [instance.provisioning] carrying the record. *)
Theorem CreateInstance_success_is_billed_stored_announced :
  forall m req tr inst,
    Exec (Manager.CreateInstance m req) tr (Ok inst) ->
    exists auth prov raw t1 t2,
      authorizeCalls tr
      = [(Manager.billing m, req_TeamID req, req_Platform req,
          req_InstanceType req)]
      /\ grants tr = [auth]
      /\ Manager.getProvisioner m (req_Platform req) = Ok prov
      /\ createCalls tr = [(prov, req)]
      /\ provisioned tr = [raw]
      /\ inst = set_Billing (HourlyCents auth) (Tier auth) raw
      /\ instanceCreates tr = (if Manager.hasStore m then [inst] else [])
      /\ instanceWrites tr = []
      /\ published tr
         = [ {| ev_ID := ""; ev_Type := EventInstanceRequested;
                ev_InstanceID := ""; ev_Timestamp := t1;
                ev_Data :=
                  Some (PayloadMap [("platform", req_Platform req);
                                    ("bot_package", req_BotPackage req);
                                    ("team_id", req_TeamID req)]) |};
             {| ev_ID := ""; ev_Type := EventInstanceProvisioning;
                ev_InstanceID := ID inst; ev_Timestamp := t2;
                ev_Data := Some (PayloadInstance inst) |} ].
Proof.
  intros m req tr inst H.
  unfold Manager.CreateInstance, Manager.EmitInstanceEvent in H.
  exec_all H;
    match goal with
    | E : Ok _ = Ok _ |- _ => injection E as ->
    end;
    match goal with
    | A : negb (Authorized _) = false |- _ => apply negb_false_iff in A
    end;
    cbn;
    match goal with
    | A : Authorized _ = true |- _ => rewrite A
    end;
    repeat eexists; try eassumption; try reflexivity.
Qed.

Section CreationFailure.

Lemma CreateInstance_failure_trace m req tr e :
  Exec (Manager.CreateInstance m req) tr (Err e) ->
  existsb isStoreWrite tr = false
  /\ provisioned tr = []
  /\ ((published tr = [] /\ existsb isProvisionerCall tr = false)
      \/ (exists t,
             published tr
             = [ {| ev_ID := ""; ev_Type := EventInstanceRequested;
                    ev_InstanceID := ""; ev_Timestamp := t;
                    ev_Data :=
                      Some (PayloadMap [("platform", req_Platform req);
                                        ("bot_package", req_BotPackage req);
                                        ("team_id", req_TeamID req)]) |} ]
             /\ refusals tr = [e])).
Proof.
  intros H.
  unfold Manager.CreateInstance, Manager.EmitInstanceEvent in H.
  exec_all H; cbn; (split; [reflexivity|]); (split; [reflexivity|]);
    first [ left; split; reflexivity
          | right; eexists; split; [reflexivity|];
            match goal with
            | E : Err _ = Err _ |- _ => injection E as ->
            end; reflexivity ].
Qed.

End CreationFailure.

(** A [CreateInstance] that returns an error leaves no instance behind. In
    every execution the manager itself has written nothing to the store
    and no provisioner has created anything: either nothing was published
    and no provisioner was called, or the request had been announced by
    [instance.requested], the provisioner refused, and the error returned
    is the provisioner's own; no further event follows. In the
    environment, where the calls of the provisioner and of the billing
    client are run as well, the instance table is afterwards the one from
    before the call. The host table is not covered by this: a macOS launch
    that fails after its host was acquired has written the host row. *)
Theorem CreateInstance_failure_leaves_no_record :
  forall m req,
    (forall tr e,
        Exec (Manager.CreateInstance m req) tr (Err e) ->
        existsb isStoreWrite tr = false
        /\ provisioned tr = []
        /\ ((published tr = [] /\ existsb isProvisionerCall tr = false)
            \/ (exists t,
                   published tr
                   = [ {| ev_ID := ""; ev_Type := EventInstanceRequested;
                          ev_InstanceID := ""; ev_Timestamp := t;
                          ev_Data :=
                            Some (PayloadMap
                                    [("platform", req_Platform req);
                                     ("bot_package", req_BotPackage req);
                                     ("team_id", req_TeamID req)]) |} ]
                   /\ refusals tr = [e])))
    /\ (forall w,
           let '(r, w', _) :=
             run World.handle (Manager.CreateInstance m req) w in
           is_ok r = false ->
           Storage.cloud_instances (World.db w')
           = Storage.cloud_instances (World.db w)).
Proof.
  intros m req. split; [intros tr e; apply CreateInstance_failure_trace|].
  intros w.
  pose proof (run_Exec World.handle (Manager.CreateInstance m req) w) as E.
  pose proof (run_spares (Manager.CreateInstance m req) w) as S.
  destruct (run World.handle (Manager.CreateInstance m req) w)
    as [[r w'] tr].
  cbn [fst snd] in E, S. intros Hr.
  destruct r as [inst|e]; [discriminate Hr|].
  apply S, isStoreWrite_isInstanceWrite.
  exact (proj1 (CreateInstance_failure_trace m req tr e E)).
Qed.

Lemma CreateInstance_denied :
  forall m req tr r,
    Exec (Manager.CreateInstance m req) tr r ->
    denials tr <> [] ->
    exists reason,
      denials tr = [reason]
      /\ r = Err (Wrapf ("billing authorization denied: " ++ reason)
                    ErrBillingNotAuthorized)
      /\ existsb isProvisionerCall tr = false
      /\ existsb isStoreWrite tr = false
      /\ published tr = [].
Proof.
  intros m req tr r H D.
  unfold Manager.CreateInstance, Manager.EmitInstanceEvent in H.
  exec_all H; cbn in D |- *;
    try (exfalso; apply D; reflexivity);
    try match goal with
      | A : negb (Authorized _) = true |- _ => apply negb_true_iff in A
      | A : negb (Authorized _) = false |- _ => apply negb_false_iff in A
      end;
    try match goal with
    | A : Authorized _ = _ |- _ => rewrite A in D |- *
    end;
    try (exfalso; apply D; reflexivity);
    eexists; repeat split; reflexivity.
Qed.

Lemma CreateInstance_unregistered :
  forall m req tr r,
    Manager.find (req_Platform req) (Manager.provisioners m) = None ->
    Exec (Manager.CreateInstance m req) tr r ->
    is_ok r = false
    /\ existsb isProvisionerCall tr = false
    /\ existsb isStoreWrite tr = false
    /\ published tr = []
    /\ (grants tr <> [] <->
        r = Err (Wrapf ("invalid platform: no provisioner for platform "
                          ++ req_Platform req) ErrInvalidPlatform)).
Proof.
  intros m req tr r F H.
  unfold Manager.CreateInstance, Manager.EmitInstanceEvent,
    Manager.getProvisioner in H.
  rewrite F in H.
  exec_all H; cbn;
    try match goal with
      | A : negb (Authorized _) = true |- _ => apply negb_true_iff in A
      | A : negb (Authorized _) = false |- _ => apply negb_false_iff in A
      end;
    try match goal with
      | A : Authorized _ = _ |- _ => rewrite A
      end;
    repeat split; try reflexivity; try discriminate;
    try (intros C; exfalso; apply C; reflexivity);
    try (intros C; discriminate C).
Qed.

(** The two refusals of [CreateInstance] that come before any dispatch.
    When billing answers with [Authorized = false], the result is an error
    that wraps [ErrBillingNotAuthorized] and carries the reason given.
    When no provisioner is registered for the platform, the result is an
    error, and it is the [ErrInvalidPlatform] error exactly when billing
    granted the request: the platform is looked at only after the team
    count and the billing authorization. In both cases no provisioner is
    called, nothing is published and the store is not written. *)
Theorem CreateInstance_rejected_before_dispatch :
  forall m req tr r,
    Exec (Manager.CreateInstance m req) tr r ->
    (denials tr <> [] ->
     exists reason,
       denials tr = [reason]
       /\ r = Err (Wrapf ("billing authorization denied: " ++ reason)
                     ErrBillingNotAuthorized)
       /\ existsb isProvisionerCall tr = false
       /\ existsb isStoreWrite tr = false
       /\ published tr = [])
    /\ (Manager.find (req_Platform req) (Manager.provisioners m) = None ->
        is_ok r = false
        /\ existsb isProvisionerCall tr = false
        /\ existsb isStoreWrite tr = false
        /\ published tr = []
        /\ (grants tr <> [] <->
            r = Err (Wrapf ("invalid platform: no provisioner for platform "
                              ++ req_Platform req) ErrInvalidPlatform))).
Proof.
  intros m req tr r H. split.
  - intros D. eapply CreateInstance_denied; eassumption.
  - intros F. eapply CreateInstance_unregistered; eassumption.
Qed.

(** ** Storage: instances *)

Section InstanceTable.

Import Storage.

Lemma takeInstance_saveInstance now m rows :
  exists created,
    takeInstance (ID m) (saveInstance now m rows)
    = Some (trackInstance created now m).
Proof.
  unfold takeInstance.
  induction rows as [|r rows IH]; simpl.
  - exists now. rewrite String.eqb_refl. reflexivity.
  - destruct (ID r =? ID m)%string eqn:E; simpl.
    + exists (CreatedAt r). rewrite String.eqb_refl. reflexivity.
    + rewrite E. exact IH.
Qed.

Lemma takeInstance_saveInstance_other now m rows id :
  id <> ID m ->
  takeInstance id (saveInstance now m rows) = takeInstance id rows.
Proof.
  intros Hne. unfold takeInstance.
  induction rows as [|r rows IH]; simpl.
  - apply not_eq_sym in Hne. apply String.eqb_neq in Hne.
    rewrite Hne. reflexivity.
  - destruct (ID r =? ID m)%string eqn:E; simpl.
    + apply String.eqb_eq in E.
      replace (ID r =? id)%string with false
        by (symmetry; apply String.eqb_neq; congruence).
      apply not_eq_sym in Hne. apply String.eqb_neq in Hne.
      rewrite Hne. reflexivity.
    + destruct (ID r =? id)%string; [reflexivity | exact IH].
Qed.

Lemma takeInstance_app id rows extra :
  takeInstance id (rows ++ extra)
  = match takeInstance id rows with
    | Some r => Some r
    | None => takeInstance id extra
    end.
Proof.
  unfold takeInstance. induction rows as [|r rows IH]; simpl; [reflexivity|].
  destruct (ID r =? id)%string; [reflexivity | exact IH].
Qed.

Lemma takeInstance_delete id id' rows :
  takeInstance id' (filter (fun m => negb (ID m =? id)%string) rows)
  = if (id' =? id)%string then None else takeInstance id' rows.
Proof.
  unfold takeInstance. induction rows as [|r rows IH]; simpl.
  - destruct (id' =? id)%string; reflexivity.
  - destruct (ID r =? id)%string eqn:E; simpl.
    + rewrite IH. destruct (id' =? id)%string eqn:E'; [reflexivity|].
      apply String.eqb_eq in E. rewrite E, (String.eqb_sym id id'), E'.
      reflexivity.
    + rewrite IH. destruct (ID r =? id')%string eqn:E1; [|reflexivity].
      apply String.eqb_eq in E1. rewrite <- E1, E. reflexivity.
Qed.

Lemma model_of_tracked created updated m :
  cloudInstanceToModel (trackInstance created updated (cloudInstanceToModel m))
  = cloudInstanceToModel m.
Proof. reflexivity. Qed.

End InstanceTable.

(** A saved instance is read back: after [UpdateCloudInstance] on a store
    within reach, [GetCloudInstance] of the instance's id returns the record
    that was saved, up to the two timestamps that the store keeps itself;
    the row is created when the id is new (an upsert); and the lookup of
    every other id, as well as the host table, is as it was. *)
Theorem updated_instance_is_read_back :
  forall now ls inst,
    Storage.outage ls = None ->
    fst (Storage.UpdateCloudInstance now ls inst) = None
    /\ (exists r,
          Storage.GetCloudInstance
            (snd (Storage.UpdateCloudInstance now ls inst)) (ID inst) = Ok r
          /\ Storage.cloudInstanceToModel r = Storage.cloudInstanceToModel inst)
    /\ (forall id,
           id <> ID inst ->
           Storage.GetCloudInstance
             (snd (Storage.UpdateCloudInstance now ls inst)) id
           = Storage.GetCloudInstance ls id)
    /\ Storage.dedicated_hosts (snd (Storage.UpdateCloudInstance now ls inst))
       = Storage.dedicated_hosts ls.
Proof.
  intros now ls inst Ho.
  unfold Storage.UpdateCloudInstance, Storage.GetCloudInstance.
  rewrite Ho. cbn [fst snd Storage.withInstances Storage.outage
                   Storage.cloud_instances Storage.dedicated_hosts].
  rewrite Ho. split; [reflexivity|]. split; [|split; [|reflexivity]].
  - destruct (takeInstance_saveInstance now
                (Storage.cloudInstanceToModel inst)
                (Storage.cloud_instances ls)) as [created Ht].
    change (ID (Storage.cloudInstanceToModel inst)) with (ID inst) in Ht.
    rewrite Ht. eexists. split; [reflexivity|]. reflexivity.
  - intros id Hne.
    rewrite takeInstance_saveInstance_other; [reflexivity|exact Hne].
Qed.

Lemma create_inserts_or_refuses :
  forall now ls inst,
    Storage.outage ls = None ->
    match Storage.GetCloudInstance ls (ID inst) with
    | Ok _ =>
        isSome (fst (Storage.CreateCloudInstance now ls inst)) = true
        /\ snd (Storage.CreateCloudInstance now ls inst) = ls
    | Err _ =>
        fst (Storage.CreateCloudInstance now ls inst) = None
        /\ (exists r,
              Storage.GetCloudInstance
                (snd (Storage.CreateCloudInstance now ls inst)) (ID inst)
              = Ok r
              /\ Storage.cloudInstanceToModel r
                 = Storage.cloudInstanceToModel inst)
        /\ (forall id,
               id <> ID inst ->
               Storage.GetCloudInstance
                 (snd (Storage.CreateCloudInstance now ls inst)) id
               = Storage.GetCloudInstance ls id)
    end.
Proof.
  intros now ls inst Ho.
  unfold Storage.CreateCloudInstance, Storage.GetCloudInstance.
  rewrite Ho.
  change (ID (Storage.cloudInstanceToModel inst)) with (ID inst).
  destruct (Storage.takeInstance (ID inst) (Storage.cloud_instances ls))
    as [old|] eqn:Et.
  - split; reflexivity.
  - cbn [fst snd Storage.withInstances Storage.outage Storage.cloud_instances].
    rewrite Ho. split; [reflexivity|]. split.
    + rewrite takeInstance_app, Et. unfold Storage.takeInstance. cbn.
      rewrite String.eqb_refl. eexists. split; reflexivity.
    + intros id Hne. rewrite takeInstance_app.
      destruct (Storage.takeInstance id (Storage.cloud_instances ls));
        [reflexivity|].
      unfold Storage.takeInstance. cbn.
      apply not_eq_sym in Hne. apply String.eqb_neq in Hne. rewrite Hne.
      reflexivity.
Qed.

Lemma delete_forgets :
  forall ls id,
    Storage.outage ls = None ->
    fst (Storage.DeleteCloudInstance ls id) = None
    /\ Storage.GetCloudInstance (snd (Storage.DeleteCloudInstance ls id)) id
       = Err (Errorf ("cloud instance not found: " ++ id))
    /\ (forall id',
           id' <> id ->
           Storage.GetCloudInstance (snd (Storage.DeleteCloudInstance ls id)) id'
           = Storage.GetCloudInstance ls id')
    /\ snd (Storage.DeleteCloudInstance
              (snd (Storage.DeleteCloudInstance ls id)) id)
       = snd (Storage.DeleteCloudInstance ls id).
Proof.
  intros ls id Ho.
  unfold Storage.DeleteCloudInstance, Storage.GetCloudInstance.
  rewrite Ho. cbn [fst snd Storage.withInstances Storage.outage
                   Storage.cloud_instances Storage.dedicated_hosts].
  rewrite Ho. cbn [fst snd Storage.withInstances Storage.outage
                   Storage.cloud_instances Storage.dedicated_hosts].
  split; [reflexivity|]. split; [|split].
  - rewrite takeInstance_delete, String.eqb_refl. reflexivity.
  - intros id' Hne. rewrite takeInstance_delete.
    apply String.eqb_neq in Hne. rewrite Hne. reflexivity.
  - unfold Storage.withInstances. cbn. f_equal.
    induction (Storage.cloud_instances ls) as [|r rows IH]; [reflexivity|].
    cbn. destruct (ID r =? id)%string eqn:E; cbn; [exact IH|].
    rewrite E. cbn. f_equal. exact IH.
Qed.

(** Creation and deletion of instance rows, on a store within reach.
    [CreateCloudInstance] never overwrites: it succeeds exactly when no row
    has the instance's id, and then the instance is read back (up to the
    store's timestamps) while every other id reads as before; when a row
    with the id exists it fails and the store is unchanged.
    [DeleteCloudInstance] succeeds whether or not the id exists; the id is
    not found afterwards, every other id reads as before, and deleting
    again changes nothing. *)
Theorem create_refuses_duplicates_delete_forgets :
  forall now ls inst id,
    Storage.outage ls = None ->
    match Storage.GetCloudInstance ls (ID inst) with
    | Ok _ =>
        isSome (fst (Storage.CreateCloudInstance now ls inst)) = true
        /\ snd (Storage.CreateCloudInstance now ls inst) = ls
    | Err _ =>
        fst (Storage.CreateCloudInstance now ls inst) = None
        /\ (exists r,
              Storage.GetCloudInstance
                (snd (Storage.CreateCloudInstance now ls inst)) (ID inst)
              = Ok r
              /\ Storage.cloudInstanceToModel r
                 = Storage.cloudInstanceToModel inst)
        /\ (forall id',
               id' <> ID inst ->
               Storage.GetCloudInstance
                 (snd (Storage.CreateCloudInstance now ls inst)) id'
               = Storage.GetCloudInstance ls id')
    end
    /\ fst (Storage.DeleteCloudInstance ls id) = None
    /\ Storage.GetCloudInstance (snd (Storage.DeleteCloudInstance ls id)) id
       = Err (Errorf ("cloud instance not found: " ++ id))
    /\ (forall id',
           id' <> id ->
           Storage.GetCloudInstance (snd (Storage.DeleteCloudInstance ls id)) id'
           = Storage.GetCloudInstance ls id')
    /\ snd (Storage.DeleteCloudInstance
              (snd (Storage.DeleteCloudInstance ls id)) id)
       = snd (Storage.DeleteCloudInstance ls id).
Proof.
  intros now ls inst id Ho. split.
  - apply create_inserts_or_refuses. exact Ho.
  - apply delete_forgets. exact Ho.
Qed.

Section Queries.

Import Storage.

Lemma In_firstn {A} n (l : list A) x : In x (firstn n l) -> In x l.
Proof.
  intros H. rewrite <- (firstn_skipn n l). apply in_or_app. left. exact H.
Qed.

Lemma In_skipn {A} n (l : list A) x : In x (skipn n l) -> In x l.
Proof.
  intros H. rewrite <- (firstn_skipn n l). apply in_or_app. right. exact H.
Qed.

Lemma limitOffset_In {A} limit offset (l : list A) x :
  In x (limitOffset limit offset l) -> In x l.
Proof.
  unfold limitOffset. intros H.
  destruct (limit >? 0); [apply In_firstn in H|];
    (destruct (offset >? 0); [apply In_skipn in H|]); exact H.
Qed.

Lemma quot_mul_range a s lo hi :
  0 < s -> lo <= 0 <= hi -> lo <= a <= hi ->
  lo <= Z.quot a s * s <= hi /\ Z.quot a s * s = a - Z.rem a s.
Proof.
  intros Hs Hz Ha. pose proof (Z.quot_rem' a s) as Hq.
  split; [|lia].
  destruct (Z.le_gt_cases 0 a) as [Hp|Hn].
  - pose proof (Z.mul_quot_le a s Hp ltac:(lia)). lia.
  - pose proof (Z.mul_quot_ge a s ltac:(lia) ltac:(lia)). lia.
Qed.

Lemma StronglySorted_skipn {A} (R : A -> A -> Prop) n (l : list A) :
  StronglySorted R l -> StronglySorted R (skipn n l).
Proof.
  revert l. induction n as [|n IH]; intros l H; [exact H|].
  destruct l as [|x l]; [constructor|]. simpl. apply IH.
  inversion H; assumption.
Qed.

Lemma StronglySorted_firstn {A} (R : A -> A -> Prop) n (l : list A) :
  StronglySorted R l -> StronglySorted R (firstn n l).
Proof.
  revert l. induction n as [|n IH]; intros l H; [constructor|].
  destruct l as [|x l]; [constructor|]. simpl.
  inversion H as [|? ? Hs Hf]; subst. constructor; [apply IH; exact Hs|].
  rewrite Forall_forall in *. intros y Hy. apply Hf.
  apply In_firstn in Hy. exact Hy.
Qed.

Lemma limitOffset_sorted {A} (R : A -> A -> Prop) limit offset (l : list A) :
  StronglySorted R l -> StronglySorted R (limitOffset limit offset l).
Proof.
  unfold limitOffset. intros H.
  destruct (limit >? 0); [apply StronglySorted_firstn|];
    (destruct (offset >? 0); [apply StronglySorted_skipn|]); exact H.
Qed.

Lemma insertDesc_sorted m l :
  StronglySorted newerFirst l -> StronglySorted newerFirst (insertDesc m l).
Proof.
  induction l as [|x l IH]; intros H; simpl.
  - constructor; constructor.
  - inversion H as [|? ? Hs Hf]; subst.
    destruct (CreatedAt x <? CreatedAt m) eqn:E.
    + constructor; [exact H|]. constructor; [unfold newerFirst; lia|].
      rewrite Forall_forall in *. intros y Hy. specialize (Hf y Hy).
      unfold newerFirst in *. lia.
    + constructor; [apply IH; exact Hs|].
      apply (Permutation_Forall (x := m :: l)).
      * symmetry. apply insertDesc_perm.
      * constructor; [unfold newerFirst; lia | exact Hf].
Qed.

Lemma orderDesc_sorted l : StronglySorted newerFirst (orderDesc l).
Proof.
  induction l as [|x l IH]; simpl; [constructor|].
  apply insertDesc_sorted. exact IH.
Qed.

Lemma eqOpt_spec f v : eqOpt f v = true <-> forall x, f = Some x -> v = x.
Proof.
  unfold eqOpt. destruct f as [x|].
  - rewrite String.eqb_eq. split.
    + intros -> y [= ->]. reflexivity.
    + intros H. apply H. reflexivity.
  - split; [intros _ x F; discriminate F | reflexivity].
Qed.

(** Counting the rows that satisfy [f] after a save. *)
Lemma count_saveInstance (f : CloudInstanceModel -> bool) now m rows :
  (forall created updated,
      f (trackInstance created updated m) = f m) ->
  Z.of_nat (List.length (filter f (saveInstance now m rows)))
  = Z.of_nat (List.length (filter f rows))
    - match takeInstance (ID m) rows with
      | Some old => if f old then 1 else 0
      | None => 0
      end
    + (if f m then 1 else 0).
Proof.
  intros Hf. unfold takeInstance.
  induction rows as [|r rows IH]; simpl.
  - rewrite Hf. destruct (f m); simpl; lia.
  - destruct (ID r =? ID m)%string eqn:E; simpl.
    + rewrite Hf. destruct (f m), (f r); simpl List.length; lia.
    + destruct (f r); simpl List.length; lia.
Qed.

Lemma oldest_spec rows :
  forall best r,
    oldest best rows = Some r ->
    (best = Some r \/ In r rows)
    /\ (forall b, best = Some b -> m_UpdatedAt r <= m_UpdatedAt b)
    /\ (forall x, In x rows -> m_UpdatedAt r <= m_UpdatedAt x).
Proof.
  induction rows as [|x rows IH]; intros best r H; simpl in H.
  - split; [left; exact H|]. split; [|intros x []].
    intros b Hb. rewrite Hb in H. injection H as ->. lia.
  - apply IH in H. destruct H as (Hin & Hb & Hall).
    destruct best as [b|].
    + destruct (m_UpdatedAt x <? m_UpdatedAt b) eqn:E.
      * specialize (Hb x eq_refl).
        split; [destruct Hin as [[= <-]|Hin]; [right; left; reflexivity
                                             | right; right; exact Hin]|].
        split; [intros b' [= <-]; lia|].
        intros y [<-|Hy]; [exact Hb | apply Hall; exact Hy].
      * specialize (Hb b eq_refl).
        split; [destruct Hin as [Hin|Hin]; [left; exact Hin
                                           | right; right; exact Hin]|].
        split; [intros b' [= <-]; exact Hb|].
        intros y [<-|Hy]; [lia | apply Hall; exact Hy].
    + specialize (Hb x eq_refl).
      split; [destruct Hin as [[= <-]|Hin]; [right; left; reflexivity
                                           | right; right; exact Hin]|].
      split; [intros b' F; discriminate F|].
      intros y [<-|Hy]; [exact Hb | apply Hall; exact Hy].
Qed.

Lemma oldest_some rows :
  forall best, best <> None -> oldest best rows <> None.
Proof.
  induction rows as [|x rows IH]; intros best H; simpl; [exact H|].
  apply IH. destruct best as [b|]; [|discriminate].
  destruct (m_UpdatedAt x <? m_UpdatedAt b); discriminate.
Qed.

Lemma oldest_none rows : oldest None rows = None -> rows = [].
Proof.
  destruct rows as [|x rows]; [reflexivity|]. simpl. intros H.
  exfalso. revert H. apply oldest_some. discriminate.
Qed.

Lemma takeHost_saveHost_other now m rows id :
  id <> m_ID m ->
  takeHost id (saveHost now m rows) = takeHost id rows.
Proof.
  intros Hne. unfold takeHost.
  induction rows as [|r rows IH]; simpl.
  - apply not_eq_sym in Hne. apply String.eqb_neq in Hne.
    rewrite Hne. reflexivity.
  - destruct (m_ID r =? m_ID m)%string eqn:E; simpl.
    + apply String.eqb_eq in E.
      replace (m_ID r =? id)%string with false
        by (symmetry; apply String.eqb_neq; congruence).
      apply not_eq_sym in Hne. apply String.eqb_neq in Hne.
      rewrite Hne. reflexivity.
    + destruct (m_ID r =? id)%string; [reflexivity | exact IH].
Qed.

End Queries.

(** [ListCloudInstances] returns rows of the table only, each of which
    satisfies every filter that is set, newest first by creation time; a
    positive limit bounds the length of the result, and without limit and
    offset the result holds every matching row exactly once. *)
Theorem listed_instances_match_filters_newest_first :
  forall ls filters l,
    Storage.ListCloudInstances ls filters = Ok l ->
    Forall (fun i =>
              In i (Storage.cloud_instances ls)
              /\ (forall p, f_Platform filters = Some p -> Platform_ i = p)
              /\ (forall s, f_State filters = Some s -> State i = s)
              /\ (forall t, f_TeamID filters = Some t -> TeamID i = t)
              /\ (forall p, f_Provider filters = Some p -> Provider i = p)) l
    /\ StronglySorted (fun a b => CreatedAt b <= CreatedAt a) l
    /\ (0 < f_Limit filters -> Z.of_nat (List.length l) <= f_Limit filters)
    /\ (f_Limit filters <= 0 -> f_Offset filters <= 0 ->
        Permutation l
          (filter (Storage.matches filters) (Storage.cloud_instances ls))).
Proof.
  intros ls filters l H. unfold Storage.ListCloudInstances in H.
  destruct (Storage.outage ls); [discriminate H|].
  injection H as <-. unfold Storage.modelToCloudInstance.
  rewrite map_id. split; [|split; [|split]].
  - apply Forall_forall. intros i Hi. apply limitOffset_In in Hi.
    apply (Permutation_in _ (orderDesc_perm _)) in Hi.
    apply filter_In in Hi. destruct Hi as [Hin Hm]. split; [exact Hin|].
    unfold Storage.matches in Hm. rewrite !andb_true_iff in Hm.
    destruct Hm as [[[H1 H2] H3] H4].
    rewrite eqOpt_spec in H1, H2, H3, H4. auto.
  - apply (limitOffset_sorted Storage.newerFirst). apply orderDesc_sorted.
  - intros Hl. unfold Storage.limitOffset.
    replace (f_Limit filters >? 0) with true by lia.
    rewrite length_firstn. lia.
  - intros Hl Ho. unfold Storage.limitOffset.
    replace (f_Limit filters >? 0) with false by lia.
    replace (f_Offset filters >? 0) with false by lia.
    apply orderDesc_perm.
Qed.

(** Terminated and failed instances do not count against the team cap:
    when an instance that counted for its team is saved in state
    [terminated] or [failed], the team's count drops by exactly one. *)
Theorem terminated_instance_frees_team_slot :
  forall now ls inst old n,
    Storage.outage ls = None ->
    Storage.GetCloudInstance ls (ID inst) = Ok old ->
    Storage.countsForTeam (TeamID inst) old = true ->
    State inst = InstanceStateTerminated \/ State inst = InstanceStateFailed ->
    Storage.CountCloudInstancesByTeam ls (TeamID inst) = Ok n ->
    Storage.CountCloudInstancesByTeam
      (snd (Storage.UpdateCloudInstance now ls inst)) (TeamID inst)
    = Ok (n - 1).
Proof.
  intros now ls inst old n Ho Hg Hc Hs Hn.
  unfold Storage.GetCloudInstance, Storage.CountCloudInstancesByTeam,
    Storage.UpdateCloudInstance in *.
  rewrite Ho in *. cbn [snd Storage.withInstances Storage.outage
                        Storage.cloud_instances].
  rewrite Ho. injection Hn as <-.
  destruct (Storage.takeInstance (ID inst) (Storage.cloud_instances ls))
    as [o|] eqn:Et; [|discriminate Hg].
  injection Hg as <-. unfold Storage.modelToCloudInstance in Hc. f_equal.
  rewrite count_saveInstance by reflexivity.
  change (ID (Storage.cloudInstanceToModel inst)) with (ID inst).
  rewrite Et, Hc.
  replace (Storage.countsForTeam (TeamID inst)
             (Storage.cloudInstanceToModel inst)) with false; [lia|].
  unfold Storage.countsForTeam, Storage.cloudInstanceToModel. cbn.
  destruct Hs as [-> | ->]; cbn; rewrite andb_false_r; reflexivity.
Qed.

(** ** Storage: dedicated hosts *)

(** A saved host is read back with every field but three: the two
    timestamps are the store's own, and the minimum allocation comes back
    in whole seconds, its sub-second part dropped. The lookup of every
    other host id is as it was. *)
Theorem saved_host_is_read_back_in_whole_seconds :
  forall now ls h,
    Storage.outage ls = None ->
    min_int64 <= dh_MinAllocation h <= max_int64 ->
    fst (Storage.UpdateDedicatedHost now ls h) = None
    /\ (exists h',
          Storage.GetDedicatedHost
            (snd (Storage.UpdateDedicatedHost now ls h)) (dh_ID h) = Ok h'
          /\ dh_ID h' = dh_ID h /\ dh_HostID h' = dh_HostID h
          /\ dh_InstanceType h' = dh_InstanceType h
          /\ dh_State h' = dh_State h
          /\ dh_CurrentInstanceID h' = dh_CurrentInstanceID h
          /\ dh_AllocatedAt h' = dh_AllocatedAt h
          /\ dh_ReleasedAt h' = dh_ReleasedAt h
          /\ dh_MinAllocation h'
             = dh_MinAllocation h - Z.rem (dh_MinAllocation h) Second)
    /\ (forall id,
           id <> dh_ID h ->
           Storage.GetDedicatedHost
             (snd (Storage.UpdateDedicatedHost now ls h)) id
           = Storage.GetDedicatedHost ls id).
Proof.
  intros now ls h Ho Hr.
  unfold Storage.UpdateDedicatedHost, Storage.GetDedicatedHost.
  rewrite Ho. cbn [fst snd Storage.withHosts Storage.outage
                   Storage.dedicated_hosts].
  rewrite Ho. split; [reflexivity|]. split.
  - destruct (takeHost_saveHost now (Storage.dedicatedHostToModel h)
                (Storage.dedicated_hosts ls)) as [created Ht].
    change (Storage.m_ID (Storage.dedicatedHostToModel h)) with (dh_ID h) in Ht.
    rewrite Ht. eexists. split; [reflexivity|].
    cbn -[wrap64 Z.quot Z.rem Z.mul]. repeat split.
    destruct (quot_mul_range (dh_MinAllocation h) Second min_int64 max_int64)
      as [Hq1 Hq2];
      [unfold Second; lia | unfold min_int64, max_int64; lia | exact Hr |].
    rewrite wrap64_small by exact Hq1. exact Hq2.
  - intros id Hne. rewrite takeHost_saveHost_other; [reflexivity|exact Hne].
Qed.

(** [GetAvailableDedicatedHost] on a store within reach returns a host of
    the table that is [available] and holds no instance, and among those
    one that was updated least recently; it fails exactly when no host of
    the table is free. *)
Theorem available_host_is_free_and_oldest :
  forall ls,
    Storage.outage ls = None ->
    match Storage.GetAvailableDedicatedHost ls with
    | Ok h =>
        dh_State h = "available" /\ dh_CurrentInstanceID h = ""
        /\ (exists row,
              In row (Storage.dedicated_hosts ls)
              /\ h = Storage.modelToDedicatedHost row)
        /\ (forall r,
               In r (Storage.dedicated_hosts ls) ->
               Storage.m_State r = "available" ->
               Storage.m_CurrentInstanceID r = "" ->
               dh_UpdatedAt h <= Storage.m_UpdatedAt r)
    | Err e =>
        e = Errorf "no available dedicated host"
        /\ (forall r,
               In r (Storage.dedicated_hosts ls) ->
               Storage.m_State r = "available" ->
               Storage.m_CurrentInstanceID r <> "")
    end.
Proof.
  intros ls Ho. unfold Storage.GetAvailableDedicatedHost. rewrite Ho.
  destruct (Storage.oldest None _) as [row|] eqn:E.
  - apply oldest_spec in E. destruct E as ([F|Hin] & _ & Hall);
      [discriminate F|].
    apply filter_In in Hin. destruct Hin as [Hin Hq].
    apply andb_true_iff in Hq. destruct Hq as [Hs Hc].
    apply String.eqb_eq in Hs, Hc. cbn. repeat split; auto.
    + exists row. auto.
    + intros r Hr Hrs Hrc. apply Hall. apply filter_In. split; [exact Hr|].
      rewrite Hrs, Hrc. reflexivity.
  - apply oldest_none in E. split; [reflexivity|].
    intros r Hr Hrs Hrc.
    assert (Hf : In r (filter
                         (fun m => (Storage.m_State m =? "available")%string
                                   && (Storage.m_CurrentInstanceID m =? "")%string)
                         (Storage.dedicated_hosts ls))).
    { apply filter_In. split; [exact Hr|]. rewrite Hrs, Hrc. reflexivity. }
    rewrite E in Hf. destruct Hf.
Qed.

(** ** Dedicated hosts: allocation *)

Section HostTable.

Import Storage.

Lemma saveHost_same_id now m rows r :
  NoDup (map m_ID rows) ->
  In r (saveHost now m rows) -> m_ID r = m_ID m ->
  m_State r = m_State m /\ m_CurrentInstanceID r = m_CurrentInstanceID m.
Proof.
  induction rows as [|x rows IH]; simpl; intros Hnd Hin Hid.
  - destruct Hin as [<-|[]]. split; reflexivity.
  - inversion Hnd as [|? ? Hnot Hnd']; subst.
    destruct (m_ID x =? m_ID m)%string eqn:E.
    + destruct Hin as [<-|Hin]; [split; reflexivity|].
      exfalso. apply Hnot. apply String.eqb_eq in E.
      rewrite E, <- Hid. apply in_map. exact Hin.
    + destruct Hin as [<-|Hin].
      * rewrite Hid, String.eqb_refl in E. discriminate E.
      * apply IH; assumption.
Qed.

End HostTable.

(** No double allocation: a host that [acquireDedicatedHost] has handed out
    is recorded as [allocated] to the instance, with the clock reading as
    its allocation time, and the next acquisition, for whatever instance,
    does not return that host again; it returns another host or fails. *)
Theorem acquired_host_is_not_offered_again :
  forall p a b w h w1,
    NoDup (map Storage.m_ID (Storage.dedicated_hosts (World.db w))) ->
    World.exec (AWSProv.acquireDedicatedHost p a) w = (Ok h, w1) ->
    dh_State h = "allocated"
    /\ dh_CurrentInstanceID h = a
    /\ dh_AllocatedAt h = Some (World.clock w)
    /\ (exists stored,
          Storage.GetDedicatedHost (World.db w1) (dh_ID h) = Ok stored
          /\ dh_State stored = "allocated"
          /\ dh_CurrentInstanceID stored = a)
    /\ match fst (World.exec (AWSProv.acquireDedicatedHost p b) w1) with
       | Ok h' => dh_ID h' <> dh_ID h
       | Err e => e = ErrNoAvailableHost
       end.
Proof.
  intros p a b w h w1 Hnd H.
  unfold World.exec, AWSProv.acquireDedicatedHost in *.
  destruct (aws_hasStore p); [|discriminate H].
  cbn [negb] in *.
  cbn -[Storage.GetAvailableDedicatedHost Storage.UpdateDedicatedHost] in H.
  destruct (Storage.GetAvailableDedicatedHost (World.db w)) as [host|e] eqn:Ea;
    [|discriminate H].
  cbn -[Storage.GetAvailableDedicatedHost Storage.UpdateDedicatedHost] in H.
  unfold World.write in H.
  cbn -[Storage.GetAvailableDedicatedHost Storage.UpdateDedicatedHost] in H.
  unfold Storage.UpdateDedicatedHost in H.
  destruct (Storage.outage (World.db w)) eqn:Ho; [discriminate H|].
  cbn -[Storage.GetAvailableDedicatedHost Storage.saveHost
        Storage.dedicatedHostToModel] in H.
  injection H as <- <-.
  cbn [dh_State dh_CurrentInstanceID dh_AllocatedAt dh_ID set_host].
  split; [reflexivity|]. split; [reflexivity|]. split; [reflexivity|].
  set (alloc := set_host "allocated" a (Some (World.clock w))
                  (dh_ReleasedAt host) host).
  split.
  - unfold Storage.GetDedicatedHost.
    cbn -[Storage.saveHost Storage.dedicatedHostToModel Storage.takeHost].
    rewrite Ho.
    destruct (takeHost_saveHost (World.clock w + World.latency w)
                (Storage.dedicatedHostToModel alloc)
                (Storage.dedicated_hosts (World.db w))) as [created Ht].
    change (Storage.m_ID (Storage.dedicatedHostToModel alloc))
      with (dh_ID host) in Ht.
    rewrite Ht. eexists. split; [reflexivity|]. split; reflexivity.
  - cbn -[Storage.saveHost Storage.dedicatedHostToModel Storage.oldest
          Storage.modelToDedicatedHost].
    unfold Storage.GetAvailableDedicatedHost at 1.
    cbn -[Storage.saveHost Storage.dedicatedHostToModel Storage.oldest
          Storage.modelToDedicatedHost].
    rewrite Ho. fold alloc.
    set (rows' := Storage.saveHost (World.clock w + World.latency w)
                    (Storage.dedicatedHostToModel alloc)
                    (Storage.dedicated_hosts (World.db w))).
    destruct (Storage.oldest None _) as [row|] eqn:Eo.
    + cbn -[Storage.saveHost Storage.dedicatedHostToModel Storage.oldest
            Storage.modelToDedicatedHost rows'].
      unfold World.write, Storage.UpdateDedicatedHost.
      cbn -[Storage.saveHost Storage.dedicatedHostToModel Storage.oldest
            Storage.modelToDedicatedHost rows'].
      rewrite Ho.
      cbn -[Storage.saveHost Storage.dedicatedHostToModel Storage.oldest
            rows'].
      intros Heq.
      apply oldest_spec in Eo. destruct Eo as ([F|Hin] & _); [discriminate F|].
      apply filter_In in Hin. destruct Hin as [Hin Hq].
      apply andb_true_iff in Hq. destruct Hq as [Hs _].
      apply String.eqb_eq in Hs.
      destruct (saveHost_same_id (World.clock w + World.latency w)
                  (Storage.dedicatedHostToModel alloc)
                  (Storage.dedicated_hosts (World.db w)) row Hnd Hin Heq)
        as [Hst _].
      rewrite Hs in Hst. discriminate Hst.
    + reflexivity.
Qed.

(** ** Dedicated hosts: termination and launch *)

Section HostRelease.

Lemma releaseByHostID_min_allocation p hostID hosts tr r :
  Exec (AWSProv.releaseByHostID p hostID hosts) tr r ->
  nondecreasing (clockReadings tr) ->
  Forall (fun h => dh_State h = "available"
                   /\ (dh_AllocatedAt h = None
                       \/ heldAtLeast (dh_MinAllocation h) h))
    (hostWrites tr).
Proof.
  revert tr. induction hosts as [|h hosts IH]; intros tr H M; cbn in H.
  - destruct H as [-> _]. constructor.
  - destruct (dh_HostID h =? hostID)%string.
    + apply Exec_bind in H. destruct H as (e & tr1 & tr2 & H1 & H2 & ->).
      cbn in H2. destruct H2 as [-> _]. rewrite app_nil_r in *.
      eapply releaseDedicatedHost_min_allocation; eassumption.
    + apply IH; assumption.
Qed.

(** *** Termination in the environment *)

Lemma exec_call {X} (c : Call X) w : World.exec (call c) w = World.base c w.
Proof.
  unfold World.exec, call. cbn. destruct (World.base c w). reflexivity.
Qed.

Lemma exec_describeInstanceByTag id w :
  World.exec (AWSProv.describeInstanceByTag id) w
  = (match World.apiError (World.ec2 w) with
     | Some e => Err (Wrapf "failed to describe instances" e)
     | None =>
         match hd_error
                 (filter
                    (fun i => forallb (fun f => World.matchFilter f i)
                                (AWSProv.describeFilters id))
                    (World.instances (World.ec2 w))) with
         | Some i => Ok i
         | None => Err ErrInstanceNotFound
         end
     end, w).
Proof.
  unfold World.exec, AWSProv.describeInstanceByTag.
  cbn -[World.matchFilter AWSProv.firstInstance forallb
        AWSProv.describeFilters].
  unfold World.describe. destruct (World.apiError (World.ec2 w));
    [reflexivity|].
  cbn -[World.matchFilter AWSProv.firstInstance forallb
        AWSProv.describeFilters].
  rewrite firstInstance_singletons.
  destruct (hd_error _); reflexivity.
Qed.

Lemma transition_known s i e :
  World.apiError e = None ->
  In i (World.instances e) ->
  fst (World.transition s [ec2_InstanceId i] e) = None.
Proof.
  intros Ha Hin. unfold World.transition. rewrite Ha. cbn [forallb].
  assert (He : existsb (fun j => (ec2_InstanceId j =? ec2_InstanceId i)%string)
                 (World.instances e) = true).
  { apply existsb_exists. exists i. split; [exact Hin|].
    apply String.eqb_refl. }
  rewrite He. reflexivity.
Qed.

Lemma releaseByHostID_find p hostID rows :
  AWSProv.releaseByHostID p hostID (map Storage.modelToDedicatedHost rows)
  = match List.find (fun r => (Storage.m_HostID r =? hostID)%string) rows with
    | Some row =>
        _ <- AWSProv.releaseDedicatedHost p (Storage.m_ID row) ;; Ret tt
    | None => Ret tt
    end.
Proof.
  induction rows as [|r rows IH]; [reflexivity|].
  cbn [map AWSProv.releaseByHostID List.find Storage.modelToDedicatedHost
       dh_HostID dh_ID].
  destruct (Storage.m_HostID r =? hostID)%string; [reflexivity | exact IH].
Qed.

Lemma takeHost_find_NoDup rows row f :
  NoDup (map Storage.m_ID rows) ->
  List.find f rows = Some row ->
  Storage.takeHost (Storage.m_ID row) rows = Some row.
Proof.
  unfold Storage.takeHost.
  induction rows as [|r rows IH]; cbn; intros Hnd Hf; [discriminate|].
  inversion Hnd as [|? ? Hnot Hnd']; subst.
  destruct (f r) eqn:E.
  - injection Hf as ->. rewrite String.eqb_refl. reflexivity.
  - destruct (Storage.m_ID r =? Storage.m_ID row)%string eqn:Ei.
    + exfalso. apply String.eqb_eq in Ei. apply find_some in Hf.
      apply Hnot. rewrite Ei. apply in_map. exact (proj1 Hf).
    + apply IH; assumption.
Qed.

Lemma fold_left_filter {A W} (f : W -> A -> W) (P : A -> bool) l :
  (forall w x, P x = false -> f w x = w) ->
  forall w, fold_left f l w = fold_left f (filter P l) w.
Proof.
  intros H. induction l as [|x l IH]; intros w; [reflexivity|].
  cbn [fold_left filter]. destruct (P x) eqn:E.
  - cbn [fold_left]. apply IH.
  - rewrite (H w x E). apply IH.
Qed.

(** The release of a host row that carries an allocation time: refused
    while the minimum allocation runs, written otherwise. *)
Lemma exec_releaseDedicatedHost p w row a :
  aws_hasStore p = true ->
  Storage.outage (World.db w) = None ->
  Storage.takeHost (Storage.m_ID row) (Storage.dedicated_hosts (World.db w))
  = Some row ->
  Storage.m_AllocatedAt row = Some a ->
  let w' :=
    snd (World.exec (AWSProv.releaseDedicatedHost p (Storage.m_ID row)) w) in
  if Before (World.clock w)
       (Add a (wrap64 (Storage.m_MinAllocationSec row * Second)))
  then World.db w' = World.db w
  else exists stored,
         Storage.GetDedicatedHost (World.db w') (Storage.m_ID row) = Ok stored
         /\ dh_State stored = "available"
         /\ dh_CurrentInstanceID stored = ""
         /\ dh_AllocatedAt stored = Some a
         /\ dh_ReleasedAt stored
            = Some (World.clock w + World.latency w).
Proof.
  intros Hs Ho Ht Ha.
  unfold World.exec, AWSProv.releaseDedicatedHost. rewrite Hs.
  cbn -[wrap64 Z.mul Before Add Storage.saveHost].
  unfold Storage.GetDedicatedHost. rewrite Ho, Ht.
  cbn -[wrap64 Z.mul Before Add Storage.saveHost]. rewrite Ha.
  cbn -[wrap64 Z.mul Before Add Storage.saveHost].
  destruct (Before (World.clock w) _); [reflexivity|].
  cbn -[wrap64 Z.mul Storage.saveHost Storage.dedicatedHostToModel].
  unfold World.write, Storage.UpdateDedicatedHost.
  cbn -[wrap64 Z.mul Storage.saveHost Storage.dedicatedHostToModel].
  rewrite Ho.
  cbn -[wrap64 Z.mul Storage.saveHost Storage.dedicatedHostToModel].
  set (m := Storage.dedicatedHostToModel _).
  destruct (takeHost_saveHost
              (World.clock w + World.latency w + World.latency w) m
              (Storage.dedicated_hosts (World.db w))) as [created Hk].
  change (Storage.m_ID m) with (Storage.m_ID row) in Hk.
  unfold Storage.takeHost in Hk. rewrite Ho, Hk.
  eexists. split; [reflexivity|]. cbn. repeat split; reflexivity.
Qed.

(** [TerminateInstance] in the environment, for an instance that carries
    one [hanzo.ai/dedicated-host] tag, as a macOS launch writes it. *)
Lemma exec_TerminateInstance_host p id w i hostID row a :
  aws_hasStore p = true ->
  Storage.outage (World.db w) = None ->
  fst (World.exec (AWSProv.describeInstanceByTag id) w) = Ok i ->
  filter (fun tag => (fst tag =? "hanzo.ai/dedicated-host")%string)
    (ec2_Tags i)
  = [("hanzo.ai/dedicated-host", hostID)] ->
  NoDup (map Storage.m_ID (Storage.dedicated_hosts (World.db w))) ->
  List.find (fun r => (Storage.m_HostID r =? hostID)%string)
    (Storage.dedicated_hosts (World.db w)) = Some row ->
  Storage.m_AllocatedAt row = Some a ->
  let '(r, w') := World.exec (AWSProv.TerminateInstance p id) w in
  r = None
  /\ if Before (World.clock w)
          (Add a (wrap64 (Storage.m_MinAllocationSec row * Second)))
     then World.db w' = World.db w
     else exists stored,
            Storage.GetDedicatedHost (World.db w') (Storage.m_ID row)
            = Ok stored
            /\ dh_State stored = "available"
            /\ dh_CurrentInstanceID stored = ""
            /\ dh_AllocatedAt stored = Some a
            /\ dh_ReleasedAt stored
               = Some (World.clock w + World.latency w).
Proof.
  intros Hs Ho Hd Htags Hnd Hf Ha.
  rewrite exec_describeInstanceByTag in Hd. cbn [fst] in Hd.
  destruct (World.apiError (World.ec2 w)) eqn:Hapi; [discriminate Hd|].
  destruct (hd_error _) as [i'|] eqn:Hh; [|discriminate Hd].
  injection Hd as ->.
  destruct (hd_error_filter _ _ _ Hh) as [Hin _].
  unfold AWSProv.TerminateInstance.
  rewrite exec_bind, exec_describeInstanceByTag, Hapi, Hh.
  cbn iota. rewrite exec_bind, exec_call. cbn [World.base].
  pose proof (transition_known "shutting-down" i (World.ec2 w) Hapi Hin)
    as Htr.
  destruct (World.transition "shutting-down" [ec2_InstanceId i]
              (World.ec2 w)) as [e ec]. cbn [fst] in Htr. subst e.
  cbn iota. rewrite exec_bind, exec_forEach.
  cbn iota. unfold World.exec at 1. cbn [run].
  split; [reflexivity|].
  rewrite fold_left_filter
    with (P := fun tag => (fst tag =? "hanzo.ai/dedicated-host")%string).
  2:{ intros w0 tag E. rewrite E. reflexivity. }
  rewrite Htags. cbn [fold_left fst snd]. rewrite String.eqb_refl, Hs.
  cbn [andb]. rewrite exec_bind, exec_call. cbn [World.base].
  change (World.db (World.setEc2 ec w)) with (World.db w).
  unfold Storage.ListDedicatedHosts. rewrite Ho.
  rewrite releaseByHostID_find, Hf, exec_bind.
  pose proof (exec_releaseDedicatedHost p (World.setEc2 ec w) row a Hs Ho
                (takeHost_find_NoDup _ _ _ Hnd Hf) Ha) as Hrel.
  cbn zeta in Hrel.
  change (World.clock (World.setEc2 ec w)) with (World.clock w) in Hrel.
  change (World.latency (World.setEc2 ec w)) with (World.latency w) in Hrel.
  change (World.db (World.setEc2 ec w)) with (World.db w) in Hrel.
  destruct (World.exec (AWSProv.releaseDedicatedHost p (Storage.m_ID row))
              (World.setEc2 ec w)) as [e1 w1].
  cbn [snd] in Hrel. unfold World.exec at 1. cbn [run snd]. exact Hrel.
Qed.

(** [s[:n]] of a string that is long enough: its first [n] bytes. *)
Lemma substring_prefix n :
  forall s,
    (n <= String.length s)%nat ->
    exists rest,
      s = (substring 0 n s ++ rest)%string
      /\ String.length (substring 0 n s) = n.
Proof.
  induction n as [|n IH]; intros s Hn.
  - exists s. destruct s; split; reflexivity.
  - destruct s as [|c s]; [cbn in Hn; lia|].
    cbn in Hn. destruct (IH s) as (rest & Hs & Hl); [lia|].
    exists rest. cbn [substring String.append String.length].
    rewrite <- Hs, Hl. split; reflexivity.
Qed.

End HostRelease.

(** [TerminateInstance] of the AWS provisioner returns no error exactly
    when EC2 accepted the termination, whatever became of the host; with a
    clock that does not run backwards, every host record written on the
    way is [available] and, when it carries an allocation time, was held
    for at least its minimum allocation. And the release is attempted: in
    the environment, with a store within reach, when the instance found
    carries the [hanzo.ai/dedicated-host] tag of a macOS launch and the
    first host row of that provider id carries an allocation time, the
    call returns no error, and the host row is read back [available],
    without an instance and with the second clock reading as its release
    time if the minimum allocation had elapsed at the first reading;
    otherwise the release is refused, its error dropped, and the database
    is as it was: the host stays allocated to the terminated instance. *)
Theorem aws_terminate_result_ignores_host_release :
  forall p id,
    (forall tr r,
        Exec (AWSProv.TerminateInstance p id) tr r ->
        (existsb ec2Terminated tr = true <-> r = None)
        /\ (nondecreasing (clockReadings tr) ->
            Forall (fun h => dh_State h = "available"
                             /\ (dh_AllocatedAt h = None
                                 \/ heldAtLeast (dh_MinAllocation h) h))
              (hostWrites tr)))
    /\ (forall w i hostID row a,
           aws_hasStore p = true ->
           Storage.outage (World.db w) = None ->
           fst (World.exec (AWSProv.describeInstanceByTag id) w) = Ok i ->
           filter (fun tag => (fst tag =? "hanzo.ai/dedicated-host")%string)
             (ec2_Tags i)
           = [("hanzo.ai/dedicated-host", hostID)] ->
           NoDup (map Storage.m_ID (Storage.dedicated_hosts (World.db w))) ->
           List.find (fun r => (Storage.m_HostID r =? hostID)%string)
             (Storage.dedicated_hosts (World.db w)) = Some row ->
           Storage.m_AllocatedAt row = Some a ->
           let '(r, w') := World.exec (AWSProv.TerminateInstance p id) w in
           r = None
           /\ if Before (World.clock w)
                   (Add a (wrap64 (Storage.m_MinAllocationSec row * Second)))
              then World.db w' = World.db w
              else exists stored,
                     Storage.GetDedicatedHost (World.db w') (Storage.m_ID row)
                     = Ok stored
                     /\ dh_State stored = "available"
                     /\ dh_CurrentInstanceID stored = ""
                     /\ dh_AllocatedAt stored = Some a
                     /\ dh_ReleasedAt stored
                        = Some (World.clock w + World.latency w)).
Proof.
  intros p id. split; [|apply exec_TerminateInstance_host].
  intros tr r H.
  unfold AWSProv.TerminateInstance, AWSProv.describeInstanceByTag in H.
  cbn in H. exec_step H. cbn in H.
  destruct x as [reservations|e];
    [|exec_all H; cbn; split; [split; discriminate | constructor]].
  destruct (AWSProv.firstInstance reservations) as [i|];
    [|exec_all H; cbn; split; [split; discriminate | constructor]].
  cbn in H. exec_step H. cbn in H.
  destruct x as [err|];
    [exec_all H; cbn; split; [split; discriminate | constructor]|].
  apply Exec_bind in H. destruct H as ([] & tr1 & tr2 & H1 & H2 & ->).
  cbn in H2. destruct H2 as [-> ->]. rewrite app_nil_r.
  split; [cbn; split; reflexivity|].
  intros M. cbn in M |- *.
  apply Exec_forEach in H1. destruct H1 as (trs & -> & HF).
  induction HF as [|tag t tags trs Hb HF IH]; [constructor|].
  cbn in M |- *. rewrite clockReadings_app in M.
  apply nondecreasing_app in M. destruct M as [M1 M2].
  rewrite hostWrites_app. apply Forall_app. split; [|apply IH; exact M2].
  destruct ((fst tag =? "hanzo.ai/dedicated-host")%string && aws_hasStore p).
  - cbn in Hb. exec_step Hb. cbn in M1 |- *.
    eapply releaseByHostID_min_allocation; eassumption.
  - destruct Hb as [-> _]. constructor.
Qed.

(** A macOS launch reaches EC2 only with a host in hand. For an instance id
    of at least eight bytes, as the ids that [CreateInstance] draws are
    (the code slices the first eight bytes off the id for the [Name] tag):
    in every execution of [launchMacOSInstance] there is at most one
    [RunInstances] call, and when there is one, a host record allocated to
    this instance was accepted by the store before, the launch is placed
    on that host and tagged with it, with the instance id, and with the
    name [hanzo-mac-bot-] followed by the first eight bytes of the id; an
    instance returned is [provisioning] on that host. *)
Theorem macos_launch_is_placed_on_the_acquired_host :
  forall p req id tr r,
    (8 <= String.length id)%nat ->
    Exec (AWSProv.launchMacOSInstance p req id) tr r ->
    (launches tr = [] /\ is_ok r = false)
    \/ exists host t short rest input,
         launches tr = [input]
         /\ hd_error (hostSaved tr)
            = Some (set_host "allocated" id (Some t) (dh_ReleasedAt host) host)
         /\ in_PlacementHostId input = Some (dh_HostID host)
         /\ lookup "hanzo.ai/dedicated-host" (in_Tags input)
            = Some (dh_HostID host)
         /\ lookup "hanzo.ai/cloud-instance" (in_Tags input) = Some id
         /\ (id = (short ++ rest)%string /\ String.length short = 8%nat
             /\ lookup "Name" (in_Tags input)
                = Some ("hanzo-mac-bot-" ++ short)%string)
         /\ (forall inst,
                r = Ok inst ->
                ID inst = id /\ Platform_ inst = PlatformMacOS
                /\ State inst = InstanceStateProvisioning
                /\ DedicatedHostID inst = dh_HostID host).
Proof.
  intros p req id tr r Hlen H.
  destruct (substring_prefix 8 id Hlen) as (rest & Hid & Hlen8).
  unfold AWSProv.launchMacOSInstance, AWSProv.acquireDedicatedHost in H.
  destruct (aws_hasStore p) eqn:Hs; cbn [negb] in H;
    [|exec_all H; left; split; reflexivity].
  cbn in H. exec_step H. cbn in H.
  destruct x as [host|e]; [|exec_all H; left; split; reflexivity].
  cbn in H. exec_step H. cbn in H. exec_step H. cbn in H.
  destruct x0 as [err|]; [exec_all H; left; split; reflexivity|].
  cbn in H. exec_step H. cbn in H.
  destruct x0 as [userData|e]; [|exec_all H; left; split; reflexivity].
  cbn in H. exec_step H. cbn in H.
  right. exists host, x, (substring 0 8 id), rest.
  destruct x0 as [launched|err].
  - exec_all H. eexists. cbn -[substring String.append String.length].
    repeat split; try reflexivity; try assumption;
      match goal with
      | E : Ok _ = Ok _ |- _ => injection E as <-; reflexivity
      end.
  - apply Exec_bind in H. destruct H as (e & tr1 & tr2 & H1 & H2 & ->).
    cbn in H2. destruct H2 as [-> ->]. rewrite app_nil_r.
    eexists. unfold launches, hostSaved. cbn [flat_map launchOf hostSavedOf app].
    assert (Hl : flat_map launchOf tr1 = []).
    { unfold AWSProv.releaseDedicatedHost in H1. rewrite ?Hs in H1.
      exec_all H1; reflexivity. }
    rewrite Hl. cbn -[substring String.append String.length].
    repeat split; try reflexivity; try assumption; discriminate.
Qed.

(** ** Dedicated hosts: seeding *)

Section SeedingFacts.

Import Storage Seeding.

Lemma exec_Seed p w :
  World.exec (AWSProv.SeedDedicatedHosts p) w
  = (None, fold_left (seedStep p) (DedicatedHostIDs (MacOS (awsCfg p))) w).
Proof.
  unfold AWSProv.SeedDedicatedHosts. rewrite exec_bind, exec_forEach.
  reflexivity.
Qed.

Lemma existsb_hosts hostID rows :
  existsb (fun h => (dh_HostID h =? hostID)%string)
    (map modelToDedicatedHost rows)
  = existsb (fun r => (m_HostID r =? hostID)%string) rows.
Proof.
  induction rows as [|r rows IH]; [reflexivity|].
  cbn [map existsb]. rewrite IH. reflexivity.
Qed.

(** One step: nothing changes in the database when the host is settled,
    and one row is appended otherwise. *)
Lemma seedStep_db p w hostID :
  World.db (seedStep p w hostID)
  = if settled hostID (World.db w) then World.db w
    else withHosts
           (dedicated_hosts (World.db w)
            ++ [seedRow p hostID (World.clock w + World.latency w)])
           (World.db w).
Proof.
  unfold seedStep, World.exec, AWSProv.seedOne, settled.
  cbn -[existsb takeHost String.append].
  unfold ListDedicatedHosts.
  destruct (outage (World.db w)) as [e|] eqn:Ho.
  - cbn -[takeHost String.append]. unfold World.write, CreateDedicatedHost.
    cbn -[takeHost String.append]. rewrite Ho. reflexivity.
  - cbn [isSome orb]. rewrite existsb_hosts.
    destruct (existsb _ (dedicated_hosts (World.db w))) eqn:Ee;
      [reflexivity|].
    cbn -[takeHost String.append]. unfold World.write, CreateDedicatedHost.
    cbn -[takeHost String.append]. rewrite Ho.
    destruct (takeHost _ (dedicated_hosts (World.db w))); reflexivity.
Qed.

Lemma takeHost_app id rows extra :
  takeHost id (rows ++ extra)
  = match takeHost id rows with
    | Some r => Some r
    | None => takeHost id extra
    end.
Proof.
  unfold takeHost. induction rows as [|r rows IH]; simpl; [reflexivity|].
  destruct (m_ID r =? id)%string; [reflexivity | exact IH].
Qed.

Lemma settled_append hostID d extra :
  settled hostID d = true ->
  settled hostID (withHosts (dedicated_hosts d ++ extra) d) = true.
Proof.
  unfold settled. cbn [withHosts outage dedicated_hosts].
  rewrite existsb_app, takeHost_app. rewrite !orb_true_iff.
  intros [[H|H]|H]; auto.
  right. destruct (takeHost _ (dedicated_hosts d)); [reflexivity|].
  discriminate H.
Qed.

Lemma settled_after p w hostID :
  settled hostID (World.db (seedStep p w hostID)) = true.
Proof.
  rewrite seedStep_db. destruct (settled hostID (World.db w)) eqn:E;
    [exact E|].
  unfold settled. cbn [withHosts outage dedicated_hosts].
  rewrite existsb_app. cbn [existsb seedRow m_HostID].
  rewrite String.eqb_refl. rewrite !orb_true_r. reflexivity.
Qed.

Lemma settled_mono p w hostID other :
  settled hostID (World.db w) = true ->
  settled hostID (World.db (seedStep p w other)) = true.
Proof.
  intros H. rewrite seedStep_db.
  destruct (settled other (World.db w)); [exact H|].
  apply settled_append. exact H.
Qed.

Lemma settled_fold p ids :
  forall w hostID,
    In hostID ids \/ settled hostID (World.db w) = true ->
    settled hostID (World.db (fold_left (seedStep p) ids w)) = true.
Proof.
  induction ids as [|x ids IH]; intros w hostID H; cbn [fold_left].
  - destruct H as [[]|H]. exact H.
  - apply IH. destruct H as [[->|H]|H].
    + right. apply settled_after.
    + left. exact H.
    + right. apply settled_mono. exact H.
Qed.

Lemma settled_fold_same p ids :
  forall w,
    (forall hostID, In hostID ids -> settled hostID (World.db w) = true) ->
    World.db (fold_left (seedStep p) ids w) = World.db w.
Proof.
  induction ids as [|x ids IH]; intros w H; cbn [fold_left]; [reflexivity|].
  assert (E : World.db (seedStep p w x) = World.db w).
  { rewrite seedStep_db, (H x) by (left; reflexivity). reflexivity. }
  rewrite IH; [exact E|].
  intros hostID Hin. rewrite E. apply H. right. exact Hin.
Qed.

Lemma seeded_weaken p ids ids' before before' r :
  incl ids ids' -> incl before' before ->
  seeded p ids before r -> seeded p ids' before' r.
Proof.
  unfold seeded. intros Hi Hb (H1 & H2 & H3). repeat split; try tauto.
  - apply Hi. exact H1.
  - intros F. apply H2. apply (incl_map m_HostID Hb). exact F.
Qed.

Lemma existsb_HostID_In hostID rows :
  existsb (fun r => (m_HostID r =? hostID)%string) rows = true
  <-> In hostID (map m_HostID rows).
Proof.
  rewrite existsb_exists, in_map_iff. split.
  - intros (r & Hr & E). apply String.eqb_eq in E. exists r. auto.
  - intros (r & E & Hr). exists r. split; [exact Hr|].
    apply String.eqb_eq. exact E.
Qed.

(** A seeding pass keeps the instance table and the rows of the host
    table, and appends rows for distinct host ids that had no row. *)
Lemma seed_fold_adds p ids :
  forall w,
    cloud_instances (World.db (fold_left (seedStep p) ids w))
    = cloud_instances (World.db w)
    /\ outage (World.db (fold_left (seedStep p) ids w))
       = outage (World.db w)
    /\ exists added,
         dedicated_hosts (World.db (fold_left (seedStep p) ids w))
         = dedicated_hosts (World.db w) ++ added
         /\ Forall (seeded p ids (dedicated_hosts (World.db w))) added
         /\ NoDup (map m_HostID added).
Proof.
  induction ids as [|x ids IH]; intros w; cbn [fold_left].
  - split; [reflexivity|]. split; [reflexivity|].
    exists []. rewrite app_nil_r. repeat split; constructor.
  - destruct (IH (seedStep p w x)) as (Hc & Ho & added & Hh & Hf & Hn).
    rewrite Hc, Ho, Hh. rewrite seedStep_db.
    destruct (settled x (World.db w)) eqn:E.
    + split; [reflexivity|]. split; [reflexivity|].
      exists added. split; [reflexivity|]. split; [|exact Hn].
      rewrite seedStep_db, E in Hf.
      eapply Forall_impl; [|exact Hf]. intros r.
      apply seeded_weaken; [apply incl_tl, incl_refl | apply incl_refl].
    + split; [reflexivity|]. split; [reflexivity|].
      rewrite seedStep_db, E in Hf.
      cbn [withHosts dedicated_hosts] in Hf |- *.
      exists (seedRow p x (World.clock w + World.latency w) :: added).
      rewrite <- app_assoc. split; [reflexivity|].
      unfold settled in E. rewrite !orb_false_iff in E.
      destruct E as [[_ Ee] _].
      split; [constructor|].
      * unfold seeded. cbn [seedRow m_HostID m_ID m_InstanceType m_State
                            m_CurrentInstanceID m_AllocatedAt m_ReleasedAt
                            m_MinAllocationSec].
        repeat split; try reflexivity; [left; reflexivity|].
        intros F. apply existsb_HostID_In in F. rewrite F in Ee.
        discriminate Ee.
      * eapply Forall_impl; [|exact Hf]. intros r.
        apply seeded_weaken; [apply incl_tl, incl_refl|].
        apply incl_appl, incl_refl.
      * cbn [map seedRow m_HostID]. constructor; [|exact Hn].
        intros F. apply in_map_iff in F. destruct F as (r & Er & Hr).
        rewrite Forall_forall in Hf. destruct (Hf r Hr) as (_ & Hnot & _).
        apply Hnot. rewrite map_app. apply in_or_app. right.
        left. symmetry. exact Er.
Qed.

End SeedingFacts.

(** Seeding is idempotent: [SeedDedicatedHosts] always returns no error,
    and a second run right after the first leaves the database exactly as
    the first run left it, whatever the state of the store and whatever
    the configured host ids. *)
Theorem seeding_twice_is_seeding_once :
  forall p w,
    fst (World.exec (AWSProv.SeedDedicatedHosts p) w) = None
    /\ World.db
         (snd (World.exec (AWSProv.SeedDedicatedHosts p)
                 (snd (World.exec (AWSProv.SeedDedicatedHosts p) w))))
       = World.db (snd (World.exec (AWSProv.SeedDedicatedHosts p) w)).
Proof.
  intros p w. rewrite !exec_Seed. cbn [fst snd]. split; [reflexivity|].
  apply settled_fold_same. intros hostID Hin.
  apply settled_fold. left. exact Hin.
Qed.

(** Seeding only adds what is missing: the instance table and the existing
    host rows are untouched; every row appended is [available], free, named
    [dh-] followed by its host id, carries the configured instance type and
    the configured minimum allocation in whole seconds, and belongs to a
    configured host id that had no row; no host id is added twice. On a
    store within reach, every configured host id whose record id is not
    taken has a row afterwards. *)
Theorem seeding_adds_missing_hosts_only :
  forall p w,
    Storage.cloud_instances
      (World.db (snd (World.exec (AWSProv.SeedDedicatedHosts p) w)))
    = Storage.cloud_instances (World.db w)
    /\ (exists added,
          Storage.dedicated_hosts
            (World.db (snd (World.exec (AWSProv.SeedDedicatedHosts p) w)))
          = Storage.dedicated_hosts (World.db w) ++ added
          /\ Forall (Seeding.seeded p (DedicatedHostIDs (MacOS (awsCfg p)))
                       (Storage.dedicated_hosts (World.db w))) added
          /\ NoDup (map Storage.m_HostID added))
    /\ (Storage.outage (World.db w) = None ->
        forall hostID,
          In hostID (DedicatedHostIDs (MacOS (awsCfg p))) ->
          Storage.takeHost ("dh-" ++ hostID)
            (Storage.dedicated_hosts (World.db w)) = None ->
          In hostID
            (map Storage.m_HostID
               (Storage.dedicated_hosts
                  (World.db
                     (snd (World.exec (AWSProv.SeedDedicatedHosts p) w)))))).
Proof.
  intros p w. rewrite exec_Seed. cbn [snd].
  destruct (seed_fold_adds p (DedicatedHostIDs (MacOS (awsCfg p))) w)
    as (Hc & Ho & added & Hh & Hf & Hn).
  split; [exact Hc|]. split; [exists added; auto|].
  intros Hout hostID Hin Hfree.
  pose proof (settled_fold p (DedicatedHostIDs (MacOS (awsCfg p))) w hostID
                (or_introl Hin)) as Hs.
  unfold Seeding.settled in Hs. rewrite Ho, Hout in Hs. cbn [isSome orb] in Hs.
  apply orb_true_iff in Hs. destruct Hs as [Hs|Hs].
  - apply existsb_HostID_In. exact Hs.
  - rewrite Hh, takeHost_app, Hfree in Hs.
    destruct (Storage.takeHost ("dh-" ++ hostID) added) as [r|] eqn:Et;
      [|discriminate Hs].
    unfold Storage.takeHost in Et. apply find_some in Et.
    destruct Et as [Hr Eid]. apply String.eqb_eq in Eid.
    rewrite Forall_forall in Hf. destruct (Hf r Hr) as (_ & _ & Hid & _).
    rewrite Hid in Eid. cbn in Eid. injection Eid as Eid.
    rewrite Hh, map_app. apply in_or_app. right.
    rewrite <- Eid. apply in_map. exact Hr.
Qed.

(** ** Instance monitor *)

Section MonitorFacts.

Lemma announced_app eventType tr1 tr2 :
  announced eventType (tr1 ++ tr2)
  = announced eventType tr1 ++ announced eventType tr2.
Proof.
  unfold announced. rewrite published_app, filter_app, map_app. reflexivity.
Qed.

(** [TerminateInstance] of the manager publishes at most the
    [instance.terminated] event. *)
Lemma TerminateInstance_announces_no_failure m id tr r :
  Exec (Manager.TerminateInstance m id) tr r ->
  announced EventInstanceFailed tr = [].
Proof.
  unfold Manager.TerminateInstance, Manager.storeState,
    Manager.EmitInstanceEvent. intros H.
  apply Exec_bind in H. destruct H as (a & tr1 & tr2 & H1 & H2 & ->).
  apply resolveInstance_reads in H1. destruct H1 as [P _].
  rewrite announced_app. unfold announced at 1. rewrite P. cbn [filter map app].
  destruct a as [[inst prov]|e]; [|exec_all H2; reflexivity].
  cbn in H2. exec_step H2. cbn in H2.
  exec_step H2; [exec_all H2; reflexivity|].
  destruct (Manager.hasStore m); exec_all H2; reflexivity.
Qed.

End MonitorFacts.

(** The stale-provisioning pass: when the store lists the provisioning
    instances, one [instance.failed] event is published for each of them
    that was created before the cutoff, in the order of the listing and
    whether its termination succeeded or not, and none for the others. The
    cutoff is the first clock reading plus the negated provisioning
    timeout, the negation being that of a 64-bit integer: it is the
    reading minus the timeout for every timeout but the least integer,
    which is its own negation. When the listing fails, nothing is
    published or written. *)
Theorem stale_provisioning_is_announced_failed :
  forall m tr r,
    Exec (Monitor.cleanupStaleProvisioning m) tr r ->
    match storeListings tr with
    | Some instances :: _ =>
        exists now,
          hd_error (clockReadings tr) = Some now
          /\ announced EventInstanceFailed tr
             = map ID
                 (filter
                    (fun inst =>
                       Before (CreatedAt inst)
                         (Add now
                            (wrap64
                               (- ProvisioningTimeout (Monitor.config m)))))
                    instances)
    | _ => published tr = [] /\ instanceWrites tr = []
    end
    /\ (min_int64 < ProvisioningTimeout (Monitor.config m) <= max_int64 ->
        wrap64 (- ProvisioningTimeout (Monitor.config m))
        = - ProvisioningTimeout (Monitor.config m))
    /\ (ProvisioningTimeout (Monitor.config m) = min_int64 ->
        wrap64 (- ProvisioningTimeout (Monitor.config m)) = min_int64).
Proof.
  intros m tr r H.
  split;
    [|split; [intros B; apply wrap64_small; unfold min_int64, max_int64 in *; lia
             |intros ->; reflexivity]].
  unfold Monitor.cleanupStaleProvisioning in H.
  cbn in H. exec_step H. cbn in H.
  destruct x as [instances|e]; [|exec_all H; cbn; split; reflexivity].
  cbn in H. exec_step H.
  unfold storeListings. cbn [flat_map storeListingOf app clockReadings hd_error].
  exists x. split; [reflexivity|].
  change (Ev (ListCloudInstances (stateFilter InstanceStateProvisioning))
            (Ok instances) :: Ev TimeNow x :: tr)
    with ([Ev (ListCloudInstances (stateFilter InstanceStateProvisioning))
             (Ok instances); Ev TimeNow x] ++ tr).
  rewrite announced_app. cbn [announced published filter map app].
  apply Exec_forEach in H. destruct H as (trs & -> & HF).
  induction HF as [|inst t insts trs Hb HF IH]; [reflexivity|].
  cbn [List.concat filter]. rewrite announced_app, IH.
  destruct (Before (CreatedAt inst) _).
  - apply Exec_bind in Hb. destruct Hb as (e & tr1 & tr2 & H1 & H2 & ->).
    apply TerminateInstance_announces_no_failure in H1.
    rewrite announced_app, H1.
    unfold Manager.EmitInstanceEvent in H2.
    destruct e; exec_all H2; reflexivity.
  - destruct Hb as [-> _]. reflexivity.
Qed.

Section AccrualFacts.

Lemma savedOk_app tr1 tr2 : savedOk (tr1 ++ tr2) = savedOk tr1 ++ savedOk tr2.
Proof. apply flat_map_app. Qed.

Lemma usageReports_app tr1 tr2 :
  usageReports (tr1 ++ tr2) = usageReports tr1 ++ usageReports tr2.
Proof. apply flat_map_app. Qed.

End AccrualFacts.

(** The accrual pass, call by call: the records written are exactly the
    listed instances with a positive hourly rate, in the order of the
    listing, each with the cost of one interval added to its accrued cost
    (wrapping at 64 bits); and usage is reported to billing once for each
    record that the store accepted, with that record's id, platform and
    rate and the length of the interval, and for no other. A cost is never
    less than one cent nor more than the largest integer. *)
Theorem accrual_writes_billable_and_reports_saved :
  forall m tr r,
    Exec (Monitor.accrueUsageCosts m) tr r ->
    usageReports tr
    = map (fun i => (ID i, Platform_ i,
                     Hours (MonitorInterval (Monitor.config m)),
                     HourlyRateCents i)) (savedOk tr)
    /\ match storeListings tr with
       | Some instances :: _ =>
           instanceWrites tr
           = map (fun x =>
                    set_AccruedCostCents
                      (wrap64 (AccruedCostCents x
                               + Monitor.costCents (HourlyRateCents x)
                                   (Hours (MonitorInterval (Monitor.config m)))))
                      x)
               (filter (fun x => negb (HourlyRateCents x <=? 0)) instances)
       | _ => instanceWrites tr = []
       end
    /\ (forall rate hours, 1 <= Monitor.costCents rate hours <= max_int64).
Proof.
  intros m tr r H. split; [|split].
  - unfold Monitor.accrueUsageCosts in H. cbn in H. exec_step H. cbn in H.
    destruct x as [instances|e]; [|exec_all H; reflexivity].
    cbn [usageReports savedOk flat_map usageOf savedOf app].
    apply Exec_forEach in H. destruct H as (trs & -> & HF).
    induction HF as [|inst t insts trs Hb HF IH]; [reflexivity|].
    cbn [List.concat]. fold (usageReports (t ++ List.concat trs)).
    fold (savedOk (t ++ List.concat trs)).
    rewrite usageReports_app, savedOk_app, map_app.
    unfold usageReports, savedOk in *. rewrite IH. f_equal.
    unfold Monitor.accrueOne in Hb. exec_all Hb; reflexivity.
  - unfold Monitor.accrueUsageCosts in H. cbn in H. exec_step H. cbn in H.
    destruct x as [instances|e]; [|exec_all H; reflexivity].
    unfold storeListings. cbn [flat_map storeListingOf app instanceWrites].
    apply Exec_forEach in H. destruct H as (trs & -> & HF).
    induction HF as [|inst t insts trs Hb HF IH]; [reflexivity|].
    cbn [List.concat filter]. rewrite instanceWrites_app, IH.
    unfold Monitor.accrueOne in Hb.
    destruct (HourlyRateCents inst <=? 0); exec_all Hb; reflexivity.
  - intros rate hours. unfold Monitor.costCents, F64.to_int.
    destruct (F64.trunc _) as [z|].
    + destruct ((min_int64 <=? z) && (z <=? max_int64)) eqn:E.
      * destruct (z <? 1) eqn:E1; unfold max_int64 in *; lia.
      * cbn. unfold max_int64. lia.
    + cbn. unfold max_int64. lia.
Qed.

Section SyncFacts.

Lemma syncOne_outcome m inst tr r :
  Exec (Monitor.syncOne m inst) tr r ->
  match lookupAnswers tr with
  | [] => published tr = [] /\ instanceWrites tr = []
  | (q, live) :: _ =>
      Manager.getProvisioner (Monitor.manager m) (Platform_ inst) = Ok q
      /\ if (State live =? State inst)%string
         then published tr = [] /\ instanceWrites tr = []
         else
           (exists w,
               instanceWrites tr = [w]
               /\ ID w = ID inst /\ State w = State live
               /\ PublicIP w = PublicIP live
               /\ PrivateIP w = PrivateIP live
               /\ HourlyRateCents w = HourlyRateCents inst
               /\ AccruedCostCents w = AccruedCostCents inst
               /\ (if (State live =? InstanceStateTerminated)%string
                   then TerminatedAt w <> None
                   else TerminatedAt w = TerminatedAt inst)
               /\ (if (State live =? InstanceStateRunning)%string
                   then ProvisionedAt w <> None
                   else ProvisionedAt w = ProvisionedAt inst)
               /\ (forall t, ProvisionedAt inst = Some t ->
                             ProvisionedAt w = Some t))
           /\ map (fun ev => (ev_Type ev, ev_InstanceID ev)) (published tr)
              = if (State live =? InstanceStateRunning)%string
                then [(EventInstanceRunning, ID inst)]
                else if (State live =? InstanceStateTerminated)%string
                then [(EventInstanceTerminated, ID inst)]
                else if (State live =? InstanceStateFailed)%string
                then [(EventInstanceFailed, ID inst)]
                else []
  end.
Proof.
  unfold Monitor.syncOne, Manager.EmitInstanceEvent. intros H.
  destruct (Manager.getProvisioner (Monitor.manager m) (Platform_ inst))
    as [q|e] eqn:Eq; [|exec_all H; split; reflexivity].
  cbn in H. exec_step H. cbn in H.
  destruct x as [live|e]; [|exec_all H; split; reflexivity].
  unfold lookupAnswers. cbn [flat_map lookupAnswerOf app].
  split; [reflexivity|].
  destruct (State live =? State inst)%string eqn:Es; cbn [negb] in H;
    [exec_all H; split; reflexivity|].
  cbn in H. exec_step H. cbn in H.
  destruct (State live =? InstanceStateTerminated)%string eqn:Et;
    destruct (State live =? InstanceStateRunning)%string eqn:Er;
    try (apply String.eqb_eq in Et; apply String.eqb_eq in Er;
         rewrite Et in Er; discriminate Er);
    destruct (ProvisionedAt inst) as [t0|] eqn:Ep;
    cbn in H; rewrite ?Ep in H; cbn in H;
    exec_all H; cbn; rewrite ?Ep;
    (split; [eexists; split; [reflexivity|];
             cbn; rewrite ?Ep;
             repeat split; try reflexivity; try discriminate;
             try (intros t F; discriminate F); try (intros t F; exact F)
            | reflexivity ]).
Qed.

Lemma exec_GetInstance_world p id w :
  snd (World.exec (AWSProv.GetInstance p id) w) = w.
Proof.
  unfold World.exec, AWSProv.GetInstance, AWSProv.describeInstanceByTag.
  cbn -[World.describe AWSProv.firstInstance AWSProv.tagOr
        AWSProv.ec2StateToInstanceState].
  destruct (World.describe _ _) as [reservations|e]; [|reflexivity].
  cbn -[AWSProv.firstInstance AWSProv.tagOr AWSProv.ec2StateToInstanceState].
  destruct (AWSProv.firstInstance reservations); reflexivity.
Qed.

Lemma exec_GetInstance_live p id w inst :
  fst (World.exec (AWSProv.GetInstance p id) w) = Ok inst ->
  State inst = InstanceStateProvisioning
  \/ State inst = InstanceStateRunning
  \/ State inst = InstanceStateStopped.
Proof.
  rewrite exec_GetInstance. intros H.
  destruct (World.apiError (World.ec2 w)); [discriminate|].
  destruct (hd_error _) as [i|] eqn:Eh; [|discriminate].
  injection H as <-. cbn [State].
  apply hd_error_filter in Eh. destruct Eh as [_ Ef].
  apply andb_true_iff in Ef. destruct Ef as [_ Ef].
  rewrite andb_true_r in Ef. apply liveFilter_states in Ef.
  destruct Ef as [E|[E|[E|E]]]; rewrite E; cbn; auto.
Qed.

End SyncFacts.

(** One step of the state sync: when the provisioner cannot be found or
    does not return the instance, nothing is written or published; when the
    live state equals the stored one, nothing either; otherwise exactly one
    record is written, with the live state and addresses, the id and the
    billing fields of the stored record, a termination time when the live
    state is [terminated], a provisioning time when it is [running] (an
    existing one is kept), and one event follows for [running],
    [terminated] or [failed], none for the other states. *)
Theorem sync_writes_only_state_changes :
  forall m inst tr r,
    Exec (Monitor.syncOne m inst) tr r ->
    match lookupAnswers tr with
    | [] => published tr = [] /\ instanceWrites tr = []
    | (q, live) :: _ =>
        Manager.getProvisioner (Monitor.manager m) (Platform_ inst) = Ok q
        /\ if (State live =? State inst)%string
           then published tr = [] /\ instanceWrites tr = []
           else
             (exists w,
                 instanceWrites tr = [w]
                 /\ ID w = ID inst /\ State w = State live
                 /\ PublicIP w = PublicIP live
                 /\ PrivateIP w = PrivateIP live
                 /\ HourlyRateCents w = HourlyRateCents inst
                 /\ AccruedCostCents w = AccruedCostCents inst
                 /\ (if (State live =? InstanceStateTerminated)%string
                     then TerminatedAt w <> None
                     else TerminatedAt w = TerminatedAt inst)
                 /\ (if (State live =? InstanceStateRunning)%string
                     then ProvisionedAt w <> None
                     else ProvisionedAt w = ProvisionedAt inst)
                 /\ (forall t, ProvisionedAt inst = Some t ->
                               ProvisionedAt w = Some t))
             /\ map (fun ev => (ev_Type ev, ev_InstanceID ev)) (published tr)
                = if (State live =? InstanceStateRunning)%string
                  then [(EventInstanceRunning, ID inst)]
                  else if (State live =? InstanceStateTerminated)%string
                  then [(EventInstanceTerminated, ID inst)]
                  else if (State live =? InstanceStateFailed)%string
                  then [(EventInstanceFailed, ID inst)]
                  else []
    end.
Proof. exact syncOne_outcome. Qed.

(** The state sync cannot see an AWS instance end: for an instance served
    by the AWS provisioner, a sync step never writes the state
    [terminated] or [failed] and never publishes an event other than
    [instance.running]; and when EC2 holds the instance only as
    [shutting-down] or [terminated], the step changes nothing at all, so
    the stored record keeps its state. *)
Theorem aws_termination_is_invisible_to_sync :
  forall m inst p w,
    Manager.getProvisioner (Monitor.manager m) (Platform_ inst)
    = Ok (ProvAWS p) ->
    let '(_, w', tr) := run World.handle (Monitor.syncOne m inst) w in
    Forall (fun i => State i = InstanceStateProvisioning
                     \/ State i = InstanceStateRunning
                     \/ State i = InstanceStateStopped) (instanceWrites tr)
    /\ Forall (fun ev => ev_Type ev = EventInstanceRunning) (published tr)
    /\ (World.apiError (World.ec2 w) = None ->
        (forall i,
            In i (World.instances (World.ec2 w)) ->
            World.matchFilter (World.tagFilter (ID inst)) i = true ->
            ec2_StateName i = "shutting-down"
            \/ ec2_StateName i = "terminated") ->
        w' = w
        /\ tr = [Ev (ProvGetInstance (ProvAWS p) (ID inst))
                   (Err ErrInstanceNotFound)]).
Proof.
  intros m inst p w Hp.
  pose proof (run_Exec World.handle (Monitor.syncOne m inst) w) as E.
  apply syncOne_outcome in E.
  assert (Hk : exists k,
             Monitor.syncOne m inst
             = Do (ProvGetInstance (ProvAWS p) (ID inst)) k
             /\ forall e, k (Err e) = Ret tt).
  { eexists. split; [unfold Monitor.syncOne; rewrite Hp; reflexivity|].
    reflexivity. }
  destruct Hk as (k & Hk & Hke).
  set (R := run World.handle (Monitor.syncOne m inst) w) in *.
  assert (Hrun :
    R = let '(x, w1) := World.exec (AWSProv.GetInstance p (ID inst)) w in
        let '(r, w2, tr) := run World.handle (k x) w1 in
        (r, w2, Ev (ProvGetInstance (ProvAWS p) (ID inst)) x :: tr)).
  { subst R. rewrite Hk. reflexivity. }
  pose proof (exec_GetInstance_world p (ID inst) w) as Hw.
  pose proof (exec_GetInstance_live p (ID inst) w) as Hl.
  pose proof (exec_GetInstance p (ID inst) w) as Hg.
  destruct (World.exec (AWSProv.GetInstance p (ID inst)) w) as [x w1].
  cbn [fst snd] in Hw, Hl, Hg. subst w1.
  clearbody R. destruct R as [[r w'] tr].
  cbn [fst snd] in E.
  destruct x as [live|e].
  - destruct (run World.handle (k (Ok live)) w) as [[r2 w2] tr2].
    injection Hrun as -> -> ->.
    unfold lookupAnswers in E. cbn [flat_map lookupAnswerOf app] in E.
    destruct E as [_ E]. specialize (Hl live eq_refl).
    split; [|split].
    + destruct (State live =? State inst)%string.
      * destruct E as [_ ->]. constructor.
      * destruct E as [(wr & -> & _ & Hs & _) _].
        constructor; [rewrite Hs; exact Hl | constructor].
    + destruct (State live =? State inst)%string.
      * destruct E as [-> _]. constructor.
      * destruct E as [_ E].
        destruct Hl as [Hs|[Hs|Hs]]; rewrite Hs in E; cbn in E;
          destruct (published _) as [|ev [|ev2 evs]]; try discriminate E;
          try constructor; try constructor.
        injection E as E _. exact E.
    + intros Hapi Hall. exfalso. rewrite Hapi in Hg.
      rewrite filter_none in Hg; [discriminate Hg|].
      intros i Hi.
      destruct (World.matchFilter (World.tagFilter (ID inst)) i) eqn:Et;
        [|reflexivity].
      destruct (Hall i Hi Et) as [Hs|Hs];
        unfold World.matchFilter, World.liveFilter; cbn; rewrite Hs;
        reflexivity.
  - rewrite Hke in Hrun. cbn in Hrun. injection Hrun as -> -> ->.
    split; [constructor|]. split; [constructor|].
    intros Hapi Hall. split; [reflexivity|]. rewrite Hapi in Hg.
    rewrite filter_none in Hg; [rewrite Hg; reflexivity|].
    intros i Hi.
    destruct (World.matchFilter (World.tagFilter (ID inst)) i) eqn:Et;
      [|reflexivity].
    destruct (Hall i Hi Et) as [Hs|Hs];
      unfold World.matchFilter, World.liveFilter; cbn; rewrite Hs;
      reflexivity.
Qed.

(** [SyncInstanceState] of the AWS provisioner: when the lookup fails the
    instance comes back as it was, with the error; otherwise the state and
    the addresses are the live ones, and the id, the billing fields and
    any provisioning or termination time already set are kept: the two
    timestamps are written only once. *)
Theorem aws_sync_sets_timestamps_once :
  forall p inst tr inst' e,
    Exec (AWSProv.SyncInstanceState p inst) tr (inst', e) ->
    (e <> None -> inst' = inst)
    /\ ID inst' = ID inst
    /\ HourlyRateCents inst' = HourlyRateCents inst
    /\ AccruedCostCents inst' = AccruedCostCents inst
    /\ (forall t, ProvisionedAt inst = Some t -> ProvisionedAt inst' = Some t)
    /\ (forall t, TerminatedAt inst = Some t -> TerminatedAt inst' = Some t)
    /\ (e = None -> State inst' = InstanceStateRunning ->
        ProvisionedAt inst' <> None)
    /\ (e = None -> State inst' = InstanceStateTerminated ->
        TerminatedAt inst' <> None).
Proof.
  intros p inst tr inst' e H. unfold AWSProv.SyncInstanceState in H.
  apply Exec_bind in H. destruct H as (a & tr1 & tr2 & _ & H & ->).
  destruct a as [updated|err].
  - cbn in H. exec_step H. cbn in H. destruct H as [_ H].
    injection H as -> ->.
    destruct (ProvisionedAt inst) as [tp|] eqn:Ep;
      destruct (TerminatedAt inst) as [tt'|] eqn:Et;
      destruct (State updated =? InstanceStateRunning)%string eqn:Er;
      destruct (State updated =? InstanceStateTerminated)%string eqn:Ex;
      cbn; rewrite ?Ep, ?Et; cbn; rewrite ?Ep, ?Et; cbn;
      repeat split; try reflexivity; try congruence;
      try (intros _ F; rewrite F in Er; discriminate Er);
      try (intros _ F; rewrite F in Ex; discriminate Ex);
      try (intros _ _; discriminate).
  - cbn in H. destruct H as [_ H]. injection H as -> ->.
    repeat split; try reflexivity; try congruence; intros F; discriminate F.
Qed.

(** ** Provisioners: an instance from creation to termination *)

Section K8sLifecycle.

Import World.

Lemma selects_labelled ns id pod rest :
  pod_Namespace pod = ns ->
  pod_Labels pod
  = ("app", "hanzo-agent-bot") :: ("hanzo.ai/cloud-instance", id) :: rest ->
  selects ns [("hanzo.ai/cloud-instance", id)] pod = true.
Proof.
  intros Hn Hl. unfold selects. rewrite Hn, Hl. cbn.
  rewrite !String.eqb_refl. reflexivity.
Qed.

End K8sLifecycle.

(** The life of a pod-backed instance. When [CreateInstance] of the
    Kubernetes provisioner succeeds with an id that no pod of the cluster
    carries yet, the instance is a [provisioning] Linux instance of
    provider [k8s]; [GetInstance] of its id finds it, with the same pod
    name, team and bot package, in state [provisioning]; terminating it
    succeeds; and after that [GetInstance] of the id is
    [ErrInstanceNotFound]. *)
Theorem k8s_instance_is_found_until_terminated :
  forall p req w inst w1,
    World.exec (K8sProv.CreateInstance p req) w = (Ok inst, w1) ->
    (forall pod,
        In pod (World.pods (World.k8s w)) ->
        World.selects (Namespace (k8sCfg p))
          [("hanzo.ai/cloud-instance", ID inst)] pod = false) ->
    (Platform_ inst = PlatformLinux
     /\ State inst = InstanceStateProvisioning
     /\ Provider inst = "k8s"
     /\ TeamID inst = req_TeamID req)
    /\ (exists found,
          fst (World.exec (K8sProv.GetInstance p (ID inst)) w1) = Ok found
          /\ ID found = ID inst
          /\ Platform_ found = PlatformLinux
          /\ State found = InstanceStateProvisioning
          /\ InstanceID found = InstanceID inst
          /\ TeamID found = req_TeamID req
          /\ BotPackage found = req_BotPackage req)
    /\ (let '(e, w2) := World.exec (K8sProv.TerminateInstance p (ID inst)) w1 in
        e = None
        /\ fst (World.exec (K8sProv.GetInstance p (ID inst)) w2)
           = Err ErrInstanceNotFound).
Proof.
  intros p req w inst w1 H Hfresh.
  unfold World.exec, K8sProv.CreateInstance in H.
  cbn -[World.createPod String.append substring] in H.
  unfold World.createPod in H.
  destruct (World.k8sError (World.k8s w)) as [err|] eqn:Ek;
    [cbn in H; discriminate H|].
  destruct (existsb _ (World.pods (World.k8s w))) eqn:Ex;
    [cbn in H; discriminate H|].
  cbn -[String.append substring] in H.
  injection H as <- <-.
  cbn [ID Platform_ State Provider TeamID InstanceID] in Hfresh |- *.
  set (id := World.uuidOf w (World.uuidSeed w)) in *.
  set (name := ("bot-" ++ substring 0 8 id)%string) in *.
  cbn [pod_Name] in Ex.
  set (created := World.setPhase "Pending" _).
  assert (Hsel : World.selects (Namespace (k8sCfg p))
                   [("hanzo.ai/cloud-instance", id)] created = true).
  { eapply selects_labelled; reflexivity. }
  assert (Hlist : filter (World.selects (Namespace (k8sCfg p))
                            [("hanzo.ai/cloud-instance", id)])
                    (World.pods (World.k8s w) ++ [created]) = [created]).
  { rewrite filter_app, (filter_none _ _ Hfresh). cbn [filter app].
    rewrite Hsel. reflexivity. }
  split; [repeat split; reflexivity|]. split.
  - unfold World.exec, K8sProv.GetInstance, K8sProv.findPodByInstanceID.
    cbn -[World.selects created].
    unfold World.listPods. cbn -[World.selects created].
    rewrite Hlist. cbn -[created]. eexists. split; [reflexivity|].
    cbn. repeat split; reflexivity.
  - unfold World.exec, K8sProv.TerminateInstance, K8sProv.GetInstance,
      K8sProv.findPodByInstanceID.
    cbn -[World.selects created World.named].
    unfold World.listPods. cbn -[World.selects created World.named].
    rewrite Hlist. cbn -[World.selects created World.named].
    unfold World.deletePod. cbn -[World.selects created World.named].
    rewrite existsb_app. cbn -[World.selects created World.named].
    assert (Hnamed : World.named (Namespace (k8sCfg p)) (pod_Name created)
                       created = true).
    { unfold World.named. cbn. rewrite !String.eqb_refl. reflexivity. }
    rewrite Hnamed, orb_true_r. cbn -[World.selects created World.named].
    split; [reflexivity|].
    unfold World.listPods. cbn -[World.selects created World.named].
    rewrite filter_none; [reflexivity|].
    intros pod Hin. apply filter_In in Hin. destruct Hin as [Hin Hc].
    apply in_app_or in Hin. destruct Hin as [Hin|[<-|[]]].
    + apply Hfresh. exact Hin.
    + rewrite Hnamed in Hc. discriminate Hc.
Qed.

Section AwsLifecycle.

Import World.

(** Tags given by the caller are stored under [hanzo.ai/tag-], and so
    never take the place of the tags that the provisioner sets. *)
Lemma tagOr_userTags key req :
  (forall k, (("hanzo.ai/tag-" ++ k) =? key)%string = false) ->
  forall acc,
    fold_left (fun acc kv => if (fst kv =? key)%string then snd kv else acc)
      (AWSProv.userTags req) acc = acc.
Proof.
  intros Hk. unfold AWSProv.userTags.
  induction (req_Tags req) as [|kv l IH]; intros acc; [reflexivity|].
  cbn [map fold_left fst snd]. rewrite Hk. apply IH.
Qed.

Lemma tagged_matches id name rest i :
  ec2_Tags i = ("Name", name) :: ("hanzo.ai/cloud-instance", id) :: rest ->
  matchFilter (tagFilter id) i = true.
Proof.
  intros Ht. unfold matchFilter, tagFilter. cbn. rewrite Ht. cbn.
  rewrite String.eqb_refl, orb_true_r. reflexivity.
Qed.

Lemma launched_is_found id old i :
  (forall j, In j old -> matchFilter (tagFilter id) j = false) ->
  matchFilter (tagFilter id) i = true ->
  ec2_StateName i = "pending" ->
  hd_error
    (filter (fun i => matchFilter (tagFilter id) i
                      && (matchFilter liveFilter i && true))
       (old ++ [i]))
  = Some i.
Proof.
  intros Hold Hi Hs. rewrite filter_app.
  rewrite (filter_none _ old).
  - cbn [app filter]. rewrite Hi. unfold matchFilter at 1, liveFilter.
    cbn. rewrite Hs. reflexivity.
  - intros j Hj. rewrite (Hold j Hj). reflexivity.
Qed.

End AwsLifecycle.

(** An instance launched on EC2 is found again: when [CreateInstance] of
    the AWS provisioner succeeds with an id that no instance of the
    account is tagged with yet, the instance is [provisioning] on the
    requested platform, and [GetInstance] of its id returns an instance
    with the same id, platform, EC2 id, instance type, team, bot package
    and dedicated host, in state [provisioning]; tags given by the caller
    cannot change that. *)
Theorem aws_created_instance_is_found :
  forall p req w inst w1,
    World.exec (AWSProv.CreateInstance p req) w = (Ok inst, w1) ->
    (forall i,
        In i (World.instances (World.ec2 w)) ->
        World.matchFilter (World.tagFilter (ID inst)) i = false) ->
    (State inst = InstanceStateProvisioning
     /\ Provider inst = "aws"
     /\ Platform_ inst = req_Platform req
     /\ TeamID inst = req_TeamID req)
    /\ exists found,
         fst (World.exec (AWSProv.GetInstance p (ID inst)) w1) = Ok found
         /\ ID found = ID inst
         /\ Platform_ found = Platform_ inst
         /\ State found = InstanceStateProvisioning
         /\ InstanceID found = InstanceID inst
         /\ InstanceType found = InstanceType inst
         /\ TeamID found = TeamID inst
         /\ BotPackage found = BotPackage inst
         /\ DedicatedHostID found = DedicatedHostID inst.
Proof.
  intros p req w inst w1 H Hfresh.
  rewrite exec_GetInstance.
  unfold World.exec, AWSProv.CreateInstance in H.
  cbn -[AWSProv.launchWindowsInstance AWSProv.launchMacOSInstance] in H.
  destruct (req_Platform req =? PlatformWindows)%string eqn:Ew.
  - apply String.eqb_eq in Ew.
    unfold AWSProv.launchWindowsInstance in H.
    cbn -[World.launch String.append substring AWSProv.userTags] in H.
    destruct (World.renderError w) as [err|];
      [cbn in H; discriminate H|].
    cbn -[World.launch String.append substring AWSProv.userTags] in H.
    unfold World.launch in H.
    destruct (World.apiError (World.ec2 w)) as [err|] eqn:Ea;
      [cbn in H; discriminate H|].
    destruct (World.launchError (World.ec2 w)) as [err|] eqn:El;
      [cbn in H; discriminate H|].
    cbn -[String.append substring AWSProv.userTags] in H.
    injection H as <- <-.
    cbn [ID Platform_ State Provider TeamID InstanceID InstanceType BotPackage
         DedicatedHostID] in Hfresh |- *.
    split; [repeat split; try reflexivity; symmetry; exact Ew|].
    cbn [World.ec2 World.setClock World.setEc2 World.setSeed World.apiError
         World.setInstances World.instances].
    rewrite Ea.
    erewrite launched_is_found;
      [| exact Hfresh | eapply tagged_matches; reflexivity | reflexivity].
    eexists. split; [reflexivity|].
    cbn -[String.append substring AWSProv.userTags].
    unfold AWSProv.tagOr. cbn -[String.append substring AWSProv.userTags].
    rewrite !tagOr_userTags by (intros k; reflexivity).
    repeat split; reflexivity.
  - destruct (req_Platform req =? PlatformMacOS)%string eqn:Em;
      [|cbn in H; discriminate H].
    apply String.eqb_eq in Em.
    unfold AWSProv.launchMacOSInstance, AWSProv.acquireDedicatedHost in H.
    destruct (aws_hasStore p) eqn:Hs; [|cbn in H; discriminate H].
    cbn -[World.launch String.append substring AWSProv.userTags
          Storage.GetAvailableDedicatedHost Storage.UpdateDedicatedHost
          AWSProv.releaseDedicatedHost] in H.
    destruct (Storage.GetAvailableDedicatedHost (World.db w)) as [host|e];
      [|cbn in H; discriminate H].
    cbn -[World.launch String.append substring AWSProv.userTags
          Storage.GetAvailableDedicatedHost Storage.UpdateDedicatedHost
          AWSProv.releaseDedicatedHost] in H.
    unfold World.write in H.
    cbn -[World.launch String.append substring AWSProv.userTags
          Storage.GetAvailableDedicatedHost Storage.UpdateDedicatedHost
          AWSProv.releaseDedicatedHost] in H.
    destruct (Storage.UpdateDedicatedHost _ _ _) as [[err|] d1] in H;
      [cbn in H; discriminate H|].
    cbn -[World.launch String.append substring AWSProv.userTags
          Storage.GetAvailableDedicatedHost Storage.UpdateDedicatedHost
          AWSProv.releaseDedicatedHost] in H.
    destruct (World.renderError w) as [err|];
      [cbn in H; discriminate H|].
    cbn -[World.launch String.append substring AWSProv.userTags
          Storage.GetAvailableDedicatedHost Storage.UpdateDedicatedHost
          AWSProv.releaseDedicatedHost] in H.
    unfold World.launch in H.
    cbn -[String.append substring AWSProv.userTags
          Storage.GetAvailableDedicatedHost Storage.UpdateDedicatedHost
          AWSProv.releaseDedicatedHost] in H.
    destruct (World.apiError (World.ec2 w)) as [err|] eqn:Ea.
    { rewrite run_bind in H.
      destruct (run World.base (AWSProv.releaseDedicatedHost _ _) _)
        as [[r0 w0] tr0] in H.
      cbn in H. discriminate H. }
    destruct (World.launchError (World.ec2 w)) as [err|] eqn:El.
    { rewrite run_bind in H.
      destruct (run World.base (AWSProv.releaseDedicatedHost _ _) _)
        as [[r0 w0] tr0] in H.
      cbn in H. discriminate H. }
    cbn -[String.append substring AWSProv.userTags
          Storage.GetAvailableDedicatedHost Storage.UpdateDedicatedHost] in H.
    unfold World.write in H.
    cbn -[String.append substring AWSProv.userTags
          Storage.GetAvailableDedicatedHost Storage.UpdateDedicatedHost] in H.
    destruct (Storage.UpdateDedicatedHost _ _ _) as [e2 d2] in H.
    cbn -[String.append substring AWSProv.userTags] in H.
    injection H as <- <-.
    cbn [ID Platform_ State Provider TeamID InstanceID InstanceType BotPackage
         DedicatedHostID] in Hfresh |- *.
    split; [repeat split; try reflexivity; symmetry; exact Em|].
    cbn [World.ec2 World.setClock World.setEc2 World.setSeed World.apiError
         World.setInstances World.instances World.setDb].
    rewrite Ea.
    erewrite launched_is_found;
      [| exact Hfresh | eapply tagged_matches; reflexivity | reflexivity].
    eexists. split; [reflexivity|].
    cbn -[String.append substring AWSProv.userTags].
    unfold AWSProv.tagOr. cbn -[String.append substring AWSProv.userTags].
    rewrite !tagOr_userTags by (intros k; reflexivity).
    repeat split; reflexivity.
Qed.

(** ** Event bus: subscribers *)

Section BusFacts.

Import EventBus.

Lemma trySend_bounded e ch :
  (List.length ch <= chanCap)%nat ->
  (List.length (trySend e ch) <= chanCap)%nat.
Proof.
  unfold trySend. intros H.
  destruct (List.length ch <? chanCap)%nat eqn:E; [|exact H].
  apply Nat.ltb_lt in E. rewrite length_app. cbn. lia.
Qed.

Lemma step_wf eb o : wf eb -> wf (step eb o).
Proof.
  destruct o; cbn [step]; [apply Publish_wf | intros H; exact H
                          | intros H; exact H].
Qed.

Lemma step_channelsBounded eb o :
  channelsBounded eb -> channelsBounded (step eb o).
Proof.
  unfold channelsBounded. intros [Hn Hf]. destruct o; cbn [step].
  - unfold Publish. cbn [subscribers]. split.
    + rewrite map_map. cbn [fst]. exact Hn.
    + apply Forall_map. eapply Forall_impl; [|exact Hf].
      intros s Hs. cbn [snd]. apply trySend_bounded. exact Hs.
  - unfold Subscribe. cbn [subscribers map fst]. split.
    + constructor; [|apply NoDup_map_filter; exact Hn].
      intros F. apply in_map_iff in F. destruct F as (s & Es & Hs).
      apply filter_In in Hs. destruct Hs as [_ Hs].
      rewrite Es, String.eqb_refl in Hs. discriminate Hs.
    + constructor; [cbn; lia|].
      apply Forall_forall. intros s Hs. apply filter_In in Hs.
      rewrite Forall_forall in Hf. apply Hf. tauto.
  - unfold Unsubscribe. cbn [subscribers]. split.
    + apply NoDup_map_filter. exact Hn.
    + apply Forall_forall. intros s Hs. apply filter_In in Hs.
      rewrite Forall_forall in Hf. apply Hf. tauto.
Qed.

Lemma step_bufferSize eb o : bufferSize (step eb o) = bufferSize eb.
Proof. destruct o; reflexivity. Qed.

Lemma drive_invariant ops :
  forall eb,
    wf eb -> channelsBounded eb ->
    wf (drive ops eb) /\ channelsBounded (drive ops eb)
    /\ bufferSize (drive ops eb) = bufferSize eb.
Proof.
  unfold drive.
  induction ops as [|o ops IH]; intros eb Hw Hc; cbn [fold_left].
  - auto.
  - destruct (IH (step eb o) (step_wf eb o Hw)
                (step_channelsBounded eb o Hc)) as (H1 & H2 & H3).
    rewrite step_bufferSize in H3. auto.
Qed.

Lemma channel_Publish id uuid now e eb :
  channel id (Publish uuid now e eb)
  = option_map (trySend (stamp uuid now e)) (channel id eb).
Proof.
  unfold channel, Publish. cbn [subscribers].
  induction (subscribers eb) as [|s l IH]; [reflexivity|].
  cbn [map List.find fst]. destruct (fst s =? id)%string; [reflexivity|].
  exact IH.
Qed.

Lemma firstn_app_full {A} (l r : list A) :
  firstn (List.length l) (l ++ r) = l.
Proof.
  rewrite firstn_app, Nat.sub_diag, firstn_all. cbn. apply app_nil_r.
Qed.

Lemma channel_publishAll id evs :
  forall eb ch,
    channel id eb = Some ch ->
    (List.length ch <= chanCap)%nat ->
    channel id (publishAll evs eb)
    = Some (firstn chanCap (ch ++ stamped evs)).
Proof.
  induction evs as [|[[uuid now] e] evs IH]; intros eb ch Hc Hl.
  - cbn [publishAll stamped map]. rewrite app_nil_r, firstn_all2 by exact Hl.
    exact Hc.
  - cbn [publishAll]. rewrite (IH _ (trySend (stamp uuid now e) ch)).
    + f_equal. unfold trySend.
      destruct (List.length ch <? chanCap)%nat eqn:E.
      * cbn [stamped map fst snd]. rewrite <- app_assoc. reflexivity.
      * apply Nat.ltb_ge in E.
        assert (El : List.length ch = chanCap) by lia.
        rewrite <- El, !firstn_app_full. reflexivity.
    + rewrite channel_Publish, Hc. reflexivity.
    + apply trySend_bounded. exact Hl.
Qed.

Lemma channel_none_publishAll id evs :
  forall eb, channel id eb = None -> channel id (publishAll evs eb) = None.
Proof.
  induction evs as [|[[uuid now] e] evs IH]; intros eb Hc; [exact Hc|].
  cbn [publishAll]. apply IH. rewrite channel_Publish, Hc. reflexivity.
Qed.

Lemma find_filter_ne (id other : string) (l : list (string * list CloudEvent)) :
  other <> id ->
  List.find (fun s => (fst s =? other)%string)
    (filter (fun s => negb (fst s =? id)%string) l)
  = List.find (fun s => (fst s =? other)%string) l.
Proof.
  intros Hne. induction l as [|s l IH]; [reflexivity|]. cbn.
  destruct (fst s =? id)%string eqn:E; cbn.
  - apply String.eqb_eq in E.
    replace (fst s =? other)%string with false; [exact IH|].
    symmetry. apply String.eqb_neq. congruence.
  - destruct (fst s =? other)%string; [reflexivity | exact IH].
Qed.

Lemma find_filter_self (id : string) (l : list (string * list CloudEvent)) :
  List.find (fun s => (fst s =? id)%string)
    (filter (fun s => negb (fst s =? id)%string) l) = None.
Proof.
  induction l as [|s l IH]; [reflexivity|]. cbn.
  destruct (fst s =? id)%string eqn:E; cbn; [exact IH|].
  rewrite E. exact IH.
Qed.

End BusFacts.

(** Whatever sequence of publish, subscribe and unsubscribe calls a bus
    made by [NewEventBus] goes through, its ring buffer never holds more
    events than its capacity (100 when the requested size is not
    positive), its subscriber ids stay distinct, and no subscriber channel
    holds more than 32 pending events. *)
Theorem event_bus_stays_bounded :
  forall n ops,
    let eb := EventBus.drive ops (EventBus.NewEventBus n) in
    EventBus.bufferSize eb = (if n <=? 0 then 100 else n)
    /\ EventBus.len (EventBus.buffer eb) <= EventBus.bufferSize eb
    /\ NoDup (map fst (EventBus.subscribers eb))
    /\ Forall (fun s => (List.length (snd s) <= 32)%nat)
         (EventBus.subscribers eb).
Proof.
  intros n ops eb.
  destruct (drive_invariant ops (EventBus.NewEventBus n))
    as ([_ Hw] & [Hn Hf] & Hb).
  - apply NewEventBus_wf.
  - split; constructor.
  - subst eb. split; [rewrite Hb; reflexivity|]. auto.
Qed.

(** A subscriber that does not read receives the events published after
    its subscription in publish order, stamped as the ring buffer has
    them, up to the 32 that its channel can hold; the later ones are
    dropped for it. After [Unsubscribe] the id has no channel, whatever is
    published next. Subscribing or unsubscribing one id leaves the
    channels of all other ids and the ring buffer as they were. *)
Theorem subscriber_receives_first_32_events :
  forall eb id evs,
    EventBus.channel id (EventBus.publishAll evs (EventBus.Subscribe id eb))
    = Some (firstn 32 (EventBus.stamped evs))
    /\ EventBus.channel id
         (EventBus.publishAll evs (EventBus.Unsubscribe id eb)) = None
    /\ EventBus.buffer (EventBus.Subscribe id eb) = EventBus.buffer eb
    /\ EventBus.buffer (EventBus.Unsubscribe id eb) = EventBus.buffer eb
    /\ (forall other,
           other <> id ->
           EventBus.channel other (EventBus.Subscribe id eb)
           = EventBus.channel other eb
           /\ EventBus.channel other (EventBus.Unsubscribe id eb)
              = EventBus.channel other eb).
Proof.
  intros eb id evs. split; [|split; [|split; [|split]]].
  - rewrite (channel_publishAll id evs _ []).
    + reflexivity.
    + unfold EventBus.channel, EventBus.Subscribe. cbn.
      rewrite String.eqb_refl. reflexivity.
    + cbn. lia.
  - apply channel_none_publishAll.
    unfold EventBus.channel, EventBus.Unsubscribe. cbn [EventBus.subscribers].
    rewrite find_filter_self. reflexivity.
  - reflexivity.
  - reflexivity.
  - intros other Hne. unfold EventBus.channel, EventBus.Subscribe,
      EventBus.Unsubscribe. cbn [EventBus.subscribers List.find fst].
    replace (id =? other)%string with false
      by (symmetry; apply String.eqb_neq; congruence).
    rewrite find_filter_ne by exact Hne. split; reflexivity.
Qed.

(** ** Configuration and billing defaults *)

Section DefaultsFacts.

Lemma orDefault_idem s d : d <> "" -> orDefault (orDefault s d) d = orDefault s d.
Proof.
  intros Hd. unfold orDefault. destruct (s =? "")%string eqn:E.
  - apply String.eqb_neq in Hd. rewrite Hd. reflexivity.
  - rewrite E. reflexivity.
Qed.

Lemma orDefaultZ_idem z d : d <> 0 -> orDefaultZ (orDefaultZ z d) d = orDefaultZ z d.
Proof.
  intros Hd. unfold orDefaultZ. destruct (z =? 0) eqn:E.
  - apply Z.eqb_neq in Hd. rewrite Hd. reflexivity.
  - rewrite E. reflexivity.
Qed.

Lemma orDefault_set s d : d <> "" -> orDefault s d <> "".
Proof.
  intros Hd. unfold orDefault. destruct (s =? "")%string eqn:E;
    [exact Hd | apply String.eqb_neq; exact E].
Qed.

Lemma orDefaultZ_set z d : d <> 0 -> orDefaultZ z d <> 0.
Proof.
  intros Hd. unfold orDefaultZ. destruct (z =? 0) eqn:E;
    [exact Hd | apply Z.eqb_neq; exact E].
Qed.

Lemma orDefault_keep s d : s <> "" -> orDefault s d = s.
Proof.
  intros Hs. unfold orDefault. apply String.eqb_neq in Hs. rewrite Hs.
  reflexivity.
Qed.

Lemma orDefaultZ_keep z d : z <> 0 -> orDefaultZ z d = z.
Proof.
  intros Hz. unfold orDefaultZ. apply Z.eqb_neq in Hz. rewrite Hz.
  reflexivity.
Qed.

End DefaultsFacts.

(** [Defaults] is idempotent; after it, none of the eleven settings that it
    covers is zero or empty; the switches, the billing section and the
    lists are left as they were; and a numeric setting that is not zero, a
    negative one included, is kept as it is. *)
Theorem Defaults_fills_zero_values_once :
  forall c,
    Defaults (Defaults c) = Defaults c
    /\ (MaxInstancesPerTeam (Defaults c) <> 0
        /\ ProvisioningTimeout (Defaults c) <> 0
        /\ MonitorInterval (Defaults c) <> 0
        /\ aws_Region (AWS (Defaults c)) <> ""
        /\ mac_InstanceType (MacOS (AWS (Defaults c))) <> ""
        /\ MinHostAllocation (MacOS (AWS (Defaults c))) <> 0
        /\ IdleHostRelease (MacOS (AWS (Defaults c))) <> 0
        /\ DefaultInstanceType (Windows (AWS (Defaults c))) <> ""
        /\ Namespace (K8s (Defaults c)) <> ""
        /\ DefaultImage (K8s (Defaults c)) <> ""
        /\ ServiceAccount (K8s (Defaults c)) <> "")
    /\ (Enabled (Defaults c) = Enabled c
        /\ Billing (Defaults c) = Billing c
        /\ aws_Enabled (AWS (Defaults c)) = aws_Enabled (AWS c)
        /\ k8s_Enabled (K8s (Defaults c)) = k8s_Enabled (K8s c)
        /\ DedicatedHostIDs (MacOS (AWS (Defaults c)))
           = DedicatedHostIDs (MacOS (AWS c))
        /\ SubnetIDs (AWS (Defaults c)) = SubnetIDs (AWS c))
    /\ (MaxInstancesPerTeam c <> 0 ->
        MaxInstancesPerTeam (Defaults c) = MaxInstancesPerTeam c)
    /\ (MinHostAllocation (MacOS (AWS c)) <> 0 ->
        MinHostAllocation (MacOS (AWS (Defaults c)))
        = MinHostAllocation (MacOS (AWS c)))
    /\ (IdleHostRelease (MacOS (AWS c)) <> 0 ->
        IdleHostRelease (MacOS (AWS (Defaults c)))
        = IdleHostRelease (MacOS (AWS c)))
    /\ (MonitorInterval c <> 0 ->
        MonitorInterval (Defaults c) = MonitorInterval c)
    /\ (ProvisioningTimeout c <> 0 ->
        ProvisioningTimeout (Defaults c) = ProvisioningTimeout c).
Proof.
  intros c. split; [|split; [|split]].
  - unfold Defaults.
    cbn [Enabled AWS K8s Billing MaxInstancesPerTeam ProvisioningTimeout
         MonitorInterval aws_Enabled aws_Region VPCID SubnetIDs
         SecurityGroupID IAMInstanceProfile MacOS Windows DedicatedHostIDs
         mac_AMIID mac_InstanceType MinHostAllocation IdleHostRelease
         win_AMIID DefaultInstanceType k8s_Enabled Namespace DefaultImage
         ServiceAccount].
    rewrite !orDefault_idem by discriminate.
    rewrite !orDefaultZ_idem by (unfold Hour, Minute, Second; lia).
    reflexivity.
  - unfold Defaults.
    cbn [AWS K8s MaxInstancesPerTeam ProvisioningTimeout MonitorInterval
         aws_Region MacOS Windows mac_InstanceType MinHostAllocation
         IdleHostRelease DefaultInstanceType Namespace DefaultImage
         ServiceAccount].
    repeat split;
      first [ apply orDefault_set; discriminate
            | apply orDefaultZ_set; unfold Hour, Minute, Second; lia ].
  - repeat split; reflexivity.
  - unfold Defaults.
    cbn [AWS MaxInstancesPerTeam ProvisioningTimeout MonitorInterval MacOS
         MinHostAllocation IdleHostRelease].
    repeat split; intros H; apply orDefaultZ_keep; exact H.
Qed.

Section NoopBilling.

(** Every event of a run was answered by the handler. *)
Lemma run_answered {W R} (h : Handler W) (p : Prog R) :
  forall w, Forall (answeredBy h) (snd (run h p w)).
Proof.
  induction p as [r|X c k IH]; intros w; cbn; [constructor|].
  destruct (h X c w) as [x w1] eqn:Eh. specialize (IH x w1).
  destruct (run h (k x) w1) as [[r w2] tr]. cbn in *.
  constructor; [|exact IH]. exists w. rewrite Eh. reflexivity.
Qed.

Lemma platformHourlyCents_range p :
  1 <= Billing.platformHourlyCents p <= 120.
Proof.
  unfold Billing.platformHourlyCents.
  destruct (p =? PlatformMacOS)%string; [lia|].
  destruct (p =? PlatformWindows)%string; [lia|].
  destruct (p =? PlatformLinux)%string; lia.
Qed.

End NoopBilling.

(** Without a billing service, provisioning is never refused for billing
    and is charged at the platform defaults. [NewCloudManager] installs the
    no-op client unless billing is enabled and has a service URL, and
    registering provisioners does not change that. With the no-op client,
    a run of [CreateInstance] in the environment has no authorization that
    fails or is denied: unless the call ends before billing is asked, with
    [ErrCloudDisabled] or [ErrMaxInstancesReached], billing grants the
    request with the tier [unlimited] and the default hourly rate of the
    requested platform (120 cents for macOS, 10 for Windows, 1 for Linux,
    10 otherwise); and every instance returned carries that tier and that
    rate, a positive one, so that it takes part in cost accrual. *)
Theorem unbilled_manager_charges_platform_defaults :
  forall cfg store platforms p req w,
    let m :=
      Manager.RegisterProvisioner platforms p
        (Manager.NewCloudManager cfg store) in
    (billing_Enabled (Billing cfg) = false \/ ServiceURL (Billing cfg) = "" ->
     Manager.billing m = NoopBillingClient)
    /\ (forall m',
           Manager.billing m' = NoopBillingClient ->
           let '(r, _, tr) := run World.handle (Manager.CreateInstance m' req) w in
           denials tr = []
           /\ existsb authorizeFailed tr = false
           /\ (r = Err ErrCloudDisabled \/ r = Err ErrMaxInstancesReached
               \/ grants tr
                  = [ {| Authorized := true; Tier := "unlimited";
                         HourlyCents :=
                           Billing.platformHourlyCents (req_Platform req);
                         Reason := ""; BillingAccount := "" |} ])
           /\ forall inst,
                r = Ok inst ->
                BillingTier inst = "unlimited"
                /\ HourlyRateCents inst
                   = Billing.platformHourlyCents (req_Platform req)
                /\ 1 <= HourlyRateCents inst <= 120).
Proof.
  intros cfg store platforms p req w m. split.
  - intros H. subst m. unfold Manager.RegisterProvisioner,
      Manager.NewCloudManager. cbn [Manager.billing].
    destruct H as [-> | ->]; [reflexivity|].
    rewrite andb_false_r. reflexivity.
  - intros m' Hb.
    pose proof (run_Exec World.handle (Manager.CreateInstance m' req) w) as E.
    destruct (run World.handle (Manager.CreateInstance m' req) w)
      as [[r w'] tr] eqn:R.
    pose proof (run_answered World.handle (Manager.CreateInstance m' req) w)
      as A.
    rewrite R in A. cbn [fst snd] in E, A.
    unfold Manager.CreateInstance, Manager.EmitInstanceEvent in E.
    rewrite Hb in E.
    exec_all E;
      repeat match goal with
        | F : Forall _ (_ :: _) |- _ =>
            apply Forall_cons_iff in F; destruct F as [? F]
        end;
      try match goal with
        | G : answeredBy _ (Ev (AuthorizeProvisioning _ _ _ _) _) |- _ =>
            destruct G as [w0 G]; cbn in G; try discriminate G;
            injection G as ->
        end;
      cbn; (split; [reflexivity|]); (split; [reflexivity|]);
      (split;
       [first [ left; reflexivity | right; left; reflexivity
              | right; right; reflexivity ]|]);
      intros inst Hi;
      try discriminate Hi;
      injection Hi as <-; cbn;
      (split; [reflexivity|]); (split; [reflexivity|]);
      apply platformHourlyCents_range.
Qed.

(** * The code at concrete inputs *)

Section Runs.

Import Scenario.

(** ** C7 *)

Lemma C7_recent_after_publishes_witness :
  let eb := EventBus.NewEventBus 2 in
  let evs := [("u1", 10, event ""); ("u2", 20, event "b")] in
  (EventBus.wf eb /\ 1 <= EventBus.len evs <= EventBus.bufferSize eb)
  /\ EventBus.Recent 2 (EventBus.publishAll evs eb) = EventBus.stamped evs.
Proof.
  intros eb evs.
  assert (Hwf : EventBus.wf eb) by (unfold EventBus.wf; cbn; lia).
  assert (Hn : 1 <= EventBus.len evs <= EventBus.bufferSize eb) by (cbn; lia).
  split; [split; assumption|].
  exact (proj1 (C7_recent_after_publishes eb evs 0 "" 0 (event "") Hwf Hn)).
Defined.

(** C7 as stated fails beyond the capacity: after three publishes on a
    bus of capacity two, [Recent 3] returns the last two events, not the
    three that were published. *)
Lemma C7_counterexample :
  let evs := [("", 0, event "a"); ("", 0, event "b"); ("", 0, event "c")] in
  let eb := EventBus.publishAll evs (EventBus.NewEventBus 2) in
  EventBus.Recent 3 eb = [event "b"; event "c"]
  /\ EventBus.Recent 3 eb <> EventBus.stamped evs.
Proof. vm_compute. split; [reflexivity | discriminate]. Qed.

(** ** C1 *)

Lemma C1_launch_failure_keeps_host_witness :
  let w := wLaunchRefused in
  let id := "90000000-0000-4000-8000-000000000000" in
  let '(r, w') :=
    World.exec (AWSProv.launchMacOSInstance awsP (request PlatformMacOS) id) w
  in
  r = Err (ProvisionError id PlatformMacOS "aws"
             (External "InsufficientHostCapacity"))
  /\ exists h,
       Storage.GetDedicatedHost (World.db w') "dh-h-1" = Ok h
       /\ dh_State h = "allocated"
       /\ dh_CurrentInstanceID h = id
       /\ dh_ReleasedAt h = None.
Proof.
  intros w id.
  apply (C1_launch_failure_keeps_host awsP (request PlatformMacOS) id w
           (Storage.modelToDedicatedHost hostRow) 86400
           (External "InsufficientHostCapacity"));
    try reflexivity; cbn; lia.
Defined.

(** The failing input of C1, through the manager: a macOS create on a
    world with one free host whose minimum allocation is 24 hours, where
    EC2 refuses the launch. The caller gets the [ProvisionError]; the host
    is left [allocated] to the instance that was never launched, with no
    release time. *)
Lemma C1_failing_run :
  let '(r, w', _) :=
    run World.handle (Manager.CreateInstance mgr (request PlatformMacOS))
      wLaunchRefused in
  r = Err (ProvisionError "10000000-0000-4000-8000-000000000000"
             PlatformMacOS "aws" (External "InsufficientHostCapacity"))
  /\ map (fun h => (Storage.m_State h, Storage.m_CurrentInstanceID h,
                    Storage.m_ReleasedAt h))
       (Storage.dedicated_hosts (World.db w'))
     = [("allocated", "10000000-0000-4000-8000-000000000000", None)].
Proof. vm_compute. split; reflexivity. Qed.

(** ** C2 *)


(** ** C3 *)

Lemma C3_accrual_pass_witness :
  let w := wAccrual in
  let hours := Hours (MonitorInterval (Monitor.config monitor)) in
  (Storage.outage (World.db w) = None
   /\ NoDup (map ID (Storage.cloud_instances (World.db w))))
  /\ let '(_, w', _) := run World.handle (Monitor.accrueUsageCosts monitor) w in
     forall row,
       In row (Storage.cloud_instances (World.db w)) ->
       exists row',
         Storage.GetCloudInstance (World.db w') (ID row) = Ok row'
         /\ AccruedCostCents row'
            = if String.eqb (State row) InstanceStateRunning
                 && (0 <? HourlyRateCents row)
              then wrap64
                     (AccruedCostCents row
                      + Z.max 1 (F64.to_int
                                   (F64.mul (F64.of_int (HourlyRateCents row))
                                      hours)))
              else AccruedCostCents row.
Proof.
  intros w hours.
  assert (Ho : Storage.outage (World.db w) = None) by reflexivity.
  assert (Hnd : NoDup (map ID (Storage.cloud_instances (World.db w)))).
  { cbn. repeat constructor; cbn; intuition discriminate. }
  split; [split; assumption|].
  exact (C3_accrual_pass monitor w Ho Hnd).
Defined.

(** With the default tick of 30 seconds, the default rates of the three
    platforms (1, 10 and 120 cents an hour) all accrue one cent a tick. *)
Lemma default_rates_accrue_one_cent :
  map (fun p => Monitor.costCents (Billing.platformHourlyCents p)
                  (Hours (MonitorInterval cfg)))
    [PlatformLinux; PlatformWindows; PlatformMacOS]
  = [1; 1; 1].
Proof. vm_compute. reflexivity. Qed.

(** C3 as stated fails on rounding: at 200 cents an hour and a tick of 30
    seconds the product is 1.67 cents; rounded it is 2, the code adds 1.
    The other rows behave as stated: the stopped one and the one without a
    rate accrue nothing, the one at 1 cent an hour accrues the floor of 1
    cent. *)
Lemma C3_counterexample :
  let '(_, w', _) :=
    run World.handle (Monitor.accrueUsageCosts monitor) wAccrual in
  map (fun i => (ID i, AccruedCostCents i))
    (Storage.cloud_instances (World.db w'))
  = [("a", 1); ("b", 0); ("c", 5); ("d", 8)]
  /\ roundedCost 200 (MonitorInterval (Monitor.config monitor)) = 2
  /\ Monitor.costCents 200 (Hours (MonitorInterval (Monitor.config monitor)))
     <> roundedCost 200 (MonitorInterval (Monitor.config monitor)).
Proof. vm_compute. repeat split; try reflexivity. discriminate. Qed.

(** ** C4 *)

Lemma C4_start_publishes_nothing_witness :
  let '(r, _, tr) := run World.handle (Manager.StartInstance mgr "a") wStopped in
  Exec (Manager.StartInstance mgr "a") tr r /\ published tr = [].
Proof.
  pose proof (run_Exec World.handle (Manager.StartInstance mgr "a") wStopped)
    as E.
  destruct (run World.handle (Manager.StartInstance mgr "a") wStopped)
    as [[r w'] tr].
  split; [exact E|].
  exact (C4_start_publishes_nothing mgr "a" tr r E).
Defined.

(** The failing input of C4: starting a stopped instance succeeds, EC2
    starts it and the store says [running], but the bus has received no
    event. Stopping a running instance on the same manager puts
    [instance.stopped] on the bus. *)
Lemma C4_failing_run :
  (let '(r, w', _) := run World.handle (Manager.StartInstance mgr "a") wStopped in
   r = None
   /\ map (fun i => (ID i, State i)) (Storage.cloud_instances (World.db w'))
      = [("a", InstanceStateRunning)]
   /\ map ec2_StateName (World.instances (World.ec2 w')) = ["pending"]
   /\ EventBus.Recent 0 (World.bus w') = [])
  /\ (let '(r, w', _) :=
        run World.handle (Manager.StopInstance mgr "a") wRunning in
      r = None
      /\ map (fun i => (ID i, State i)) (Storage.cloud_instances (World.db w'))
         = [("a", InstanceStateStopped)]
      /\ map ev_Type (EventBus.Recent 0 (World.bus w'))
         = [EventInstanceStopped]).
Proof. vm_compute. repeat split; reflexivity. Qed.

(** ** C5 *)

Lemma C5_billing_unavailable_fails_safe_witness :
  let '(r, w', tr) :=
    run World.handle (Manager.CreateInstance mgrBilled (request PlatformLinux))
      wTeamFull in
  existsb authorizeFailed tr = true
  /\ r = Err ErrBillingServiceUnavailable
  /\ existsb isProvisionerCall tr = false
  /\ existsb isStoreWrite tr = false.
Proof.
  pose proof (run_Exec World.handle
                (Manager.CreateInstance mgrBilled (request PlatformLinux))
                wTeamFull) as E.
  destruct (run World.handle
              (Manager.CreateInstance mgrBilled (request PlatformLinux))
              wTeamFull) as [[r w'] tr] eqn:R.
  cbn [fst snd] in E.
  assert (F : existsb authorizeFailed tr = true).
  { vm_compute in R. injection R as _ _ <-. reflexivity. }
  split; [exact F|].
  exact (C5_billing_unavailable_fails_safe mgrBilled
           (request PlatformLinux) tr r E F).
Defined.

(** ** C6 *)

Lemma C6_team_cap_before_billing_witness :
  (Enabled (Manager.config mgrCap2) = true
   /\ req_TeamID (request PlatformLinux) <> ""
   /\ Manager.hasStore mgrCap2 = true
   /\ Storage.outage (World.db wTeamFull) = None)
  /\ run World.handle (Manager.CreateInstance mgrCap2 (request PlatformLinux))
       wTeamFull
     = (Err ErrMaxInstancesReached, wTeamFull,
        [Ev (CountCloudInstancesByTeam "team") (Ok 2)]).
Proof.
  assert (He : Enabled (Manager.config mgrCap2) = true) by reflexivity.
  assert (Ht : req_TeamID (request PlatformLinux) <> "") by discriminate.
  assert (Hs : Manager.hasStore mgrCap2 = true) by reflexivity.
  assert (Ho : Storage.outage (World.db wTeamFull) = None) by reflexivity.
  split; [repeat split; assumption|].
  refine (C6_team_cap_before_billing mgrCap2 (request PlatformLinux)
            wTeamFull He Ht Hs Ho _).
  cbn. lia.
Defined.

(** ** C9 *)

Lemma C9_terminated_is_not_found_witness :
  fst (World.exec (AWSProv.GetInstance awsP "a") wTerminated)
  = Err ErrInstanceNotFound.
Proof.
  apply (proj1 (C9_terminated_is_not_found awsP "a" wTerminated)).
  - reflexivity.
  - intros i [<-|[]] _. right. reflexivity.
Defined.

(** ** C10 *)

Lemma C10_count_error_fails_open_witness :
  let '(r, _, tr) :=
    run World.handle (Manager.CreateInstance mgrCap2 (request PlatformLinux))
      (dbDown wTeamFull) in
  (Enabled (Manager.config mgrCap2) = true /\ existsb countFailed tr = true)
  /\ existsb isAuthorize tr = true
  /\ existsb isProvCreate tr = true
  /\ is_ok r = true.
Proof.
  pose proof (run_Exec World.handle
                (Manager.CreateInstance mgrCap2 (request PlatformLinux))
                (dbDown wTeamFull)) as E.
  destruct (run World.handle
              (Manager.CreateInstance mgrCap2 (request PlatformLinux))
              (dbDown wTeamFull)) as [[r w'] tr] eqn:R.
  cbn [fst snd] in E.
  assert (He : Enabled (Manager.config mgrCap2) = true) by reflexivity.
  assert (F : existsb countFailed tr = true
              /\ existsb authorizeGranted tr = true /\ is_ok r = true).
  { vm_compute in R. injection R as <- _ <-. repeat split; reflexivity. }
  destruct F as (F & G & K).
  destruct (C10_count_error_fails_open mgrCap2 (request PlatformLinux) tr r
              He E) as [Hopen _].
  destruct (Hopen F) as [Ha Hd].
  split; [split; assumption|].
  split; [exact Ha|]. split; [|exact K].
  apply (Hd G (ProvK8s k8sP)). reflexivity.
Defined.

End Runs.

(** * Further runs *)

Section MoreRuns.

Import Scenario Cases.

(** Peeling a run into its execution. *)
Ltac run_as E r w' tr R :=
  match goal with
  | |- context [run ?h ?p ?w] =>
      pose proof (run_Exec h p w) as E;
      destruct (run h p w) as [[r w'] tr] eqn:R;
      cbn [fst snd] in E
  end.

(** ** CloudManager *)

Lemma disabled_manager_makes_no_call_witness :
  Enabled (Manager.config mgrOff) = false
  /\ Manager.CreateInstance mgrOff (request PlatformLinux)
     = Ret (Err ErrCloudDisabled)
  /\ Manager.TerminateInstance mgrOff "a" = Ret (Some ErrCloudDisabled).
Proof.
  assert (H : Enabled (Manager.config mgrOff) = false) by reflexivity.
  destruct (disabled_manager_makes_no_call mgrOff H)
    as (Hc & _ & _ & _ & _ & Ht & _).
  split; [exact H|]. split; [apply Hc | apply Ht].
Defined.

Lemma GetInstance_store_first_then_provisioners_witness :
  let '(r, _, tr) := run World.handle (Manager.GetInstance mgr "a") wRunning in
  Enabled (Manager.config mgr) = true
  /\ Exec (Manager.GetInstance mgr "a") tr r
  /\ match r with
     | Ok inst =>
         (Manager.hasStore mgr = true
          /\ storeHits tr = [inst] /\ provisionerLookups tr = [])
         \/ (storeHits tr = []
             /\ exists ps1 kv ps2,
                  Manager.provisioners mgr = ps1 ++ kv :: ps2
                  /\ provisionerLookups tr
                     = map (fun kv => (snd kv, "a")) (ps1 ++ [kv])
                  /\ lookupAnswers tr = [(snd kv, inst)])
     | Err e =>
         e = ErrInstanceNotFound
         /\ storeHits tr = []
         /\ provisionerLookups tr
            = map (fun kv => (snd kv, "a")) (Manager.provisioners mgr)
     end.
Proof.
  run_as E r w' tr R.
  assert (H : Enabled (Manager.config mgr) = true) by reflexivity.
  split; [exact H|]. split; [exact E|].
  exact (GetInstance_store_first_then_provisioners mgr "a" tr r H E).
Defined.

Lemma ListInstances_store_or_aggregate_witness :
  let '(r, _, tr) :=
    run World.handle (Manager.ListInstances mgrNoStore noFilters) wEmpty in
  Enabled (Manager.config mgrNoStore) = true
  /\ Exec (Manager.ListInstances mgrNoStore noFilters) tr r
  /\ r = Ok (listed tr).
Proof.
  run_as E r w' tr R.
  assert (H : Enabled (Manager.config mgrNoStore) = true) by reflexivity.
  split; [exact H|]. split; [exact E|].
  exact (proj1 (ListInstances_store_or_aggregate mgrNoStore noFilters tr r
                  H E)).
Defined.

Lemma failed_lifecycle_call_changes_nothing_witness :
  let '(r, _, tr) :=
    run World.handle (Manager.StartInstance mgr "missing") wEmpty in
  r = Some ErrInstanceNotFound
  /\ instanceWrites tr = [] /\ published tr = [].
Proof.
  run_as E r w' tr R.
  assert (Hr : r = Some ErrInstanceNotFound).
  { vm_compute in R. injection R as <- _ _. reflexivity. }
  split; [exact Hr|]. rewrite Hr in E.
  exact (proj1 (failed_lifecycle_call_changes_nothing mgr "missing"
                  ErrInstanceNotFound) tr E).
Defined.

Lemma CreateInstance_success_is_billed_stored_announced_witness :
  let '(r, _, tr) :=
    run World.handle (Manager.CreateInstance mgr (request PlatformLinux))
      wEmpty in
  exists inst auth,
    r = Ok inst
    /\ grants tr = [auth]
    /\ createCalls tr = [(ProvK8s k8sP, request PlatformLinux)]
    /\ HourlyRateCents inst = HourlyCents auth
    /\ instanceCreates tr = [inst]
    /\ map ev_Type (published tr)
       = [EventInstanceRequested; EventInstanceProvisioning].
Proof.
  run_as E r w' tr R.
  assert (Hr : exists inst, r = Ok inst).
  { vm_compute in R. injection R as <- _ _. eexists. reflexivity. }
  destruct Hr as [inst Hr]. rewrite Hr in E.
  destruct (CreateInstance_success_is_billed_stored_announced mgr
              (request PlatformLinux) tr inst E)
    as (auth & prov & raw & t1 & t2 & _ & Hg & Hf & Hd & _ & Hi & Hc & _ & Hp).
  exists inst, auth. split; [exact Hr|]. split; [exact Hg|].
  split; [rewrite Hd; vm_compute in Hf; injection Hf as <-; reflexivity|].
  split; [rewrite Hi; reflexivity|]. split; [exact Hc|].
  rewrite Hp. reflexivity.
Defined.

Lemma CreateInstance_failure_leaves_no_record_witness :
  let '(r, w', tr) :=
    run World.handle (Manager.CreateInstance mgr (request PlatformMacOS))
      wLaunchRefused in
  (exists e, r = Err e /\ refusals tr = [e])
  /\ existsb isStoreWrite tr = false
  /\ Storage.cloud_instances (World.db w')
     = Storage.cloud_instances (World.db wLaunchRefused)
  /\ map Storage.m_State (Storage.dedicated_hosts (World.db wLaunchRefused))
     = ["available"]
  /\ map Storage.m_State (Storage.dedicated_hosts (World.db w'))
     = ["allocated"].
Proof.
  destruct (CreateInstance_failure_leaves_no_record mgr
              (request PlatformMacOS)) as [T W].
  specialize (W wLaunchRefused).
  pose proof (run_Exec World.handle
                (Manager.CreateInstance mgr (request PlatformMacOS))
                wLaunchRefused) as E.
  destruct (run World.handle
              (Manager.CreateInstance mgr (request PlatformMacOS))
              wLaunchRefused) as [[r w'] tr] eqn:R.
  cbn [fst snd] in E.
  assert (Hr : exists e, r = Err e
               /\ map Storage.m_State (Storage.dedicated_hosts (World.db w'))
                  = ["allocated"]).
  { vm_compute in R. injection R as <- <- _. eexists.
    split; reflexivity. }
  destruct Hr as (e & -> & Hh).
  destruct (T tr e E) as (Hw & _ & [[Hp _]|(t & Hp & Hf)]).
  - exfalso. vm_compute in R. injection R as _ _ <-. discriminate Hp.
  - split; [exists e; split; [reflexivity | exact Hf]|].
    split; [exact Hw|]. split; [exact (W eq_refl)|].
    split; [reflexivity | exact Hh].
Defined.

Lemma CreateInstance_rejected_before_dispatch_witness :
  let '(r, _, tr) :=
    run World.handle (Manager.CreateInstance mgrBilled (request PlatformLinux))
      wDenied in
  denials tr <> []
  /\ r = Err (Wrapf "billing authorization denied: quota exceeded"
                ErrBillingNotAuthorized)
  /\ existsb isProvisionerCall tr = false
  /\ published tr = [].
Proof.
  run_as E r w' tr R.
  assert (Hd : denials tr = ["quota exceeded"]).
  { vm_compute in R. injection R as _ _ <-. reflexivity. }
  assert (Hn : denials tr <> []) by (rewrite Hd; discriminate).
  split; [exact Hn|].
  destruct (proj1 (CreateInstance_rejected_before_dispatch mgrBilled
                     (request PlatformLinux) tr r E) Hn)
    as (reason & Hre & Hr & Hp & _ & Hpub).
  rewrite Hd in Hre. injection Hre as <-.
  split; [exact Hr|]. split; [exact Hp | exact Hpub].
Defined.

Lemma unbilled_manager_charges_platform_defaults_witness :
  billing_Enabled (Billing cfg) = false
  /\ Manager.billing mgr = NoopBillingClient
  /\ let '(r, _, tr) :=
       run World.handle (Manager.CreateInstance mgr (request PlatformLinux))
         wEmpty in
     map (fun a => (Authorized a, Tier a, HourlyCents a)) (grants tr)
     = [(true, "unlimited", 1)]
     /\ exists inst,
          r = Ok inst
          /\ BillingTier inst = "unlimited" /\ HourlyRateCents inst = 1.
Proof.
  assert (H : billing_Enabled (Billing cfg) = false) by reflexivity.
  split; [exact H|].
  destruct (unbilled_manager_charges_platform_defaults cfg true
              [PlatformWindows; PlatformMacOS] (ProvAWS awsP)
              (request PlatformLinux) wEmpty) as [Hb Hn].
  assert (Hm : Manager.billing mgr = NoopBillingClient)
    by exact (Hb (or_introl H)).
  split; [exact Hm|].
  specialize (Hn mgr Hm).
  destruct (run World.handle
              (Manager.CreateInstance mgr (request PlatformLinux)) wEmpty)
    as [[r w'] tr] eqn:R.
  destruct Hn as (_ & _ & Hg & Hi).
  assert (Hr : exists inst, r = Ok inst).
  { vm_compute in R. injection R as <- _ _. eexists. reflexivity. }
  destruct Hr as [inst Hr].
  destruct Hg as [Hg | [Hg | Hg]];
    [rewrite Hr in Hg; discriminate Hg
    |rewrite Hr in Hg; discriminate Hg|].
  split; [rewrite Hg; reflexivity|].
  exists inst. destruct (Hi inst Hr) as (Ht & Hc & _).
  split; [exact Hr|]. split; [exact Ht|]. rewrite Hc. reflexivity.
Defined.

(** ** Storage *)

Lemma updated_instance_is_read_back_witness :
  let ls := World.db wRunning in
  let inst := instanceRow "a" "windows" "stopped" 10 0 in
  Storage.outage ls = None
  /\ fst (Storage.UpdateCloudInstance t0 ls inst) = None
  /\ exists r,
       Storage.GetCloudInstance
         (snd (Storage.UpdateCloudInstance t0 ls inst)) (ID inst) = Ok r
       /\ Storage.cloudInstanceToModel r = Storage.cloudInstanceToModel inst.
Proof.
  intros ls inst.
  assert (H : Storage.outage ls = None) by reflexivity.
  destruct (updated_instance_is_read_back t0 ls inst H) as (H1 & H2 & _).
  split; [exact H|]. split; [exact H1 | exact H2].
Defined.

Lemma create_refuses_duplicates_delete_forgets_witness :
  let ls := World.db wRunning in
  let inst := instanceRow "a" "windows" "stopped" 10 0 in
  Storage.outage ls = None
  /\ snd (Storage.CreateCloudInstance t0 ls inst) = ls
  /\ Storage.GetCloudInstance (snd (Storage.DeleteCloudInstance ls "a")) "a"
     = Err (Errorf "cloud instance not found: a").
Proof.
  intros ls inst.
  assert (H : Storage.outage ls = None) by reflexivity.
  destruct (create_refuses_duplicates_delete_forgets t0 ls inst "a" H)
    as (Hc & _ & Hd & _).
  split; [exact H|]. split; [exact (proj2 Hc) | exact Hd].
Defined.

Lemma listed_instances_match_filters_newest_first_witness :
  exists l,
    Storage.ListCloudInstances (World.db wAccrual)
      (stateFilter InstanceStateRunning) = Ok l
    /\ StronglySorted (fun a b => CreatedAt b <= CreatedAt a) l
    /\ Forall (fun i => State i = InstanceStateRunning) l.
Proof.
  eexists. split; [reflexivity|].
  destruct (listed_instances_match_filters_newest_first (World.db wAccrual)
              (stateFilter InstanceStateRunning) _ eq_refl)
    as (Hf & Hs & _).
  split; [exact Hs|].
  eapply Forall_impl; [|exact Hf].
  intros i (_ & _ & Hst & _). apply Hst. reflexivity.
Defined.

Lemma terminated_instance_frees_team_slot_witness :
  let ls := World.db wTeamFull in
  let inst := instanceRow "a" "linux" "terminated" 1 0 in
  (Storage.outage ls = None
   /\ Storage.GetCloudInstance ls (ID inst)
      = Ok (instanceRow "a" "linux" "running" 1 0)
   /\ Storage.CountCloudInstancesByTeam ls (TeamID inst) = Ok 2)
  /\ Storage.CountCloudInstancesByTeam
       (snd (Storage.UpdateCloudInstance t0 ls inst)) (TeamID inst)
     = Ok (2 - 1).
Proof.
  intros ls inst.
  assert (Ho : Storage.outage ls = None) by reflexivity.
  assert (Hg : Storage.GetCloudInstance ls (ID inst)
               = Ok (instanceRow "a" "linux" "running" 1 0))
    by reflexivity.
  assert (Hn : Storage.CountCloudInstancesByTeam ls (TeamID inst) = Ok 2)
    by reflexivity.
  split; [repeat split; assumption|].
  apply (terminated_instance_frees_team_slot t0 ls inst
           (instanceRow "a" "linux" "running" 1 0) 2 Ho Hg);
    [reflexivity | left; reflexivity | exact Hn].
Defined.

Lemma saved_host_is_read_back_in_whole_seconds_witness :
  let ls := World.db wEmpty in
  let h :=
    {| dh_ID := "dh-h-9"; dh_HostID := "h-9"; dh_InstanceType := "mac2.metal";
       dh_State := "available"; dh_CurrentInstanceID := "";
       dh_AllocatedAt := None; dh_ReleasedAt := None;
       dh_MinAllocation := 1500 * 1000000; dh_CreatedAt := 0;
       dh_UpdatedAt := 0 |} in
  (Storage.outage ls = None
   /\ min_int64 <= dh_MinAllocation h <= max_int64)
  /\ exists h',
       Storage.GetDedicatedHost
         (snd (Storage.UpdateDedicatedHost t0 ls h)) (dh_ID h) = Ok h'
       /\ dh_MinAllocation h' = 1 * Second.
Proof.
  intros ls h.
  assert (Ho : Storage.outage ls = None) by reflexivity.
  assert (Hr : min_int64 <= dh_MinAllocation h <= max_int64)
    by (unfold min_int64, max_int64; cbn; lia).
  split; [split; assumption|].
  destruct (saved_host_is_read_back_in_whole_seconds t0 ls h Ho Hr)
    as (_ & (h' & Hg & _ & _ & _ & _ & _ & _ & _ & Hm) & _).
  exists h'. split; [exact Hg|]. rewrite Hm. reflexivity.
Defined.

Lemma available_host_is_free_and_oldest_witness :
  Storage.outage (World.db wFreeHost) = None
  /\ match Storage.GetAvailableDedicatedHost (World.db wFreeHost) with
     | Ok h => dh_State h = "available" /\ dh_CurrentInstanceID h = ""
     | Err e => e = Errorf "no available dedicated host"
     end.
Proof.
  assert (Ho : Storage.outage (World.db wFreeHost) = None) by reflexivity.
  split; [exact Ho|].
  pose proof (available_host_is_free_and_oldest (World.db wFreeHost) Ho) as H.
  destruct (Storage.GetAvailableDedicatedHost (World.db wFreeHost)).
  - destruct H as (H1 & H2 & _). split; assumption.
  - exact (proj1 H).
Defined.

(** ** Dedicated hosts *)

Lemma acquired_host_is_not_offered_again_witness :
  let '(r, w1) := World.exec (AWSProv.acquireDedicatedHost awsP "a") wFreeHost in
  NoDup (map Storage.m_ID (Storage.dedicated_hosts (World.db wFreeHost)))
  /\ exists h,
       r = Ok h
       /\ dh_State h = "allocated"
       /\ fst (World.exec (AWSProv.acquireDedicatedHost awsP "b") w1)
          = Err ErrNoAvailableHost.
Proof.
  destruct (World.exec (AWSProv.acquireDedicatedHost awsP "a") wFreeHost)
    as [r w1] eqn:R.
  assert (Hn : NoDup (map Storage.m_ID
                        (Storage.dedicated_hosts (World.db wFreeHost)))).
  { cbn. constructor; [intros []|constructor]. }
  split; [exact Hn|].
  assert (Hr : exists h, r = Ok h).
  { vm_compute in R. injection R as <- _. eexists. reflexivity. }
  destruct Hr as [h Hr]. rewrite Hr in R.
  destruct (acquired_host_is_not_offered_again awsP "a" "b" wFreeHost h w1
              Hn R) as (Hs & _ & _ & _ & Hnext).
  exists h. split; [exact Hr|]. split; [exact Hs|].
  assert (Hb : exists e,
             fst (World.exec (AWSProv.acquireDedicatedHost awsP "b") w1)
             = Err e).
  { vm_compute in R. injection R as _ <-. eexists. vm_compute. reflexivity. }
  destruct Hb as [e Hb]. rewrite Hb in Hnext |- *. rewrite Hnext.
  reflexivity.
Defined.

Lemma aws_terminate_result_ignores_host_release_witness :
  let '(r, w', tr) :=
    run World.base (AWSProv.TerminateInstance awsP macID) wMacHeld in
  (Exec (AWSProv.TerminateInstance awsP macID) tr r
   /\ nondecreasing (clockReadings tr)
   /\ fst (World.exec (AWSProv.describeInstanceByTag macID) wMacHeld)
      = Ok macInstance
   /\ Before (World.clock wMacHeld)
        (Add (t0 - 25 * Hour) (wrap64 (86400 * Second))) = false)
  /\ r = None
  /\ Forall (fun h => dh_State h = "available"
                      /\ (dh_AllocatedAt h = None
                          \/ heldAtLeast (dh_MinAllocation h) h))
       (hostWrites tr)
  /\ exists stored,
       Storage.GetDedicatedHost (World.db w') "dh-h-1" = Ok stored
       /\ dh_State stored = "available"
       /\ dh_CurrentInstanceID stored = ""
       /\ dh_ReleasedAt stored = Some (t0 + 1 * Second).
Proof.
  destruct (aws_terminate_result_ignores_host_release awsP macID)
    as [T W].
  assert (Hd : fst (World.exec (AWSProv.describeInstanceByTag macID) wMacHeld)
               = Ok macInstance) by (vm_compute; reflexivity).
  assert (Hb : Before (World.clock wMacHeld)
                 (Add (t0 - 25 * Hour) (wrap64 (86400 * Second))) = false)
    by (vm_compute; reflexivity).
  assert (Hnd : NoDup (map Storage.m_ID
                         (Storage.dedicated_hosts (World.db wMacHeld)))).
  { cbn. constructor; [intros []|constructor]. }
  pose proof (W wMacHeld macInstance "h-1" (macHostRow (t0 - 25 * Hour))
                (t0 - 25 * Hour) eq_refl eq_refl Hd eq_refl Hnd eq_refl
                eq_refl) as Hw.
  pose proof (run_Exec World.base (AWSProv.TerminateInstance awsP macID)
                wMacHeld) as E.
  unfold World.exec in Hw.
  destruct (run World.base (AWSProv.TerminateInstance awsP macID) wMacHeld)
    as [[r w'] tr] eqn:R.
  cbn [fst snd] in E.
  assert (M : nondecreasing (clockReadings tr)).
  { vm_compute in R. injection R as _ _ <-. cbn. lia. }
  split; [repeat split; assumption|].
  destruct Hw as [Hr Hw].
  change (Storage.m_MinAllocationSec (macHostRow (t0 - 25 * Hour)))
    with 86400 in Hw.
  rewrite Hb in Hw. destruct Hw as (stored & Hg & Hst & Hc & _ & Hrel).
  split; [exact Hr|]. split; [exact (proj2 (T tr r E) M)|].
  exists stored. repeat split; assumption.
Defined.

Lemma macos_launch_is_placed_on_the_acquired_host_witness :
  let id := "90000000-0000-4000-8000-000000000000" in
  let '(r, _, tr) :=
    run World.base
      (AWSProv.launchMacOSInstance awsP (request PlatformMacOS) id)
      wFreeHost in
  (8 <= String.length id)%nat
  /\ Exec (AWSProv.launchMacOSInstance awsP (request PlatformMacOS) id) tr r
  /\ is_ok r = true
  /\ exists input,
       launches tr = [input]
       /\ in_PlacementHostId input = Some "h-1"
       /\ lookup "Name" (in_Tags input) = Some "hanzo-mac-bot-90000000".
Proof.
  intros id. run_as E r w' tr R.
  assert (Hlen : (8 <= String.length id)%nat) by (vm_compute; lia).
  split; [exact Hlen|]. split; [exact E|].
  assert (Hr : is_ok r = true).
  { vm_compute in R. injection R as <- _ _. reflexivity. }
  split; [exact Hr|].
  destruct (macos_launch_is_placed_on_the_acquired_host awsP
              (request PlatformMacOS) id tr r Hlen E)
    as [[_ Hf]|(host & t & short & rest & input & Hl & _ & _ & _ & _ & _)].
  - rewrite Hr in Hf. discriminate Hf.
  - exists input. split; [exact Hl|].
    vm_compute in R. injection R as _ _ <-.
    cbn in Hl. injection Hl as <-. split; reflexivity.
Defined.

Lemma seeding_adds_missing_hosts_only_witness :
  Storage.outage (World.db wEmpty) = None
  /\ In "h-1"
       (map Storage.m_HostID
          (Storage.dedicated_hosts
             (World.db
                (snd (World.exec (AWSProv.SeedDedicatedHosts awsP) wEmpty))))).
Proof.
  assert (Ho : Storage.outage (World.db wEmpty) = None) by reflexivity.
  split; [exact Ho|].
  destruct (seeding_adds_missing_hosts_only awsP wEmpty) as (_ & _ & H).
  apply (H Ho "h-1"); [left; reflexivity | reflexivity].
Defined.

(** ** Instance monitor *)

Lemma stale_provisioning_is_announced_failed_witness :
  let '(r, _, tr) :=
    run World.handle (Monitor.cleanupStaleProvisioning monitor) wStale in
  Exec (Monitor.cleanupStaleProvisioning monitor) tr r
  /\ min_int64 < ProvisioningTimeout (Monitor.config monitor) <= max_int64
  /\ announced EventInstanceFailed tr = ["a"]
  /\ wrap64 (- ProvisioningTimeout (Monitor.config monitor)) = - (10 * Minute).
Proof.
  run_as E r w' tr R. split; [exact E|].
  assert (B : min_int64 < ProvisioningTimeout (Monitor.config monitor)
              <= max_int64) by (vm_compute; split; [reflexivity|discriminate]).
  split; [exact B|].
  destruct (stale_provisioning_is_announced_failed monitor tr r E)
    as (H & Hw & _).
  split; [|exact (Hw B)].
  assert (Hl : storeListings tr = [Some [freshRow; staleRow]]
               /\ hd_error (clockReadings tr) = Some t0).
  { vm_compute in R. injection R as _ _ <-. split; reflexivity. }
  destruct Hl as [Hl Hc]. rewrite Hl in H.
  destruct H as (now & Hn & Ha). rewrite Hc in Hn. injection Hn as <-.
  rewrite Ha. reflexivity.
Defined.

Lemma accrual_writes_billable_and_reports_saved_witness :
  let '(r, _, tr) :=
    run World.handle (Monitor.accrueUsageCosts monitor) wAccrual in
  Exec (Monitor.accrueUsageCosts monitor) tr r
  /\ usageReports tr
     = map (fun i => (ID i, Platform_ i,
                      Hours (MonitorInterval (Monitor.config monitor)),
                      HourlyRateCents i)) (savedOk tr).
Proof.
  run_as E r w' tr R. split; [exact E|].
  exact (proj1 (accrual_writes_billable_and_reports_saved monitor tr r E)).
Defined.

Lemma sync_writes_only_state_changes_witness :
  let inst := instanceRow "a" "windows" "running" 10 0 in
  let '(r, _, tr) := run World.handle (Monitor.syncOne monitor inst) wStopped in
  Exec (Monitor.syncOne monitor inst) tr r
  /\ exists w,
       instanceWrites tr = [w] /\ State w = InstanceStateStopped
       /\ published tr = [].
Proof.
  intros inst. run_as E r w' tr R. split; [exact E|].
  pose proof (sync_writes_only_state_changes monitor inst tr r E) as H.
  assert (Hl : exists q live,
             lookupAnswers tr = [(q, live)]
             /\ State live = InstanceStateStopped).
  { vm_compute in R. injection R as _ _ <-.
    eexists _, _. split; reflexivity. }
  destruct Hl as (q & live & Hl & Hs). rewrite Hl in H.
  destruct H as [_ H]. rewrite Hs in H. cbn in H.
  destruct H as [(w & Hw & _ & Hst & _) Hp].
  exists w. split; [exact Hw|]. split; [exact Hst|].
  destruct (published tr); [reflexivity | discriminate Hp].
Defined.

Lemma aws_termination_is_invisible_to_sync_witness :
  let inst := instanceRow "a" "windows" "running" 10 0 in
  Manager.getProvisioner (Monitor.manager monitor) (Platform_ inst)
  = Ok (ProvAWS awsP)
  /\ let '(_, w', tr) := run World.handle (Monitor.syncOne monitor inst) wGone in
     Forall (fun ev => ev_Type ev = EventInstanceRunning) (published tr)
     /\ w' = wGone.
Proof.
  intros inst.
  assert (Hp : Manager.getProvisioner (Monitor.manager monitor)
                 (Platform_ inst) = Ok (ProvAWS awsP)) by reflexivity.
  split; [exact Hp|].
  pose proof (aws_termination_is_invisible_to_sync monitor inst awsP wGone Hp)
    as H.
  destruct (run World.handle (Monitor.syncOne monitor inst) wGone)
    as [[r w'] tr].
  destruct H as (_ & Hpub & Hgone). split; [exact Hpub|].
  apply Hgone; [reflexivity|].
  intros i [<-|[]] _. right. reflexivity.
Defined.

Lemma aws_sync_sets_timestamps_once_witness :
  let inst := instanceRow "a" "windows" "running" 10 7 in
  let '(res, _, tr) :=
    run World.base (AWSProv.SyncInstanceState awsP inst) wStopped in
  Exec (AWSProv.SyncInstanceState awsP inst) tr res
  /\ ID (fst res) = "a" /\ AccruedCostCents (fst res) = 7.
Proof.
  intros inst. run_as E res w' tr R. split; [exact E|].
  destruct res as [inst' e]. cbn [fst].
  destruct (aws_sync_sets_timestamps_once awsP inst tr inst' e E)
    as (_ & Hi & _ & Ha & _).
  split; [exact Hi | exact Ha].
Defined.

(** ** Provisioners *)

Lemma k8s_instance_is_found_until_terminated_witness :
  let '(r, w1) :=
    World.exec (K8sProv.CreateInstance k8sP (request PlatformLinux)) wEmpty in
  exists inst,
    r = Ok inst
    /\ (exists found,
           fst (World.exec (K8sProv.GetInstance k8sP (ID inst)) w1) = Ok found
           /\ State found = InstanceStateProvisioning)
    /\ (let '(e, w2) :=
          World.exec (K8sProv.TerminateInstance k8sP (ID inst)) w1 in
        e = None
        /\ fst (World.exec (K8sProv.GetInstance k8sP (ID inst)) w2)
           = Err ErrInstanceNotFound).
Proof.
  destruct (World.exec (K8sProv.CreateInstance k8sP (request PlatformLinux))
              wEmpty) as [r w1] eqn:R.
  assert (Hr : exists inst, r = Ok inst).
  { vm_compute in R. injection R as <- _. eexists. reflexivity. }
  destruct Hr as [inst Hr]. rewrite Hr in R.
  assert (Hf : forall pod,
             In pod (World.pods (World.k8s wEmpty)) ->
             World.selects (Namespace (k8sCfg k8sP))
               [("hanzo.ai/cloud-instance", ID inst)] pod = false)
    by (intros pod []).
  destruct (k8s_instance_is_found_until_terminated k8sP
              (request PlatformLinux) wEmpty inst w1 R Hf)
    as (_ & (found & Hg & _ & _ & Hs & _) & Ht).
  exists inst. split; [exact Hr|]. split; [|exact Ht].
  exists found. split; [exact Hg | exact Hs].
Defined.

Lemma aws_created_instance_is_found_witness :
  let '(r, w1) :=
    World.exec (AWSProv.CreateInstance awsP (request PlatformWindows)) wEmpty
  in
  exists inst found,
    r = Ok inst
    /\ fst (World.exec (AWSProv.GetInstance awsP (ID inst)) w1) = Ok found
    /\ InstanceID found = InstanceID inst
    /\ State found = InstanceStateProvisioning.
Proof.
  destruct (World.exec (AWSProv.CreateInstance awsP (request PlatformWindows))
              wEmpty) as [r w1] eqn:R.
  assert (Hr : exists inst, r = Ok inst).
  { vm_compute in R. injection R as <- _. eexists. reflexivity. }
  destruct Hr as [inst Hr]. rewrite Hr in R.
  assert (Hf : forall i,
             In i (World.instances (World.ec2 wEmpty)) ->
             World.matchFilter (World.tagFilter (ID inst)) i = false)
    by (intros i []).
  destruct (aws_created_instance_is_found awsP (request PlatformWindows)
              wEmpty inst w1 R Hf)
    as (_ & found & Hg & _ & _ & Hs & Hi & _).
  exists inst, found. split; [exact Hr|]. split; [exact Hg|].
  split; [exact Hi | exact Hs].
Defined.

(** ** Event bus and configuration *)

Lemma subscriber_receives_first_32_events_witness :
  "b" <> "a"
  /\ EventBus.channel "b"
       (EventBus.Subscribe "a" (EventBus.Subscribe "b" Manager.newEventBus))
     = EventBus.channel "b" (EventBus.Subscribe "b" Manager.newEventBus).
Proof.
  assert (H : "b" <> "a") by discriminate.
  split; [exact H|].
  destruct (subscriber_receives_first_32_events
              (EventBus.Subscribe "b" Manager.newEventBus) "a" [])
    as (_ & _ & _ & _ & Ho).
  exact (proj1 (Ho "b" H)).
Defined.

Lemma Defaults_fills_zero_values_once_witness :
  MaxInstancesPerTeam cfgCap2 <> 0
  /\ MaxInstancesPerTeam (Defaults cfgCap2) = 2.
Proof.
  assert (H : MaxInstancesPerTeam cfgCap2 <> 0) by discriminate.
  split; [exact H|].
  destruct (Defaults_fills_zero_values_once cfgCap2)
    as (_ & _ & _ & Hm & _).
  rewrite (Hm H). reflexivity.
Defined.

End MoreRuns.
